(** * The [next dev] supervisor ([packages/next/src/cli/next-dev.ts])

    A shallow embedding of the parent process of the development server:
    the module-level session variables, the shutdown coordinator
    [handleSessionStop], the command [nextDev] with its local functions
    [preflight], [startServer] and [runDevServer], and the event loop that
    runs their handlers to completion, one event at a time.

    Every call the source makes to something outside the file (the worker,
    the telemetry client, the terminal, [process.exit], ...) is recorded as
    an [Effect] in the trace of the handler that made it; what such a call
    answers (a loaded configuration, a thrown error, a certificate) is
    supplied with the event that runs the handler. Calls whose failure no
    property below is about ([fork], [uploadTrace], [process.stdout.write],
    [setGlobal], [loadEnvConfig]) are taken to return. *)

From Stdlib Require Import ZArith String Ascii List Bool Lia Sorted Permutation.
From stdpp Require Import base option list strings gmap.
Import ListNotations.

Local Open Scope Z_scope.

(** ** JavaScript truthiness of the values the source tests *)

Definition truthy_string (s : string) : bool := negb (String.eqb s EmptyString).

Definition truthy (o : option string) : bool :=
  match o with
  | Some s => truthy_string s
  | None => false
  end.

Definition truthy_flag (o : option bool) : bool :=
  match o with
  | Some b => b
  | None => false
  end.

(** [a || b] on possibly undefined strings *)
Definition js_or (a b : option string) : option string :=
  if truthy a then a else b.

(** ** Data *)

(** The identity of a [ChildProcess] object returned by [fork]: the number
    of the worker generation. *)
Definition handle := nat.

(** What [child.kill] is given: a signal name or a number. *)
Inductive KillArg :=
| KillSignal (name : string)
| KillNumber (n : Z).

(** The fields of [NextConfigComplete] the file reads. *)
Record NextConfigComplete := {
  distDir : option string;
  serverActions : bool          (* truthiness of config.experimental.serverActions *)
}.

Record Certificate := { key : string; cert : string }.

(** [StartServerOptions], as [devServerOptions] builds it, with the
    optional [selfSignedCertificate]. *)
Record StartServerOptions := {
  opt_dir : string;
  opt_port : Z;
  opt_allowRetry : bool;
  opt_isDev : bool;
  opt_hostname : option string;
  opt_isExperimentalTestProxy : option bool;
  opt_envInfo : list string;
  opt_expFeatureInfo : list string;
  opt_selfSignedCertificate : option Certificate
}.

Definition with_certificate (c : option Certificate) (o : StartServerOptions)
  : StartServerOptions :=
  {| opt_dir := opt_dir o; opt_port := opt_port o;
     opt_allowRetry := opt_allowRetry o; opt_isDev := opt_isDev o;
     opt_hostname := opt_hostname o;
     opt_isExperimentalTestProxy := opt_isExperimentalTestProxy o;
     opt_envInfo := opt_envInfo o; opt_expFeatureInfo := opt_expFeatureInfo o;
     opt_selfSignedCertificate := c |}.

(** The parsed command line ([args]). *)
Record Args := {
  arg_help : option bool;                 (* args['--help'] *)
  arg_positional : list string;           (* args._ *)
  arg_port : option Z;                    (* args['--port'] *)
  arg_hostname : option string;           (* args['--hostname'] *)
  arg_upload_trace : option string;       (* args['--experimental-upload-trace'] *)
  arg_test_proxy : option bool;           (* args['--experimental-test-proxy'] *)
  arg_turbo : option bool;                (* args['--turbo'] *)
  arg_https : option bool;                (* args['--experimental-https'] *)
  arg_https_key : option string;          (* args['--experimental-https-key'] *)
  arg_https_cert : option string          (* args['--experimental-https-cert'] *)
}.

(** The module-level variables of the file. *)
Record Session := {
  dir : option string;
  child : option handle;
  config : option NextConfigComplete;
  isTurboSession : bool;
  traceUploadUrl : option string;
  sessionStopHandled : bool;
  sessionStarted : Z
}.

Definition set_dir (d : string) (s : Session) : Session :=
  {| dir := Some d; child := child s; config := config s;
     isTurboSession := isTurboSession s; traceUploadUrl := traceUploadUrl s;
     sessionStopHandled := sessionStopHandled s;
     sessionStarted := sessionStarted s |}.

Definition set_child (h : handle) (s : Session) : Session :=
  {| dir := dir s; child := Some h; config := config s;
     isTurboSession := isTurboSession s; traceUploadUrl := traceUploadUrl s;
     sessionStopHandled := sessionStopHandled s;
     sessionStarted := sessionStarted s |}.

Definition set_config (c : NextConfigComplete) (s : Session) : Session :=
  {| dir := dir s; child := child s; config := Some c;
     isTurboSession := isTurboSession s; traceUploadUrl := traceUploadUrl s;
     sessionStopHandled := sessionStopHandled s;
     sessionStarted := sessionStarted s |}.

Definition set_traceUploadUrl (u : option string) (s : Session) : Session :=
  {| dir := dir s; child := child s; config := config s;
     isTurboSession := isTurboSession s; traceUploadUrl := u;
     sessionStopHandled := sessionStopHandled s;
     sessionStarted := sessionStarted s |}.

Definition set_sessionStopHandled (s : Session) : Session :=
  {| dir := dir s; child := child s; config := config s;
     isTurboSession := isTurboSession s; traceUploadUrl := traceUploadUrl s;
     sessionStopHandled := true;
     sessionStarted := sessionStarted s |}.

(** The argument of [eventCliSessionStopped]. *)
Record SessionStopped := {
  cliCommand : string;
  turboFlag : bool;
  durationMilliseconds : Z;
  ev_pagesDir : bool;
  ev_appDir : bool
}.

(** The argument of [uploadTrace]. *)
Record UploadTrace := {
  ut_traceUploadUrl : string;
  ut_mode : string;
  ut_isTurboSession : bool;
  ut_projectDir : option string;
  ut_distDir : option string
}.

(** ** Calls that leave the file *)

Inductive Effect :=
| EKill (h : handle) (a : KillArg)                 (* child.kill(a) *)
| ELoadConfig (d : option string)                  (* loadConfig(PHASE_DEVELOPMENT_SERVER, dir) *)
| ENewTelemetry (dist : string)                    (* new Telemetry({ distDir }) *)
| EFindPagesDir (d : option string)                (* findPagesDir(dir) *)
| ETelemetryRecord (ev : SessionStopped)           (* telemetry.record(event, true) *)
| ETelemetryFlushDetached (d : option string)      (* telemetry.flushDetached('dev', dir) *)
| EUploadTrace (u : UploadTrace)                   (* uploadTrace({...}) *)
| EStdoutWrite (s : string)                        (* process.stdout.write(s) *)
| EProcessExit (code : Z)                          (* process.exit(code) *)
| EConsoleLog (s : string)                         (* console.log(s) *)
| EConsoleErrorCaught                              (* console.error(err) *)
| EPrint (s : string)                              (* the message printAndExit prints *)
| ELogWarn (s : string)                            (* Log.warn(s) *)
| ESetGlobal (k v : string)                        (* setGlobal(k, v) *)
| EFileExists (d : string)                         (* fileExists(dir, FileType.Directory) *)
| ELoadEnvConfig (d : string)                      (* loadEnvConfig(dir, true, console, false) *)
| EValidateTurboNextConfig (custom : bool) (o : StartServerOptions)
| ECreateSelfSignedCertificate (host : option string)
| EFork (h : handle) (env : gmap string string)    (* child = fork(startServerPath, { env }) *)
| ESend (h : handle) (o : StartServerOptions)      (* child.send({ nextWorkerOptions: o }) *)
| EResolve (h : handle)                            (* resolve() of the promise of generation h *)
| EPreflight (skipOnReboot : bool)                 (* preflight(reboot) *)
| ERejected.                                       (* an async function of the file rejects *)

(** The cursor-restoring escape sequence ['\x1B[?25h'] and ['\n']. *)
Definition show_cursor : string := String (ascii_of_nat 27) "[?25h".
Definition newline : string := String (ascii_of_nat 10) EmptyString.

(** Classifiers of the calls the shutdown coordinator guards. *)
Definition is_telemetry_record (e : Effect) : bool :=
  match e with ETelemetryRecord _ => true | _ => false end.
Definition is_upload_trace (e : Effect) : bool :=
  match e with EUploadTrace _ => true | _ => false end.
Definition is_show_cursor (e : Effect) : bool :=
  match e with EStdoutWrite s => String.eqb s show_cursor | _ => false end.
Definition is_process_exit (e : Effect) : bool :=
  match e with EProcessExit _ => true | _ => false end.
Definition is_send (e : Effect) : bool :=
  match e with ESend _ _ => true | _ => false end.
Definition is_resolve (e : Effect) : bool :=
  match e with EResolve _ => true | _ => false end.
Definition is_fork (e : Effect) : bool :=
  match e with EFork _ _ => true | _ => false end.
Definition is_create_certificate (e : Effect) : bool :=
  match e with ECreateSelfSignedCertificate _ => true | _ => false end.
Definition is_kill (e : Effect) : bool :=
  match e with EKill _ _ => true | _ => false end.
Definition is_rejected (e : Effect) : bool :=
  match e with ERejected => true | _ => false end.
Definition is_printed (e : Effect) : bool :=
  match e with
  | EConsoleLog _ | EConsoleErrorCaught | EPrint _ | ELogWarn _ => true
  | _ => false
  end.

(** How often a kind of call occurs in a trace. *)
Definition occurrences (p : Effect -> bool) (t : list Effect) : nat :=
  length (List.filter p t).

(** ** The shutdown coordinator *)

(** What the calls made while [handleSessionStop] runs answer. *)
Record StopOracle := {
  requireOk : bool;            (* require('../telemetry/events/session-stopped') returns *)
  globalTelemetry : bool;      (* traceGlobals.get('telemetry') is truthy *)
  telemetryCtorOk : bool;      (* new Telemetry(...) returns *)
  globalPagesDir : option bool;  (* traceGlobals.get('pagesDir'): undefined, or its truthiness *)
  globalAppDir : option bool;    (* traceGlobals.get('appDir'): undefined, or its truthiness *)
  findPagesDirResult : option (bool * bool);
                               (* findPagesDir(dir) throws, or !!pagesDir and !!appDir *)
  recordOk : bool;             (* telemetry.record(...) returns *)
  flushOk : bool;              (* telemetry.flushDetached(...) returns *)
  now : Z                      (* Date.now() *)
}.

(** How one run of a handler of the coordinator ends. *)
Inductive StopOutcome :=
| Returned            (* the flag was already set *)
| Suspended           (* waiting for loadConfig *)
| Exited (code : Z)   (* process.exit(code) *)
| Threw.              (* an error escapes the function *)

(** The block under [try]: the calls made so far, and [None] once one of
    them has thrown. *)
Definition Try (A : Type) : Type := (list Effect * option A)%type.

Definition ret {A} (a : A) : Try A := ([], Some a).
Definition throw {A} : Try A := ([], None).
Definition call (e : Effect) (ok : bool) : Try unit :=
  ([e], if ok then Some tt else None).
Definition bind {A B} (m : Try A) (k : A -> Try B) : Try B :=
  match m with
  | (t, Some a) => let '(t', r) := k a in (t ++ t', r)
  | (t, None) => (t, None)
  end.

Notation "x <-- m ;; k" := (bind m (fun x => k))
  (at level 100, m at next level, right associativity, only parsing).

(** [(signal as any) || 0] *)
Definition killArg (signal : option string) : KillArg :=
  match signal with
  | Some s => if truthy_string s then KillSignal s else KillNumber 0
  | None => KillNumber 0
  end.

(** [if (child) { child.kill((signal as any) || 0) }] *)
Definition killChild (signal : option string) (s : Session) : list Effect :=
  match child s with
  | Some h => [EKill h (killArg signal)]
  | None => []
  end.

(** ** Workers, and where [nextDev] waits *)

(** A message of the worker as its handler inspects it: anything that
    fails [msg && typeof msg === 'object'], or an object with the
    truthiness of its fields [nextWorkerReady] and [nextServerReady]. *)
Inductive Message :=
| MOther
| MObject (nextWorkerReady nextServerReady : bool).

(** The variables one call of [startServer] closes over. *)
Record Generation := {
  gen_options : StartServerOptions;
  gen_resolved : bool
}.

(** What [loadEnvConfig] returns and leaves behind. *)
Record LoadedEnv := {
  loadedEnvFiles : list string;                 (* the path of each loaded file *)
  le_processEnv : gmap string string;           (* process.env afterwards *)
  le_initialEnv : option (gmap string string)   (* initialEnv of @next/env *)
}.

(** The [await] at which [nextDev] is suspended, with the local variables
    its continuation reads. *)
Inductive NextDevPhase :=
| NotStarted
| AwaitFileExists (d : string)
| AwaitLoadConfig (d : string) (port : Z) (allowRetry : bool)
    (host : option string) (files : list string)
| AwaitTurbo (d : string) (o : StartServerOptions)
| AwaitCertificate (reboot : bool) (o : StartServerOptions)
| AwaitServerReady (reboot : bool) (h : handle)
| AwaitPreflight
| Finished.

Inductive TerminationSignal := SIGINT | SIGTERM.

Definition signal_name (sg : TerminationSignal) : string :=
  match sg with
  | SIGINT => "SIGINT"
  | SIGTERM => "SIGTERM"
  end.

(** One turn of the event loop of the parent process. *)
Inductive Event :=
| NextDevCalled
| FileExistsSettled (b : bool) (le : LoadedEnv)
| ConfigLoaded (r : option NextConfigComplete) (features : option (list string))
| TurboValidated (ok : bool)
| CertificateCreated (r : option (option Certificate))
| PreflightSettled (ok : bool)
| SignalReceived (sg : TerminationSignal) (o : StopOracle)
| WorkerMessage (g : handle) (msg : Message)
| WorkerExit (g : handle) (code : option Z) (signal : option string) (o : StopOracle)
| StopConfigLoaded (r : option NextConfigComplete) (o : StopOracle).

Record Machine := {
  m_args : Args;
  m_env : gmap string string;                   (* process.env *)
  m_initialEnv : option (gmap string string);
  m_session : Session;
  m_gens : list Generation;                     (* by handle *)
  m_nextDev : NextDevPhase;
  m_stopPending : bool;          (* handleSessionStop waits for loadConfig *)
  m_exited : option Z
}.

Definition set_env (e : gmap string string) (m : Machine) : Machine :=
  {| m_args := m_args m; m_env := e; m_initialEnv := m_initialEnv m;
     m_session := m_session m; m_gens := m_gens m; m_nextDev := m_nextDev m;
     m_stopPending := m_stopPending m; m_exited := m_exited m |}.

Definition set_initialEnv (e : option (gmap string string)) (m : Machine) : Machine :=
  {| m_args := m_args m; m_env := m_env m; m_initialEnv := e;
     m_session := m_session m; m_gens := m_gens m; m_nextDev := m_nextDev m;
     m_stopPending := m_stopPending m; m_exited := m_exited m |}.

Definition set_session (s : Session) (m : Machine) : Machine :=
  {| m_args := m_args m; m_env := m_env m; m_initialEnv := m_initialEnv m;
     m_session := s; m_gens := m_gens m; m_nextDev := m_nextDev m;
     m_stopPending := m_stopPending m; m_exited := m_exited m |}.

Definition set_gens (g : list Generation) (m : Machine) : Machine :=
  {| m_args := m_args m; m_env := m_env m; m_initialEnv := m_initialEnv m;
     m_session := m_session m; m_gens := g; m_nextDev := m_nextDev m;
     m_stopPending := m_stopPending m; m_exited := m_exited m |}.

Definition set_phase (p : NextDevPhase) (m : Machine) : Machine :=
  {| m_args := m_args m; m_env := m_env m; m_initialEnv := m_initialEnv m;
     m_session := m_session m; m_gens := m_gens m; m_nextDev := p;
     m_stopPending := m_stopPending m; m_exited := m_exited m |}.

Definition set_stopPending (b : bool) (m : Machine) : Machine :=
  {| m_args := m_args m; m_env := m_env m; m_initialEnv := m_initialEnv m;
     m_session := m_session m; m_gens := m_gens m; m_nextDev := m_nextDev m;
     m_stopPending := b; m_exited := m_exited m |}.

Definition set_exited (c : Z) (m : Machine) : Machine :=
  {| m_args := m_args m; m_env := m_env m; m_initialEnv := m_initialEnv m;
     m_session := m_session m; m_gens := m_gens m; m_nextDev := m_nextDev m;
     m_stopPending := m_stopPending m; m_exited := Some c |}.

(** The process as the module is loaded: nothing assigned yet. *)
Definition initial (args : Args) (env : gmap string string) (started : Z) : Machine :=
  {| m_args := args; m_env := env; m_initialEnv := None;
     m_session := {| dir := None; child := None; config := None;
                     isTurboSession := false; traceUploadUrl := None;
                     sessionStopHandled := false; sessionStarted := started |};
     m_gens := []; m_nextDev := NotStarted; m_stopPending := false;
     m_exited := None |}.

(** [userNextConfigExperimental.sort((a, b) => a.length - b.length)]:
    a stable sort by length. *)
Fixpoint insert_by_length (x : string) (l : list string) : list string :=
  match l with
  | [] => [x]
  | y :: l' =>
      if (String.length x <=? String.length y)%nat then x :: l
      else y :: insert_by_length x l'
  end.

Definition sort_by_length (l : list string) : list string :=
  foldr insert_by_length [] l.

(** A string operand of [&&]: its value when truthy. *)
Definition truthy_value (o : option string) : option string :=
  match o with
  | Some s => if truthy_string s then Some s else None
  | None => None
  end.

(** The text of [--help]. *)
Definition helpText : string := "
      Description
        Starts the application in development mode (hot-code reloading, error
        reporting, etc.)

      Usage
        $ next dev <dir> -p <port number>

      <dir> represents the directory of the Next.js application.
      If no directory is provided, the current directory will be used.

      Options
        --port, -p      A port number on which to start the application
        --hostname, -H  Hostname on which to start the application (default: 0.0.0.0)
        --experimental-upload-trace=<trace-url>  [EXPERIMENTAL] Report a subset of the debugging trace to a remote http url. Includes sensitive data. Disabled by default and url must be provided.
        --help, -h      Displays this message
    ".

(** Modelled from the spec: [printAndExit] of [server/lib/utils] is not
    among the sources. It terminates "the process with a printed message
    and a non-zero exit"; the exit status is 1 "on invalid project
    directory, reserved port", also where the call names no status. *)
Definition printAndExit (message : string) (code : option Z) (m : Machine)
  : Machine * list Effect :=
  let c := match code with Some c => c | None => 1 end in
  (set_exited c m, [EPrint message; EProcessExit c]).

(** The collaborators the file imports from modules that are not part of
    it: a constant, the port helpers, the project directory and Node's
    [path]. *)
Class Collaborators := {
  RESTART_EXIT_CODE : Z;
  PHASE_DEVELOPMENT_SERVER : string;
  getPort : Args -> gmap string string -> Z;
  isPortIsReserved : Z -> bool;
  getReservedPortExplanation : Z -> string;
  getProjectDir : option string -> string;
  path_join : string -> string -> string;
  path_resolve : string -> string
}.

Section Supervisor.

Context {X : Collaborators}.

(** Lines 51-81: the telemetry client, the routing directories, the
    event and its detached flush, with [config] loaded. *)
Definition recordSessionStopped (o : StopOracle) (s : Session)
    (cfg : NextConfigComplete) : Try unit :=
  telemetry <-- (if globalTelemetry o then ret tt
         else match dir s, distDir cfg with
              | Some d, Some dd =>
                  call (ENewTelemetry (path_join d dd)) (telemetryCtorOk o)
              | _, _ => throw       (* path.join of undefined *)
              end) ;;
  dirs <-- (match globalPagesDir o, globalAppDir o with
            | Some p, Some a => ret (p, a)
            | _, _ => ([EFindPagesDir (dir s)], findPagesDirResult o)
            end) ;;
  recorded <-- call (ETelemetryRecord
                {| cliCommand := "dev";
                   turboFlag := isTurboSession s;
                   durationMilliseconds := now o - sessionStarted s;
                   ev_pagesDir := fst dirs;
                   ev_appDir := snd dirs |}) (recordOk o) ;;
  call (ETelemetryFlushDetached (dir s)) (flushOk o).

(** Lines 87-101: the trace upload, the cursor and the exit. Reading
    [config.distDir] of an undefined [config] throws. *)
Definition finishSessionStop (s : Session) : list Effect * StopOutcome :=
  let restore :=
    [EStdoutWrite show_cursor; EStdoutWrite newline; EProcessExit 0] in
  match traceUploadUrl s with
  | Some u =>
      if truthy_string u then
        match config s with
        | Some cfg =>
            (EUploadTrace {| ut_traceUploadUrl := u; ut_mode := "dev";
                             ut_isTurboSession := isTurboSession s;
                             ut_projectDir := dir s;
                             ut_distDir := distDir cfg |} :: restore,
             Exited 0)
        | None => ([], Threw)
        end
      else (restore, Exited 0)
  | None => (restore, Exited 0)
  end.

(** The function from the point where [config] is known: the rest of
    the [try], whose errors the [catch] drops, then the tail. *)
Definition stopWithConfig (o : StopOracle) (s : Session)
    (cfg : NextConfigComplete) : Session * list Effect * StopOutcome :=
  let s1 := set_config cfg s in
  let '(t, _) := recordSessionStopped o s1 cfg in
  let '(t', out) := finishSessionStop s1 in
  (s1, t ++ t', out).

(** [handleSessionStop(signal)] up to its first suspension. *)
Definition handleSessionStop (signal : option string) (o : StopOracle)
    (s : Session) : Session * list Effect * StopOutcome :=
  let k := killChild signal s in
  if sessionStopHandled s then (s, k, Returned)
  else
    let s1 := set_sessionStopHandled s in
    if requireOk o then
      match config s1 with
      | Some cfg =>
          let '(s2, t, out) := stopWithConfig o s1 cfg in (s2, k ++ t, out)
      | None => (s1, k ++ [ELoadConfig (dir s1)], Suspended)
      end
    else
      let '(t, out) := finishSessionStop s1 in (s1, k ++ t, out).

(** [handleSessionStop] from the moment [await loadConfig(...)] settles
    with [r]: [None] when it rejects. *)
Definition handleSessionStop_resume (r : option NextConfigComplete)
    (o : StopOracle) (s : Session) : Session * list Effect * StopOutcome :=
  match r with
  | Some cfg => stopWithConfig o s cfg
  | None => let '(t, out) := finishSessionStop s in (s, t, out)
  end.

Definition stop_session (r : Session * list Effect * StopOutcome) : Session :=
  fst (fst r).
Definition stop_trace (r : Session * list Effect * StopOutcome) : list Effect :=
  snd (fst r).
Definition stop_outcome (r : Session * list Effect * StopOutcome) : StopOutcome :=
  snd r.


(** *** [nextDev] *)

(** The environment [fork] hands to the worker. *)
Definition forkEnv (m : Machine) : gmap string string :=
  let base := match m_initialEnv m with
              | Some e => e
              | None => m_env m
              end in
  let turbo := match m_env m !! "TURBOPACK" with
               | Some v => <["TURBOPACK" := v]> base
               | None => delete "TURBOPACK" base
               end in
  <["NEXT_PRIVATE_WORKER" := "1"]> turbo.

(** [startServer(options)] up to the promise it returns: a new worker
    takes the place of [child]; its handlers close over [options] and a
    fresh [resolved]. *)
Definition startServer (options : StartServerOptions) (m : Machine)
  : Machine * handle * list Effect :=
  let h := length (m_gens m) in
  let m1 := set_session (set_child h (m_session m)) m in
  (set_gens (m_gens m ++ [{| gen_options := options; gen_resolved := false |}]) m1,
   h, [EFork h (forkEnv m)]).

(** The ['message'] handler of generation [g]. When the promise [nextDev]
    awaits resolves, [nextDev] goes on to [preflight]. *)
Definition onMessage (g : handle) (msg : Message) (m : Machine)
  : Machine * list Effect :=
  match m_gens m !! g with
  | None => (m, [])
  | Some c =>
      match msg with
      | MObject true _ =>
          (m, match child (m_session m) with
              | Some h => [ESend h (gen_options c)]
              | None => []
              end)
      | MObject false true =>
          if gen_resolved c then (m, [])
          else
            let m1 := set_gens (<[g := {| gen_options := gen_options c;
                                          gen_resolved := true |}]> (m_gens m)) m in
            match m_nextDev m with
            | AwaitServerReady reboot h =>
                if Nat.eqb h g
                then (set_phase AwaitPreflight m1, [EResolve g; EPreflight reboot])
                else (m1, [EResolve g])
            | _ => (m1, [EResolve g])
            end
      | _ => (m, [])
      end
  end.

(** What a run of the coordinator leaves in the process. *)
Definition settle (r : Session * list Effect * StopOutcome) (m : Machine)
  : Machine * list Effect :=
  let '(s, t, out) := r in
  let m1 := set_session s m in
  match out with
  | Returned => (m1, t)
  | Suspended => (set_stopPending true m1, t)
  | Exited c => (set_exited c m1, t)
  | Threw => (m1, t ++ [ERejected])
  end.

(** The ['exit'] handler of generation [g]. *)
Definition onExit (g : handle) (code : option Z) (signal : option string)
    (o : StopOracle) (m : Machine) : Machine * list Effect :=
  match m_gens m !! g with
  | None => (m, [])
  | Some c =>
      if sessionStopHandled (m_session m) || truthy signal then (m, [])
      else if bool_decide (code = Some RESTART_EXIT_CODE) then
        let '(m1, _, t) := startServer (gen_options c) m in (m1, t)
      else settle (handleSessionStop signal o (m_session m)) m
  end.

(** [runDevServer(reboot)] up to its first [await] that suspends. *)
Definition runDevServer (reboot : bool) (devServerOptions : StartServerOptions)
    (m : Machine) : Machine * list Effect :=
  let args := m_args m in
  if truthy_flag (arg_https args) then
    let warn := ELogWarn "Self-signed certificates are currently an experimental feature, use at your own risk." in
    match truthy_value (arg_https_key args), truthy_value (arg_https_cert args) with
    | Some k, Some c =>
        let certificate := {| key := path_resolve k; cert := path_resolve c |} in
        let '(m1, h, t) :=
          startServer (with_certificate (Some certificate) devServerOptions) m in
        (set_phase (AwaitServerReady reboot h) m1, warn :: t)
    | _, _ =>
        (set_phase (AwaitCertificate reboot devServerOptions) m,
         [warn; ECreateSelfSignedCertificate (arg_hostname args)])
    end
  else
    let '(m1, h, t) := startServer devServerOptions m in
    (set_phase (AwaitServerReady reboot h) m1, t).

(** The [catch] of [runDevServer]. *)
Definition runDevServer_catch (m : Machine) : Machine * list Effect :=
  (set_exited 1 m, [EConsoleErrorCaught; EProcessExit 1]).

(** [runDevServer] once [createSelfSignedCertificate(host)] settles:
    [None] when it throws. *)
Definition runDevServer_certificate (reboot : bool)
    (devServerOptions : StartServerOptions) (r : option (option Certificate))
    (m : Machine) : Machine * list Effect :=
  match r with
  | Some certificate =>
      let '(m1, h, t) :=
        startServer (with_certificate certificate devServerOptions) m in
      (set_phase (AwaitServerReady reboot h) m1, t)
  | None => runDevServer_catch m
  end.

(** Lines 108-131. *)
Definition nextDev (m : Machine) : Machine * list Effect :=
  let args := m_args m in
  if truthy_flag (arg_help args) then
    (set_exited 0 m, [EConsoleLog helpText; EProcessExit 0])
  else
    let d := getProjectDir (js_or (m_env m !! "NEXT_PRIVATE_DEV_DIR")
                                  (head (arg_positional args))) in
    (set_phase (AwaitFileExists d) (set_session (set_dir d (m_session m)) m),
     [EFileExists d]).

(** Lines 180-181. *)
Definition allowRetry (args : Args) (env : gmap string string) : bool :=
  bool_decide (arg_port args = None) && bool_decide (env !! "PORT" = None).

(** Lines 131-199, from the answer of [fileExists] to [loadConfig]. *)
Definition nextDev_fileExists (d : string) (b : bool) (le : LoadedEnv)
    (m : Machine) : Machine * list Effect :=
  let args := m_args m in
  if negb b then
    printAndExit ("> No such directory exists as the project root: " +:+ d) None m
  else
    let port := getPort args (m_env m) in
    if isPortIsReserved port then
      printAndExit (getReservedPortExplanation port) (Some 1) m
    else
      let allowRetry := allowRetry args (m_env m) in
      let host := arg_hostname args in
      let m1 := set_initialEnv (le_initialEnv le) (set_env (le_processEnv le) m) in
      (set_phase (AwaitLoadConfig d port allowRetry host (loadedEnvFiles le)) m1,
       [ELoadEnvConfig d; ELoadConfig (Some d)]).

(** Lines 243-322. *)
Definition nextDev_serve (d : string) (devServerOptions : StartServerOptions)
    (m : Machine) : Machine * list Effect :=
  match config (m_session m) with
  | Some cfg =>
      let dist := path_join d (match distDir cfg with
                               | Some dd => dd
                               | None => ".next"
                               end) in
      let '(m1, t) := runDevServer false devServerOptions m in
      (m1, ESetGlobal "phase" PHASE_DEVELOPMENT_SERVER
             :: ESetGlobal "distDir" dist :: t)
  | None => (set_phase Finished m, [ERejected])
  end.

(** Lines 199-241, from the answer of [loadConfig]; [features] is what
    [onLoadUserConfig] was called with, if it was. *)
Definition nextDev_config (d : string) (port : Z) (allowRetry : bool)
    (host : option string) (files : list string)
    (r : option NextConfigComplete) (features : option (list string))
    (m : Machine) : Machine * list Effect :=
  let args := m_args m in
  let expFeatureInfo := match features with
                        | Some f => sort_by_length f
                        | None => []
                        end in
  match r with
  | None => (set_phase Finished m, [ERejected])
  | Some cfg =>
      let s1 := set_config cfg (m_session m) in
      let env1 := <["__NEXT_PRIVATE_PREBUNDLED_REACT" :=
                      if serverActions cfg then "experimental" else "next"]> (m_env m) in
      let envInfo := if (0 <? length files)%nat then files else [] in
      let isExperimentalTestProxy := arg_test_proxy args in
      let s2 := if truthy (arg_upload_trace args)
                then set_traceUploadUrl (arg_upload_trace args) s1 else s1 in
      let devServerOptions :=
        {| opt_dir := d; opt_port := port; opt_allowRetry := allowRetry;
           opt_isDev := true; opt_hostname := host;
           opt_isExperimentalTestProxy := isExperimentalTestProxy;
           opt_envInfo := envInfo; opt_expFeatureInfo := expFeatureInfo;
           opt_selfSignedCertificate := None |} in
      let env2 := if truthy_flag (arg_turbo args)
                  then <["TURBOPACK" := "1"]> env1 else env1 in
      let m1 := set_env env2 (set_session s2 m) in
      if truthy (env2 !! "TURBOPACK") then
        (set_phase (AwaitTurbo d devServerOptions) m1,
         [EValidateTurboNextConfig
            (truthy (env2 !! "__INTERNAL_CUSTOM_TURBOPACK_BINDINGS"))
            devServerOptions])
      else nextDev_serve d devServerOptions m1
  end.

(** *** The event loop *)

(** One handler runs to its end or to its next [await]; once the process
    has exited nothing runs. An event nothing waits for changes nothing. *)
Definition step (ev : Event) (m : Machine) : Machine * list Effect :=
  match m_exited m with
  | Some _ => (m, [])
  | None =>
      match ev, m_nextDev m with
      | NextDevCalled, NotStarted => nextDev m
      | FileExistsSettled b le, AwaitFileExists d => nextDev_fileExists d b le m
      | ConfigLoaded r features, AwaitLoadConfig d port allowRetry host files =>
          nextDev_config d port allowRetry host files r features m
      | TurboValidated ok, AwaitTurbo d o =>
          if ok then nextDev_serve d o m
          else (set_phase Finished m, [ERejected])
      | CertificateCreated r, AwaitCertificate reboot o =>
          runDevServer_certificate reboot o r m
      | PreflightSettled ok, AwaitPreflight =>
          if ok then (set_phase Finished m, [])
          else runDevServer_catch m
      | SignalReceived sg o, _ =>
          settle (handleSessionStop (Some (signal_name sg)) o (m_session m)) m
      | WorkerMessage g msg, _ => onMessage g msg m
      | WorkerExit g code signal o, _ => onExit g code signal o m
      | StopConfigLoaded r o, _ =>
          if m_stopPending m then
            settle (handleSessionStop_resume r o (m_session m))
                   (set_stopPending false m)
          else (m, [])
      | _, _ => (m, [])
      end
  end.

(** A schedule of events, with the trace of all calls it causes. *)
Fixpoint run (evs : list Event) (m : Machine) : Machine * list Effect :=
  match evs with
  | [] => (m, [])
  | ev :: evs' =>
      let '(m1, t) := step ev m in
      let '(m2, t') := run evs' m1 in
      (m2, t ++ t')
  end.

(** The states the process can be in. *)
Definition reachable (m : Machine) : Prop :=
  exists args env started evs, m = fst (run evs (initial args env started)).

(** *** Vocabulary of the properties *)

(** The last three calls of the coordinator. *)
Definition restore : list Effect :=
  [EStdoutWrite show_cursor; EStdoutWrite newline; EProcessExit 0].

(** The upload target is assigned only after the configuration. *)
Definition config_before_upload (s : Session) : Prop :=
  truthy (traceUploadUrl s) = true -> config s <> None.

(** Calls of the guarded block other than [telemetry.record]. *)
Inductive telemetry_calls : list Effect -> Prop :=
| tc_nil : telemetry_calls []
| tc_new d t : telemetry_calls t -> telemetry_calls (ENewTelemetry d :: t)
| tc_find d t : telemetry_calls t -> telemetry_calls (EFindPagesDir d :: t)
| tc_flush d t : telemetry_calls t -> telemetry_calls (ETelemetryFlushDetached d :: t).

Definition telemetry_part (tel : list Effect) : Prop :=
  telemetry_calls tel \/
  exists a ev b, tel = a ++ ETelemetryRecord ev :: b /\
    telemetry_calls a /\ telemetry_calls b.

Definition upload_part (up : list Effect) : Prop :=
  up = [] \/ exists u, up = [EUploadTrace u].

(** The guarded sequence of the coordinator: the telemetry block, the
    upload when a target is set, the cursor and the exit. *)
Definition shutdown_sequence (t : list Effect) : Prop :=
  exists tel up, t = tel ++ up ++ restore /\ telemetry_part tel /\ upload_part up.

(** A kind of call the guarded sequence never makes. *)
Definition outside_shutdown (p : Effect -> bool) : Prop :=
  (forall d, p (ENewTelemetry d) = false) /\
  (forall d, p (EFindPagesDir d) = false) /\
  (forall d, p (ETelemetryFlushDetached d) = false) /\
  (forall ev, p (ETelemetryRecord ev) = false) /\
  (forall u, p (EUploadTrace u) = false) /\
  (forall w, p (EStdoutWrite w) = false) /\
  (forall c, p (EProcessExit c) = false).

(** The two handshake messages, as the handler tells them apart. *)
Definition is_ready (msg : Message) : bool :=
  match msg with MObject true _ => true | _ => false end.
Definition is_serverReady (msg : Message) : bool :=
  match msg with MObject false true => true | _ => false end.

(** The module variables the coordinator never assigns. *)
Definition same_worker (s s' : Session) : Prop :=
  dir s' = dir s /\ child s' = child s /\
  traceUploadUrl s' = traceUploadUrl s /\
  isTurboSession s' = isTurboSession s /\
  sessionStarted s' = sessionStarted s.

(** A kind of call no run of the coordinator makes. *)
Definition outside_coordinator (p : Effect -> bool) : Prop :=
  outside_shutdown p /\ (forall h a, p (EKill h a) = false) /\
  (forall d, p (ELoadConfig d) = false) /\ p ERejected = false.

(** What a run of the coordinator leaves alone in the process. *)
Definition machine_frame (m m' : Machine) : Prop :=
  m_args m' = m_args m /\ m_env m' = m_env m /\
  m_initialEnv m' = m_initialEnv m /\ m_gens m' = m_gens m /\
  m_nextDev m' = m_nextDev m /\ same_worker (m_session m) (m_session m').

(** The command has not passed the port check: no worker exists. *)
Definition before_port_check (args : Args) (env : gmap string string)
    (m : Machine) : Prop :=
  m_args m = args /\ m_env m = env /\ m_gens m = [] /\
  (m_nextDev m = NotStarted \/ exists d, m_nextDev m = AwaitFileExists d).

(** What every state of the process satisfies about the coordinator:
    the upload target comes with a configuration, and a suspended run
    of the coordinator has set the flag. *)
Definition session_ok (m : Machine) : Prop :=
  config_before_upload (m_session m) /\
  (m_stopPending m = true -> sessionStopHandled (m_session m) = true).

(** The invocation of [handleSessionStop] an event makes in a state, if
    it makes one: the signal handlers always do, the exit handler when
    its first two rules do not apply. *)
Definition stop_trigger (ev : Event) (m : Machine)
  : option (option string * StopOracle) :=
  match ev with
  | SignalReceived sg o => Some (Some (signal_name sg), o)
  | WorkerExit g code signal o =>
      match m_gens m !! g with
      | Some _ =>
          if sessionStopHandled (m_session m) || truthy signal then None
          else if bool_decide (code = Some RESTART_EXIT_CODE) then None
          else Some (signal, o)
      | None => None
      end
  | _ => None
  end.









(** The signal of an ['exit'] event as Node reports it: [null], or the
    name of the signal that terminated the worker. *)
Definition node_signal (ev : Event) : Prop :=
  match ev with
  | WorkerExit _ _ (Some name) _ => name <> EmptyString
  | _ => True
  end.

(** *** The options of a launch *)

(** What [devServerOptions] takes from the command line and from the
    environment the process started with. *)
Definition launch_shape (args : Args) (env0 : gmap string string)
    (o : StartServerOptions) : Prop :=
  opt_allowRetry o = allowRetry args env0 /\ opt_port o = getPort args env0 /\
  opt_hostname o = arg_hostname args /\ opt_isDev o = true.

(** The certificate of the two explicit paths, when both are given. *)
Definition explicit_certificate (args : Args) : option Certificate :=
  match truthy_value (arg_https_key args), truthy_value (arg_https_cert args) with
  | Some k, Some c => Some {| key := path_resolve k; cert := path_resolve c |}
  | _, _ => None
  end.

Definition certificate_ok (args : Args) (o : StartServerOptions) : Prop :=
  (truthy_flag (arg_https args) = false -> opt_selfSignedCertificate o = None) /\
  (truthy_flag (arg_https args) = true ->
   forall ce, explicit_certificate args = Some ce ->
              opt_selfSignedCertificate o = Some ce).

(** What the locals of the suspended [nextDev] hold, by phase. *)
Definition phase_ok (args : Args) (env0 : gmap string string) (m : Machine)
    (t : list Effect) : Prop :=
  match m_nextDev m with
  | NotStarted | AwaitFileExists _ =>
      m_env m = env0 /\ m_gens m = [] /\
      occurrences is_create_certificate t = 0%nat
  | AwaitLoadConfig d port ar host files =>
      m_gens m = [] /\ occurrences is_create_certificate t = 0%nat /\
      ar = allowRetry args env0 /\ port = getPort args env0 /\
      host = arg_hostname args
  | AwaitTurbo d o =>
      m_gens m = [] /\ occurrences is_create_certificate t = 0%nat /\
      launch_shape args env0 o /\ opt_selfSignedCertificate o = None
  | AwaitCertificate rb o =>
      m_gens m = [] /\ occurrences is_create_certificate t = 1%nat /\
      launch_shape args env0 o /\ truthy_flag (arg_https args) = true /\
      explicit_certificate args = None
  | _ => True
  end.

(** The state and the trace of a process started with [args] and
    [env0]: every generation and every send carries the options of the
    one launch, and the certificate is created at most once. *)
Record options_ok (args : Args) (env0 : gmap string string) (m : Machine)
    (t : list Effect) : Prop := {
  ok_args : m_args m = args;
  ok_phase : phase_ok args env0 m t;
  ok_shape : forall g c, m_gens m !! g = Some c ->
    launch_shape args env0 (gen_options c) /\ certificate_ok args (gen_options c);
  ok_same : forall g c g' c', m_gens m !! g = Some c -> m_gens m !! g' = Some c' ->
    gen_options c = gen_options c';
  ok_sends : forall h o, In (ESend h o) t ->
    exists g c, m_gens m !! g = Some c /\ o = gen_options c;
  ok_forks : occurrences is_fork t = length (m_gens m);
  ok_create : (occurrences is_create_certificate t <= 1)%nat;
  ok_create_host : forall host, In (ECreateSelfSignedCertificate host) t ->
    host = arg_hostname args;
  ok_create_once : m_gens m <> [] -> truthy_flag (arg_https args) = true ->
    explicit_certificate args = None ->
    occurrences is_create_certificate t = 1%nat;
  ok_create_never :
    truthy_flag (arg_https args) = false \/ explicit_certificate args <> None ->
    occurrences is_create_certificate t = 0%nat
}.

End Supervisor.

(** ** A concrete session, to run the model on *)

Module Demo.

(** Stand-ins for the imported collaborators: the restart status 77, a
    few reserved ports, and string versions of the path functions. *)
Definition collaborators : Collaborators := {|
  RESTART_EXIT_CODE := 77;
  PHASE_DEVELOPMENT_SERVER := "phase-development-server";
  getPort := fun args env =>
    match arg_port args with
    | Some p => p
    | None => 3000
    end;
  isPortIsReserved := fun p => bool_decide (p ∈ [1; 7; 9; 11]);
  getReservedPortExplanation := fun p => "reserved for a well-known service";
  getProjectDir := fun d =>
    match d with
    | Some d => d
    | None => "."
    end;
  path_join := fun a b => a +:+ "/" +:+ b;
  path_resolve := fun p => "/cwd/" +:+ p
|}.

(** [next dev app] *)
Definition args : Args := {|
  arg_help := None; arg_positional := ["app"]; arg_port := None;
  arg_hostname := None; arg_upload_trace := None; arg_test_proxy := None;
  arg_turbo := None; arg_https := None; arg_https_key := None;
  arg_https_cert := None
|}.

Definition with_help (a : Args) : Args := {|
  arg_help := Some true; arg_positional := arg_positional a;
  arg_port := arg_port a; arg_hostname := arg_hostname a;
  arg_upload_trace := arg_upload_trace a; arg_test_proxy := arg_test_proxy a;
  arg_turbo := arg_turbo a; arg_https := arg_https a;
  arg_https_key := arg_https_key a; arg_https_cert := arg_https_cert a
|}.

Definition with_port (p : Z) (a : Args) : Args := {|
  arg_help := arg_help a; arg_positional := arg_positional a;
  arg_port := Some p; arg_hostname := arg_hostname a;
  arg_upload_trace := arg_upload_trace a; arg_test_proxy := arg_test_proxy a;
  arg_turbo := arg_turbo a; arg_https := arg_https a;
  arg_https_key := arg_https_key a; arg_https_cert := arg_https_cert a
|}.


Definition with_https (k c : option string) (a : Args) : Args := {|
  arg_help := arg_help a; arg_positional := arg_positional a;
  arg_port := arg_port a; arg_hostname := arg_hostname a;
  arg_upload_trace := arg_upload_trace a; arg_test_proxy := arg_test_proxy a;
  arg_turbo := arg_turbo a; arg_https := Some true;
  arg_https_key := k; arg_https_cert := c
|}.

Definition env : gmap string string := ∅.

Definition loadedEnv : LoadedEnv := {|
  loadedEnvFiles := []; le_processEnv := ∅; le_initialEnv := Some ∅
|}.

Definition nextConfig : NextConfigComplete :=
  {| distDir := Some ".next"; serverActions := false |}.

(** Every call of the coordinator answers. *)
Definition calm : StopOracle := {|
  requireOk := true; globalTelemetry := false; telemetryCtorOk := true;
  globalPagesDir := None; globalAppDir := None;
  findPagesDirResult := Some (true, false);
  recordOk := true; flushOk := true; now := 5000
|}.

(** The telemetry client cannot be built. *)
Definition broken : StopOracle := {|
  requireOk := true; globalTelemetry := false; telemetryCtorOk := false;
  globalPagesDir := None; globalAppDir := None;
  findPagesDirResult := None;
  recordOk := false; flushOk := false; now := 5000
|}.

Definition ready : Message := MObject true false.
Definition serverReady : Message := MObject false true.

(** The command up to the first worker. *)
Definition launch : list Event :=
  [NextDevCalled; FileExistsSettled true loadedEnv;
   ConfigLoaded (Some nextConfig) None].

Definition started (a : Args) : Machine :=
  fst (run (X := collaborators) launch (initial a env 1000)).

Definition certificate : Certificate :=
  {| key := "generated-key"; cert := "generated-cert" |}.

(** [devServerOptions] of [next dev app]. *)
Definition options : StartServerOptions := {|
  opt_dir := "app"; opt_port := 3000; opt_allowRetry := true;
  opt_isDev := true; opt_hostname := None;
  opt_isExperimentalTestProxy := None; opt_envInfo := [];
  opt_expFeatureInfo := []; opt_selfSignedCertificate := None
|}.

Definition generation : Generation :=
  {| gen_options := options; gen_resolved := false |}.

(** The command waits for its configuration. *)
Definition loading (a : Args) : Machine :=
  fst (run (X := collaborators)
         [NextDevCalled; FileExistsSettled true loadedEnv] (initial a env 1000)).

(** A termination signal arrives meanwhile. *)
Definition interrupted : Machine :=
  fst (step (X := collaborators) (SignalReceived SIGINT broken) (loading args)).

(** A launch with a generated certificate, and a restart. *)
Definition https_schedule : list Event :=
  launch ++ [CertificateCreated (Some (Some certificate));
             WorkerExit 0%nat (Some 77) None calm].

(** The first worker asks for a restart. *)
Definition restarted : Machine :=
  fst (step (X := collaborators) (WorkerExit 0%nat (Some 77) None calm)
         (started args)).

End Demo.

(** ** One turn of the event loop, by cases *)

Section Moves.

Context {X : Collaborators}.

(** The process once [nextDev] has its configuration (lines 199-233):
    [config], the prebundled-React variable, the upload target and the
    bundler toggle. *)
Definition configured (cfg : NextConfigComplete) (m : Machine) : Machine :=
  let args := m_args m in
  let s1 := set_config cfg (m_session m) in
  let env1 := <["__NEXT_PRIVATE_PREBUNDLED_REACT" :=
                  if serverActions cfg then "experimental" else "next"]> (m_env m) in
  let s2 := if truthy (arg_upload_trace args)
            then set_traceUploadUrl (arg_upload_trace args) s1 else s1 in
  let env2 := if truthy_flag (arg_turbo args)
              then <["TURBOPACK" := "1"]> env1 else env1 in
  set_env env2 (set_session s2 m).

(** [devServerOptions] (lines 220-229). *)
Definition launch_options (d : string) (port : Z) (allowRetry : bool)
    (host : option string) (files : list string)
    (features : option (list string)) (args : Args) : StartServerOptions :=
  {| opt_dir := d; opt_port := port; opt_allowRetry := allowRetry;
     opt_isDev := true; opt_hostname := host;
     opt_isExperimentalTestProxy := arg_test_proxy args;
     opt_envInfo := if (0 <? length files)%nat then files else [];
     opt_expFeatureInfo := match features with
                           | Some f => sort_by_length f
                           | None => []
                           end;
     opt_selfSignedCertificate := None |}.

(** The process once [startServer(o)] has forked, [nextDev] waiting for
    that worker. *)
Definition forked (o : StartServerOptions) (reboot : bool) (m : Machine) : Machine :=
  set_phase (AwaitServerReady reboot (length (m_gens m)))
    (fst (fst (startServer o m))).

(** The process once the promise of generation [g] is resolved. *)
Definition resolved_at (g : handle) (c : Generation) (m : Machine) : Machine :=
  set_gens (<[g := {| gen_options := gen_options c; gen_resolved := true |}]>
              (m_gens m)) m.

Definition httpsWarning : string :=
  "Self-signed certificates are currently an experimental feature, use at your own risk.".

(** Where lines 243-322 start from: [nextDev] resumed after
    [validateTurboNextConfig], or straight after its configuration. *)
Definition serve_base (m : Machine) (d : string) (o : StartServerOptions)
    (m1 : Machine) : Prop :=
  (m_nextDev m = AwaitTurbo d o /\ m1 = m) \/
  (exists port ar host files cfg features,
     m_nextDev m = AwaitLoadConfig d port ar host files /\
     o = launch_options d port ar host files features (m_args m) /\
     m1 = configured cfg m /\
     truthy (m_env (configured cfg m) !! "TURBOPACK") = false).

(** The options [runDevServer] starts the first worker with, and the
    warning before it in HTTPS mode. *)
Definition serve_options (args : Args) (o o' : StartServerOptions)
    (pre : list Effect) : Prop :=
  (truthy_flag (arg_https args) = false /\ o' = o /\ pre = []) \/
  (truthy_flag (arg_https args) = true /\
   exists k c, truthy_value (arg_https_key args) = Some k /\
     truthy_value (arg_https_cert args) = Some c /\
     o' = with_certificate
            (Some {| key := path_resolve k; cert := path_resolve c |}) o /\
     pre = [ELogWarn httpsWarning]).

(** What one event does to a live process: the state it leaves and the
    calls it makes. *)
Inductive move (m : Machine) : Machine * list Effect -> Prop :=
| mv_idle : move m (m, [])
| mv_help :
    m_nextDev m = NotStarted -> truthy_flag (arg_help (m_args m)) = true ->
    move m (set_exited 0 m, [EConsoleLog helpText; EProcessExit 0])
| mv_dir :
    m_nextDev m = NotStarted -> truthy_flag (arg_help (m_args m)) = false ->
    let d := getProjectDir (js_or (m_env m !! "NEXT_PRIVATE_DEV_DIR")
                                  (head (arg_positional (m_args m)))) in
    move m (set_phase (AwaitFileExists d) (set_session (set_dir d (m_session m)) m),
            [EFileExists d])
| mv_print d msg :
    m_nextDev m = AwaitFileExists d ->
    move m (set_exited 1 m, [EPrint msg; EProcessExit 1])
| mv_loadConfig d le :
    m_nextDev m = AwaitFileExists d ->
    isPortIsReserved (getPort (m_args m) (m_env m)) = false ->
    move m (set_phase
              (AwaitLoadConfig d (getPort (m_args m) (m_env m))
                 (allowRetry (m_args m) (m_env m)) (arg_hostname (m_args m))
                 (loadedEnvFiles le))
              (set_initialEnv (le_initialEnv le) (set_env (le_processEnv le) m)),
            [ELoadEnvConfig d; ELoadConfig (Some d)])
| mv_reject :
    (exists d port ar host files,
       m_nextDev m = AwaitLoadConfig d port ar host files) \/
    (exists d o, m_nextDev m = AwaitTurbo d o) ->
    move m (set_phase Finished m, [ERejected])
| mv_turbo d port ar host files cfg features :
    m_nextDev m = AwaitLoadConfig d port ar host files ->
    truthy (m_env (configured cfg m) !! "TURBOPACK") = true ->
    let o := launch_options d port ar host files features (m_args m) in
    move m (set_phase (AwaitTurbo d o) (configured cfg m),
            [EValidateTurboNextConfig
               (truthy (m_env (configured cfg m)
                          !! "__INTERNAL_CUSTOM_TURBOPACK_BINDINGS")) o])
| mv_serve_reject d o m1 :
    serve_base m d o m1 -> config (m_session m1) = None ->
    move m (set_phase Finished m1, [ERejected])
| mv_serve_fork d o m1 o' pre dist :
    serve_base m d o m1 -> serve_options (m_args m1) o o' pre ->
    move m (forked o' false m1,
            ESetGlobal "phase" PHASE_DEVELOPMENT_SERVER
              :: ESetGlobal "distDir" dist
              :: pre ++ [EFork (length (m_gens m1)) (forkEnv m1)])
| mv_serve_certificate d o m1 dist :
    serve_base m d o m1 -> truthy_flag (arg_https (m_args m1)) = true ->
    explicit_certificate (m_args m1) = None ->
    move m (set_phase (AwaitCertificate false o) m1,
            [ESetGlobal "phase" PHASE_DEVELOPMENT_SERVER;
             ESetGlobal "distDir" dist; ELogWarn httpsWarning;
             ECreateSelfSignedCertificate (arg_hostname (m_args m1))])
| mv_certificate reboot o oc :
    m_nextDev m = AwaitCertificate reboot o ->
    move m (forked (with_certificate oc o) reboot m,
            [EFork (length (m_gens m)) (forkEnv m)])
| mv_catch :
    (exists reboot o, m_nextDev m = AwaitCertificate reboot o) \/
    m_nextDev m = AwaitPreflight ->
    move m (set_exited 1 m, [EConsoleErrorCaught; EProcessExit 1])
| mv_finished :
    m_nextDev m = AwaitPreflight -> move m (set_phase Finished m, [])
| mv_stop signal o :
    move m (settle (handleSessionStop signal o (m_session m)) m)
| mv_resume r o :
    m_stopPending m = true ->
    move m (settle (handleSessionStop_resume r o (m_session m))
              (set_stopPending false m))
| mv_send g c h :
    m_gens m !! g = Some c -> child (m_session m) = Some h ->
    move m (m, [ESend h (gen_options c)])
| mv_resolve g c :
    m_gens m !! g = Some c -> gen_resolved c = false ->
    (forall reboot, m_nextDev m <> AwaitServerReady reboot g) ->
    move m (resolved_at g c m, [EResolve g])
| mv_resolve_preflight g c reboot :
    m_gens m !! g = Some c -> gen_resolved c = false ->
    m_nextDev m = AwaitServerReady reboot g ->
    move m (set_phase AwaitPreflight (resolved_at g c m),
            [EResolve g; EPreflight reboot])
| mv_restart g c :
    m_gens m !! g = Some c -> sessionStopHandled (m_session m) = false ->
    move m (fst (fst (startServer (gen_options c) m)),
            [EFork (length (m_gens m)) (forkEnv m)]).

(** *** Vocabulary of the further properties *)

(** How the trace of a process ends: no exit while it lives; afterwards
    the exit is the last call, with status 0 or 1, and status 1 follows a
    printed message. *)
Definition exit_shape (m : Machine) (t : list Effect) : Prop :=
  match m_exited m with
  | None => occurrences is_process_exit t = 0%nat
  | Some c =>
      (c = 0 \/ c = 1) /\
      exists pre, t = pre ++ [EProcessExit c] /\
        occurrences is_process_exit pre = 0%nat /\
        (c = 1 -> exists pre' e, pre = pre' ++ [e] /\
           (e = EConsoleErrorCaught \/ exists msg, e = EPrint msg))
  end.

(** [a.length - b.length <= 0]: the order of the comparator of line 196. *)
Definition shorter (a b : string) : Prop :=
  (String.length a <= String.length b)%nat.

Definition has_length (n : nat) (a : string) : bool :=
  Nat.eqb (String.length a) n.

Definition is_find_pages_dir (e : Effect) : bool :=
  match e with EFindPagesDir _ => true | _ => false end.
Definition is_flush (e : Effect) : bool :=
  match e with ETelemetryFlushDetached _ => true | _ => false end.
Definition is_new_telemetry (e : Effect) : bool :=
  match e with ENewTelemetry _ => true | _ => false end.

(** What the coordinator calls, in terms of the session variables: it
    reports the session, signals the worker in [child], and neither
    checks the directory nor starts or answers a worker. *)
Definition stop_call_ok (turbo : bool) (url d : option string)
    (ch : option handle) (e : Effect) : Prop :=
  match e with
  | ETelemetryRecord ev => cliCommand ev = "dev" /\ turboFlag ev = turbo
  | EUploadTrace u =>
      truthy url = true /\ Some (ut_traceUploadUrl u) = url /\
      ut_mode u = "dev" /\ ut_isTurboSession u = turbo /\ ut_projectDir u = d
  | ELoadConfig od | EFindPagesDir od | ETelemetryFlushDetached od => od = d
  | ENewTelemetry dist => exists d' dd, d = Some d' /\ dist = path_join d' dd
  | EKill h _ => ch = Some h
  | EFileExists _ | ELoadEnvConfig _ | EValidateTurboNextConfig _ _
  | EFork _ _ | ESend _ _ | EResolve _ | EPreflight _ => False
  | _ => True
  end.

(** The same, in terms of the command line. *)
Definition run_call_ok (args : Args) (e : Effect) : Prop :=
  match e with
  | ETelemetryRecord ev => cliCommand ev = "dev" /\ turboFlag ev = false
  | EUploadTrace u =>
      truthy (arg_upload_trace args) = true /\
      Some (ut_traceUploadUrl u) = arg_upload_trace args /\
      ut_mode u = "dev" /\ ut_isTurboSession u = false
  | _ => True
  end.

(** The session variables the file assigns once or never. *)
Definition session_constants (args : Args) (started : Z) (m : Machine) : Prop :=
  isTurboSession (m_session m) = false /\
  sessionStarted (m_session m) = started /\
  (traceUploadUrl (m_session m) = None \/
   (traceUploadUrl (m_session m) = arg_upload_trace args /\
    truthy (arg_upload_trace args) = true)).

(** The project directory of line 128, from the command line and the
    environment the process starts with. *)
Definition projectDir (args : Args) (env : gmap string string) : string :=
  getProjectDir (js_or (env !! "NEXT_PRIVATE_DEV_DIR") (head (arg_positional args))).

(** A call that names a directory names [d]; the coordinator may run
    before [dir] is assigned and then passes [undefined]. *)
Definition names_dir (d : string) (e : Effect) : Prop :=
  match e with
  | EFileExists d' | ELoadEnvConfig d' => d' = d
  | ELoadConfig od | EFindPagesDir od | ETelemetryFlushDetached od =>
      od = None \/ od = Some d
  | ENewTelemetry dist => exists dd, dist = path_join d dd
  | EUploadTrace u => ut_projectDir u = Some d
  | EValidateTurboNextConfig _ o | ESend _ o => opt_dir o = d
  | _ => True
  end.

(** [dir] is assigned once, by the first turn of [nextDev]; the locals
    of the suspended [nextDev] and the options of every worker hold the
    same directory. *)
Definition dir_ok (d : string) (m : Machine) : Prop :=
  (m_nextDev m = NotStarted ->
   dir (m_session m) = None /\ traceUploadUrl (m_session m) = None) /\
  (m_nextDev m <> NotStarted -> dir (m_session m) = Some d) /\
  (forall g c, m_gens m !! g = Some c -> opt_dir (gen_options c) = d) /\
  match m_nextDev m with
  | AwaitFileExists d' | AwaitLoadConfig d' _ _ _ _ => d' = d
  | AwaitTurbo d' o => d' = d /\ opt_dir o = d
  | AwaitCertificate _ o => opt_dir o = d
  | _ => True
  end.

(** The handle of the most recently forked worker. *)
Definition latest (n : nat) : option handle :=
  match n with
  | O => None
  | S k => Some k
  end.

(** A call that names a worker, made after [n] forks: a fork creates
    worker [n]; a kill or a send goes to worker [n - 1]. *)
Definition names_worker (n : nat) (e : Effect) : Prop :=
  match e with
  | EFork h _ => h = n
  | EKill h _ | ESend h _ => latest n = Some h
  | _ => True
  end.

(** Every call of a trace names the worker of its moment, [n] forks
    having been made before the trace. *)
Fixpoint addressed (n : nat) (t : list Effect) : Prop :=
  match t with
  | [] => True
  | e :: t' =>
      names_worker n e /\ addressed (if is_fork e then S n else n) t'
  end.

Definition is_resolve_of (g : handle) (e : Effect) : bool :=
  match e with EResolve h => Nat.eqb h g | _ => false end.
Definition is_preflight (e : Effect) : bool :=
  match e with EPreflight _ => true | _ => false end.

(** How often the promise of generation [g] has been resolved, read off
    the [resolved] flags. *)
Definition resolved_count (gens : list Generation) (g : nat) : nat :=
  match gens !! g with
  | Some c => if gen_resolved c then 1 else 0
  | None => 0
  end.

(** How many [preflight] calls the trace may hold, and what the
    suspended [runDevServer] holds, by phase: [runDevServer] is only
    ever called with [false] and waits for the first worker. *)
Definition preflight_phase (m : Machine) (t : list Effect) : Prop :=
  match m_nextDev m with
  | AwaitPreflight | Finished => (occurrences is_preflight t <= 1)%nat
  | AwaitServerReady reboot g =>
      reboot = false /\ g = 0%nat /\ occurrences is_preflight t = 0%nat
  | AwaitCertificate reboot _ =>
      reboot = false /\ occurrences is_preflight t = 0%nat
  | _ => occurrences is_preflight t = 0%nat
  end.

(** Every [preflight] call is [preflight(false)], made right after the
    promise of the first worker resolves. *)
Definition preflight_after_resolve (t : list Effect) : Prop :=
  forall pre b post, t = pre ++ EPreflight b :: post ->
    b = false /\ exists pre', pre = pre' ++ [EResolve 0%nat].

Definition is_validate (e : Effect) : bool :=
  match e with EValidateTurboNextConfig _ _ => true | _ => false end.

(** The configuration has been checked for the bundler exactly when
    [process.env.TURBOPACK] is set, and [--turbo] sets it to ['1']. *)
Definition validated (args : Args) (m : Machine) (t : list Effect) : Prop :=
  occurrences is_validate t =
    (if truthy (m_env m !! "TURBOPACK") then 1 else 0)%nat /\
  (truthy_flag (arg_turbo args) = true -> m_env m !! "TURBOPACK" = Some "1").

Definition turbo_ok (args : Args) (m : Machine) (t : list Effect) : Prop :=
  match m_nextDev m with
  | NotStarted | AwaitFileExists _ | AwaitLoadConfig _ _ _ _ _ =>
      occurrences is_validate t = 0%nat
  | AwaitTurbo _ _ =>
      validated args m t /\ truthy (m_env m !! "TURBOPACK") = true
  | Finished => m_gens m = [] \/ validated args m t
  | _ => validated args m t
  end.

(** Every worker so far was given the environment a worker would be
    given now. *)
Definition fork_env_ok (m : Machine) (t : list Effect) : Prop :=
  forall h e, In (EFork h e) t -> e = forkEnv m.

(** A worker whose environment sets [TURBOPACK] is forked after the one
    bundler check; otherwise no check was made. *)
Definition validated_forks (t : list Effect) : Prop :=
  forall pre h e post, t = pre ++ EFork h e :: post ->
    occurrences is_validate pre =
      (if truthy (e !! "TURBOPACK") then 1 else 0)%nat.

(** A property [Q] of the launch options holds wherever the process
    keeps them: in the generations, and in the locals of the suspended
    [nextDev] and [runDevServer]. *)
Definition options_hold (Q : StartServerOptions -> Prop) (m : Machine) : Prop :=
  (forall g c, m_gens m !! g = Some c -> Q (gen_options c)) /\
  match m_nextDev m with
  | AwaitTurbo _ o | AwaitCertificate _ o => Q o
  | _ => True
  end.

Definition validate_holds (Q : StartServerOptions -> Prop) (e : Effect) : Prop :=
  match e with
  | EValidateTurboNextConfig _ o => Q o
  | _ => True
  end.

(** What [devServerOptions] takes from the command line and from
    [onLoadUserConfig], besides the port and the host. *)
Definition launch_flags (args : Args) (o : StartServerOptions) : Prop :=
  opt_isDev o = true /\
  opt_isExperimentalTestProxy o = arg_test_proxy args /\
  StronglySorted shorter (opt_expFeatureInfo o).

(** [nextDev] has returned or rejected, and no worker was started. *)
Definition launch_failed (m : Machine) : Prop :=
  m_nextDev m = Finished /\ m_gens m = [].

(** The calls that start, answer or follow a worker. *)
Definition worker_calls (t : list Effect) : nat :=
  (occurrences is_fork t + occurrences is_send t +
   occurrences is_preflight t)%nat.

(** The newest worker exits with the restart status, [k] times in a
    row: worker [n] first, then the worker started in its place. *)
Fixpoint restarts (n k : nat) (o : StopOracle) : list Event :=
  match k with
  | O => []
  | S k' => WorkerExit n (Some RESTART_EXIT_CODE) None o :: restarts (S n) k' o
  end.

(** [k] forks in a row, numbered from [n], with one environment. *)
Fixpoint forks_from (n k : nat) (e : gmap string string) : list Effect :=
  match k with
  | O => []
  | S k' => EFork n e :: forks_from (S n) k' e
  end.

(** The calls of [nextDev] that come before a first worker: the
    directory check, the environment files and the configuration, all on
    directory [d], and the two trace globals. *)
Definition started_up (d : string) (t : list Effect) : Prop :=
  In (EFileExists d) t /\ In (ELoadEnvConfig d) t /\ In (ELoadConfig (Some d)) t.

Definition globals_set (t : list Effect) : Prop :=
  In (ESetGlobal "phase" PHASE_DEVELOPMENT_SERVER) t /\
  exists dist, In (ESetGlobal "distDir" dist) t.

Definition startup_ok (m : Machine) (t : list Effect) : Prop :=
  match m_nextDev m with
  | NotStarted => True
  | AwaitFileExists d => In (EFileExists d) t
  | AwaitLoadConfig d _ _ _ _ | AwaitTurbo d _ => started_up d t
  | Finished => m_gens m = [] \/ exists d, started_up d t /\ globals_set t
  | _ => exists d, started_up d t /\ globals_set t
  end.

Definition forks_after_startup (t : list Effect) : Prop :=
  forall pre h e post, t = pre ++ EFork h e :: post ->
    exists d, started_up d pre /\ globals_set pre.


(** The event lets [nextDev] go on to [runDevServer(false)] (line 321):
    its configuration arrives and the bundler is not to be checked, or
    the check of the bundler returns. *)
Definition launches (ev : Event) (m : Machine) : Prop :=
  match ev, m_nextDev m with
  | ConfigLoaded (Some cfg) _, AwaitLoadConfig _ _ _ _ _ =>
      truthy (m_env (configured cfg m) !! "TURBOPACK") = false
  | TurboValidated true, AwaitTurbo _ _ => True
  | _, _ => False
  end.

(** [nextDev] has its configuration once it is past [loadConfig]. *)
Definition config_known (m : Machine) : Prop :=
  match m_nextDev m with
  | AwaitTurbo _ _ => config (m_session m) <> None
  | _ => True
  end.

End Moves.

(** ** [preflight] (lines 135-171) *)

(** The calls [preflight] makes. *)
Inductive PreflightCall :=
| PGetPackageVersion (cwd name : string)     (* getPackageVersion({ cwd, name }) *)
| PGetDependencies (cwd : string)            (* getDependencies({ cwd }) *)
| PWarn (msg : string).                      (* Log.warn(msg) *)

(** What they answer: [None] where a call rejects; a version is a string
    or null. *)
Record PreflightAnswers := {
  pf_sassVersion : option (option string);
  pf_nodeSassVersion : option (option string);
  pf_dependencies : option (gmap string string * gmap string string)
                                             (* dependencies, devDependencies *)
}.

Definition duplicateSassWarning : string :=
  "Your project has both `sass` and `node-sass` installed as dependencies, but should only use one or the other. " +:+
  "Please remove the `node-sass` dependency from your project. " +:+
  " Read more: https://nextjs.org/docs/messages/duplicate-sass".

Definition nextFontWarning (command : string) : string :=
  "Your project has `@next/font` installed as a dependency, please use the built-in `next/font` instead. " +:+
  ("The `@next/font` package will be removed in Next.js 14. " +:+
   ("You can migrate by running `" +:+
    (command +:+
     " @next/codemod@latest built-in-next-font .`. Read more: https://nextjs.org/docs/messages/built-in-next-font"))).

(** The test of lines 158-162. *)
Definition nextFontInstalled (dependencies devDependencies : gmap string string)
  : bool :=
  truthy (dependencies !! "@next/font") ||
  (truthy (devDependencies !! "@next/font") &&
   negb (bool_decide (devDependencies !! "@next/font" = Some "workspace:*"))).

Definition is_warn (c : PreflightCall) : bool :=
  match c with PWarn _ => true | _ => false end.
Definition is_getDependencies (c : PreflightCall) : bool :=
  match c with PGetDependencies _ => true | _ => false end.

Section Preflight.

(** [getNpxCommand] of [lib/helpers/get-npx-command]. *)
Variable getNpxCommand : string -> string.

(** [preflight(skipOnReboot)] for the project directory [d]: its calls,
    and whether it returns ([false] when a call rejected). Both versions
    are asked for before either is awaited. *)
Definition preflight (skipOnReboot : bool) (d : string) (a : PreflightAnswers)
  : list PreflightCall * bool :=
  let versions := [PGetPackageVersion d "sass"; PGetPackageVersion d "node-sass"] in
  match pf_sassVersion a, pf_nodeSassVersion a with
  | Some sassVersion, Some nodeSassVersion =>
      let sass := if truthy sassVersion && truthy nodeSassVersion
                  then [PWarn duplicateSassWarning] else [] in
      if skipOnReboot then (versions ++ sass, true)
      else
        match pf_dependencies a with
        | Some (dependencies, devDependencies) =>
            if nextFontInstalled dependencies devDependencies
            then (versions ++ sass ++
                    [PGetDependencies d; PWarn (nextFontWarning (getNpxCommand d))],
                  true)
            else (versions ++ sass ++ [PGetDependencies d], true)
        | None => (versions ++ sass ++ [PGetDependencies d], false)
        end
  | _, _ => (versions, false)
  end.

End Preflight.


(** ** Properties *)

Section Properties.

Context {X : Collaborators}.

(** *** The tail of the coordinator *)

Lemma finishSessionStop_cases (s : Session) :
  (exists up, finishSessionStop s = (up ++ restore, Exited 0) /\
     (up = [] \/ exists u, up = [EUploadTrace u])) \/
  (finishSessionStop s = ([], Threw) /\ truthy (traceUploadUrl s) = true /\
     config s = None).
Proof.
  unfold finishSessionStop, restore.
  destruct (traceUploadUrl s) as [u|] eqn:Hu; simpl.
  - destruct (truthy_string u) eqn:Ht.
    + destruct (config s) as [cfg|].
      * left. eexists [_]. split; [reflexivity | right; eauto].
      * right. auto.
    + left. exists []. auto.
  - left. exists []. auto.
Qed.

Lemma finishSessionStop_ok (s : Session) :
  config_before_upload s ->
  exists up, finishSessionStop s = (up ++ restore, Exited 0) /\
    (up = [] \/ exists u, up = [EUploadTrace u]).
Proof.
  intros Hwf. destruct (finishSessionStop_cases s) as [H | (_ & Ht & Hc)]; [exact H |].
  exfalso. exact (Hwf Ht Hc).
Qed.

Lemma recordSessionStopped_trace (o : StopOracle) (s : Session)
    (cfg : NextConfigComplete) :
  let t := fst (recordSessionStopped o s cfg) in
  telemetry_calls t \/
  exists a ev b, t = a ++ ETelemetryRecord ev :: b /\
    telemetry_calls a /\ telemetry_calls b.
Proof.
  unfold recordSessionStopped, bind, call, ret, throw.
  destruct (globalTelemetry o), (dir s), (distDir cfg), (telemetryCtorOk o),
    (globalPagesDir o), (globalAppDir o), (findPagesDirResult o),
    (recordOk o), (flushOk o); simpl;
    first [ solve [left; repeat constructor]
          | solve [right; eexists [], _, _; split; [reflexivity | split; repeat constructor]]
          | solve [right; eexists [_], _, _; split; [reflexivity | split; repeat constructor]]
          | solve [right; eexists [_; _], _, _; split; [reflexivity | split; repeat constructor]] ].
Qed.

Lemma occurrences_app (p : Effect -> bool) (a b : list Effect) :
  occurrences p (a ++ b) = (occurrences p a + occurrences p b)%nat.
Proof. unfold occurrences. rewrite List.filter_app, length_app. reflexivity. Qed.

Lemma occurrences_cons (p : Effect -> bool) (e : Effect) (t : list Effect) :
  occurrences p (e :: t) = ((if p e then 1 else 0) + occurrences p t)%nat.
Proof. unfold occurrences. simpl. destruct (p e); reflexivity. Qed.

Lemma telemetry_calls_occurrences (p : Effect -> bool) (t : list Effect) :
  (forall d, p (ENewTelemetry d) = false) ->
  (forall d, p (EFindPagesDir d) = false) ->
  (forall d, p (ETelemetryFlushDetached d) = false) ->
  telemetry_calls t -> occurrences p t = 0%nat.
Proof.
  intros Hn Hf Hd. induction 1; rewrite ?occurrences_cons, ?Hn, ?Hf, ?Hd; auto.
Qed.

Lemma telemetry_part_occurrences (p : Effect -> bool) (t : list Effect) :
  (forall d, p (ENewTelemetry d) = false) ->
  (forall d, p (EFindPagesDir d) = false) ->
  (forall d, p (ETelemetryFlushDetached d) = false) ->
  telemetry_part t ->
  (occurrences p t <= 1)%nat /\
  ((forall ev, p (ETelemetryRecord ev) = false) -> occurrences p t = 0%nat).
Proof.
  intros Hn Hf Hd [H | (a & ev & b & -> & Ha & Hb)].
  - rewrite (telemetry_calls_occurrences p t); auto.
  - rewrite occurrences_app, occurrences_cons.
    rewrite (telemetry_calls_occurrences p a), (telemetry_calls_occurrences p b); auto.
    split.
    + destruct (p (ETelemetryRecord ev)); simpl; lia.
    + intros Hr. rewrite Hr. reflexivity.
Qed.

(** What a trace of the guarded sequence contains. *)
Lemma shutdown_sequence_counts (t : list Effect) :
  shutdown_sequence t ->
  (occurrences is_telemetry_record t <= 1)%nat /\
  (occurrences is_upload_trace t <= 1)%nat /\
  occurrences is_show_cursor t = 1%nat /\
  occurrences is_process_exit t = 1%nat /\
  occurrences is_printed t = 0%nat /\
  occurrences is_fork t = 0%nat /\
  occurrences is_create_certificate t = 0%nat /\
  (exists pre, t = pre ++ restore /\ occurrences is_process_exit pre = 0%nat).
Proof.
  intros (tel & up & -> & Htel & Hup).
  assert (Hc : forall p, (forall d, p (ENewTelemetry d) = false) ->
               (forall d, p (EFindPagesDir d) = false) ->
               (forall d, p (ETelemetryFlushDetached d) = false) ->
               (occurrences p tel <= 1)%nat /\
               ((forall ev, p (ETelemetryRecord ev) = false) ->
                occurrences p tel = 0%nat))
    by (intros; apply telemetry_part_occurrences; auto).
  pose proof (Hc is_telemetry_record) as [H1 _]; auto.
  pose proof (Hc is_upload_trace) as [_ H2]; auto.
  pose proof (Hc is_show_cursor) as [_ H3]; auto.
  pose proof (Hc is_process_exit) as [_ H4]; auto.
  pose proof (Hc is_printed) as [_ H5]; auto.
  pose proof (Hc is_fork) as [_ H6]; auto.
  pose proof (Hc is_create_certificate) as [_ H7]; auto.
  rewrite !occurrences_app.
  rewrite H2, H3, H4, H5, H6, H7 by reflexivity.
  repeat split.
  - destruct Hup as [-> | [u ->]]; cbn; lia.
  - destruct Hup as [-> | [u ->]]; cbn; lia.
  - destruct Hup as [-> | [u ->]]; reflexivity.
  - destruct Hup as [-> | [u ->]]; reflexivity.
  - destruct Hup as [-> | [u ->]]; reflexivity.
  - destruct Hup as [-> | [u ->]]; reflexivity.
  - destruct Hup as [-> | [u ->]]; reflexivity.
  - exists (tel ++ up). split; [now rewrite app_assoc |].
    rewrite occurrences_app, H4 by reflexivity.
    destruct Hup as [-> | [u ->]]; reflexivity.
Qed.

Lemma stopWithConfig_spec (o : StopOracle) (s : Session) (cfg : NextConfigComplete) :
  exists t, stopWithConfig o s cfg = (set_config cfg s, t, Exited 0) /\
            shutdown_sequence t.
Proof.
  unfold stopWithConfig.
  pose proof (recordSessionStopped_trace o (set_config cfg s) cfg) as Htel.
  destruct (recordSessionStopped o (set_config cfg s) cfg) as [tel r].
  destruct (finishSessionStop_ok (set_config cfg s)) as (up & -> & Hup).
  { intros _. discriminate. }
  eexists. split; [reflexivity |]. exists tel, up. auto.
Qed.

Lemma handleSessionStop_handled (signal : option string) (o : StopOracle)
    (s : Session) :
  sessionStopHandled s = true ->
  handleSessionStop signal o s = (s, killChild signal s, Returned).
Proof. intros H. unfold handleSessionStop. rewrite H. reflexivity. Qed.

Lemma handleSessionStop_first (signal : option string) (o : StopOracle)
    (s : Session) :
  sessionStopHandled s = false ->
  exists s' t out,
    handleSessionStop signal o s = (s', killChild signal s ++ t, out) /\
    sessionStopHandled s' = true /\ same_worker s s' /\ config s' = config s /\
    ((out = Exited 0 /\ shutdown_sequence t) \/
     (out = Suspended /\ t = [ELoadConfig (dir s)] /\ config s = None) \/
     (out = Threw /\ t = [] /\ config s = None /\
      truthy (traceUploadUrl s) = true)).
Proof.
  intros Hf. unfold handleSessionStop. rewrite Hf.
  destruct (requireOk o).
  - simpl config. destruct (config s) as [cfg|] eqn:Hc.
    + destruct (stopWithConfig_spec o (set_sessionStopHandled s) cfg) as (t & -> & Ht).
      eexists _, t, _. split; [reflexivity |].
      split; [reflexivity |]. split; [repeat split |].
      split; [simpl; congruence |]. left. auto.
    + eexists _, _, _. split; [reflexivity |].
      split; [reflexivity |]. split; [repeat split |].
      split; [simpl; congruence |]. right. left. auto.
  - destruct (finishSessionStop_cases (set_sessionStopHandled s))
      as [(up & -> & Hup) | (-> & Ht & Hc)].
    + eexists _, _, _. split; [reflexivity |].
      split; [reflexivity |]. split; [repeat split |].
      split; [reflexivity |].
      left. split; [reflexivity |]. exists [], up.
      split; [reflexivity |]. split; [left; constructor | exact Hup].
    + eexists _, _, _. split; [reflexivity |].
      split; [reflexivity |]. split; [repeat split |].
      split; [reflexivity |]. right. right. auto.
Qed.

Lemma handleSessionStop_resume_spec (r : option NextConfigComplete)
    (o : StopOracle) (s : Session) :
  exists s' t out,
    handleSessionStop_resume r o s = (s', t, out) /\
    sessionStopHandled s' = sessionStopHandled s /\ same_worker s s' /\
    (config s' = config s \/ exists cfg, config s' = Some cfg) /\
    ((out = Exited 0 /\ shutdown_sequence t) \/
     (out = Threw /\ t = [] /\ config s = None /\
      truthy (traceUploadUrl s) = true)).
Proof.
  unfold handleSessionStop_resume. destruct r as [cfg|].
  - destruct (stopWithConfig_spec o s cfg) as (t & -> & Ht).
    eexists _, t, _. split; [reflexivity |].
    split; [reflexivity |]. split; [repeat split |].
    split; [right; simpl; eauto |]. left. auto.
  - destruct (finishSessionStop_cases s) as [(up & -> & Hup) | (-> & Ht & Hc)].
    + eexists _, _, _. split; [reflexivity |].
      split; [reflexivity |]. split; [repeat split |].
      split; [left; reflexivity |].
      left. split; [reflexivity |]. exists [], up.
      split; [reflexivity |]. split; [left; constructor | exact Hup].
    + eexists _, _, _. split; [reflexivity |].
      split; [reflexivity |]. split; [repeat split |].
      split; [left; reflexivity |]. right. auto.
Qed.

Lemma shutdown_sequence_outside (p : Effect -> bool) (t : list Effect) :
  outside_shutdown p -> shutdown_sequence t -> occurrences p t = 0%nat.
Proof.
  intros (Hn & Hf & Hd & Hr & Hu & Hw & He) (tel & up & -> & Htel & Hup).
  destruct (telemetry_part_occurrences p tel Hn Hf Hd Htel) as [_ H0].
  rewrite !occurrences_app, (H0 Hr).
  unfold restore. rewrite !occurrences_cons, !Hw, He.
  destruct Hup as [-> | [u ->]]; [reflexivity |].
  rewrite occurrences_cons, Hu. reflexivity.
Qed.

Lemma outside_kill : outside_shutdown is_kill.
Proof. repeat split. Qed.
Lemma outside_fork : outside_shutdown is_fork.
Proof. repeat split. Qed.
Lemma outside_send : outside_shutdown is_send.
Proof. repeat split. Qed.
Lemma outside_resolve : outside_shutdown is_resolve.
Proof. repeat split. Qed.
Lemma outside_rejected : outside_shutdown is_rejected.
Proof. repeat split. Qed.
Lemma outside_printed : outside_shutdown is_printed.
Proof. repeat split. Qed.
Lemma outside_create_certificate : outside_shutdown is_create_certificate.
Proof. repeat split. Qed.

(** *** The kill request *)

Lemma killArg_cases (signal : option string) :
  (signal = None \/ signal = Some EmptyString -> killArg signal = KillNumber 0) /\
  (forall name, signal = Some name -> name <> EmptyString ->
     killArg signal = KillSignal name).
Proof.
  split.
  - intros [-> | ->]; reflexivity.
  - intros name -> Hne. unfold killArg, truthy_string.
    destruct (String.eqb_spec name EmptyString); [contradiction | reflexivity].
Qed.

(** *** The event loop *)

Lemma step_exited (ev : Event) (m : Machine) (c : Z) :
  m_exited m = Some c -> step ev m = (m, []).
Proof. intros H. unfold step. rewrite H. reflexivity. Qed.

Lemma run_exited (evs : list Event) (m : Machine) (c : Z) :
  m_exited m = Some c -> run evs m = (m, []).
Proof.
  intros H. induction evs as [|ev evs IH]; [reflexivity |].
  simpl. rewrite (step_exited ev m c H), IH. reflexivity.
Qed.

Lemma run_cons (ev : Event) (evs : list Event) (m : Machine) :
  run (ev :: evs) m =
    (fst (run evs (fst (step ev m))),
     snd (step ev m) ++ snd (run evs (fst (step ev m)))).
Proof.
  simpl. destruct (step ev m) as [m1 t]. simpl.
  destruct (run evs m1) as [m2 t']. reflexivity.
Qed.

Lemma run_app (a b : list Event) (m : Machine) :
  run (a ++ b) m =
    (fst (run b (fst (run a m))), snd (run a m) ++ snd (run b (fst (run a m)))).
Proof.
  revert m. induction a as [|ev a IH]; intros m.
  - simpl. destruct (run b m). reflexivity.
  - rewrite <- app_comm_cons, !run_cons, IH. simpl.
    now rewrite app_assoc.
Qed.

Lemma run_snoc (a : list Event) (ev : Event) (m : Machine) :
  run (a ++ [ev]) m =
    (fst (step ev (fst (run a m))), snd (run a m) ++ snd (step ev (fst (run a m)))).
Proof.
  rewrite run_app, run_cons. simpl. now rewrite app_nil_r.
Qed.

(** Induction along a schedule, on the state together with the trace. *)
Lemma run_ind (P : Machine -> list Effect -> Prop) (m0 : Machine) :
  P m0 [] ->
  (forall m t ev, P m t -> P (fst (step ev m)) (t ++ snd (step ev m))) ->
  forall evs, P (fst (run evs m0)) (snd (run evs m0)).
Proof.
  intros H0 Hstep evs. induction evs as [|ev evs IH] using rev_ind.
  - exact H0.
  - rewrite run_snoc. simpl. apply Hstep, IH.
Qed.

Lemma set_session_id (m : Machine) : set_session (m_session m) m = m.
Proof. destruct m; reflexivity. Qed.

Lemma step_message (g : handle) (msg : Message) (m : Machine) :
  m_exited m = None -> step (WorkerMessage g msg) m = onMessage g msg m.
Proof. intros Ha. unfold step. rewrite Ha. destruct (m_nextDev m); reflexivity. Qed.

Lemma step_signal (sg : TerminationSignal) (o : StopOracle) (m : Machine) :
  m_exited m = None ->
  step (SignalReceived sg o) m =
    settle (handleSessionStop (Some (signal_name sg)) o (m_session m)) m.
Proof. intros Ha. unfold step. rewrite Ha. destruct (m_nextDev m); reflexivity. Qed.

Lemma step_exit (g : handle) (code : option Z) (signal : option string)
    (o : StopOracle) (m : Machine) :
  m_exited m = None ->
  step (WorkerExit g code signal o) m = onExit g code signal o m.
Proof. intros Ha. unfold step. rewrite Ha. destruct (m_nextDev m); reflexivity. Qed.

Lemma step_resume (r : option NextConfigComplete) (o : StopOracle) (m : Machine) :
  m_exited m = None ->
  step (StopConfigLoaded r o) m =
    if m_stopPending m then
      settle (handleSessionStop_resume r o (m_session m)) (set_stopPending false m)
    else (m, []).
Proof. intros Ha. unfold step. rewrite Ha. destruct (m_nextDev m); reflexivity. Qed.

(** *** The exit handler *)

Lemma handleSessionStop_falsy_signal (signal : option string) (o : StopOracle)
    (s : Session) :
  truthy signal = false ->
  handleSessionStop signal o s = handleSessionStop None o s.
Proof.
  intros Hs. unfold handleSessionStop, killChild, killArg.
  destruct signal as [n|]; [| reflexivity].
  simpl in Hs. rewrite Hs. reflexivity.
Qed.

(** The second rule of the exit handler: one fork, with the options of
    the generation that exited. *)
Lemma exit_restart (g : handle) (c : Generation) (signal : option string)
    (o : StopOracle) (m : Machine) :
  m_exited m = None -> m_gens m !! g = Some c ->
  sessionStopHandled (m_session m) = false -> truthy signal = false ->
  step (WorkerExit g (Some RESTART_EXIT_CODE) signal o) m =
    (set_gens (m_gens m ++ [{| gen_options := gen_options c;
                               gen_resolved := false |}])
       (set_session (set_child (length (m_gens m)) (m_session m)) m),
     [EFork (length (m_gens m)) (forkEnv m)]).
Proof.
  intros Ha Hg Hf Hs. rewrite step_exit by exact Ha.
  unfold onExit. rewrite Hg, Hf, Hs. simpl.
  rewrite bool_decide_true by reflexivity. reflexivity.
Qed.

(** C2: the exit handler of a worker generation, run by the event loop.
    With the shutdown flag set or a truthy exit signal it does nothing.
    Otherwise, on the restart status, it calls [startServer] with the
    options of that generation: one [fork], a new handle in [child], a
    generation whose options are the old ones and whose [resolved] is
    fresh. Otherwise it runs the coordinator, as with a null signal. *)
Theorem exit_handler_rules (g : handle) (c : Generation) (code : option Z)
    (signal : option string) (o : StopOracle) (m : Machine) :
  m_exited m = None ->
  m_gens m !! g = Some c ->
  (sessionStopHandled (m_session m) = true \/ truthy signal = true ->
   step (WorkerExit g code signal o) m = (m, [])) /\
  (sessionStopHandled (m_session m) = false -> truthy signal = false ->
   code = Some RESTART_EXIT_CODE ->
   let m' := fst (step (WorkerExit g code signal o) m) in
   snd (step (WorkerExit g code signal o) m) = [EFork (length (m_gens m)) (forkEnv m)] /\
   occurrences is_fork (snd (step (WorkerExit g code signal o) m)) = 1%nat /\
   child (m_session m') = Some (length (m_gens m)) /\
   m_gens m' = m_gens m ++ [{| gen_options := gen_options c;
                               gen_resolved := false |}] /\
   m_exited m' = None) /\
  (sessionStopHandled (m_session m) = false -> truthy signal = false ->
   code <> Some RESTART_EXIT_CODE ->
   step (WorkerExit g code signal o) m =
     settle (handleSessionStop None o (m_session m)) m).
Proof.
  intros Ha Hg. split; [| split].
  - intros H. rewrite step_exit by exact Ha. unfold onExit. rewrite Hg.
    destruct H as [-> | ->]; [reflexivity |]. now rewrite orb_true_r.
  - intros Hf Hs ->. rewrite (exit_restart g c signal o m Ha Hg Hf Hs).
    simpl. auto.
  - intros Hf Hs Hne. rewrite step_exit by exact Ha. unfold onExit.
    rewrite Hg, Hf, Hs. simpl. rewrite bool_decide_false by exact Hne.
    now rewrite (handleSessionStop_falsy_signal signal o _ Hs).
Qed.

(** *** The handshake *)

(** A message that is neither of the two shapes changes nothing. *)
Lemma message_ignored (g : handle) (msg : Message) (m : Machine) :
  is_ready msg = false -> is_serverReady msg = false ->
  step (WorkerMessage g msg) m = (m, []).
Proof.
  intros Hr Hs. unfold step, onMessage.
  destruct (m_exited m); [reflexivity |].
  destruct msg as [|[|] [|]]; try discriminate;
    destruct (m_nextDev m), (m_gens m !! g); reflexivity.
Qed.

(** One message on the channel of generation [g], the current worker. *)
Lemma handshake_step (g : handle) (options : StartServerOptions) (b : bool)
    (msg : Message) (m : Machine) :
  m_exited m = None -> child (m_session m) = Some g ->
  m_gens m !! g = Some {| gen_options := options; gen_resolved := b |} ->
  let r := step (WorkerMessage g msg) m in
  List.filter is_send (snd r) = (if is_ready msg then [ESend g options] else []) /\
  List.filter is_resolve (snd r) =
    (if negb b && is_serverReady msg then [EResolve g] else []) /\
  head (snd r) = (if is_ready msg then Some (ESend g options)
                  else if negb b && is_serverReady msg then Some (EResolve g)
                  else None) /\
  occurrences is_rejected (snd r) = 0%nat /\
  m_exited (fst r) = None /\ child (m_session (fst r)) = Some g /\
  m_gens (fst r) !! g =
    Some {| gen_options := options; gen_resolved := b || is_serverReady msg |}.
Proof.
  intros Ha Hc Hg. rewrite step_message by exact Ha.
  unfold onMessage. rewrite Hg, Hc.
  assert (Hlt : (g < length (m_gens m))%nat) by (eapply lookup_lt_Some; eauto).
  destruct msg as [|[|] [|]], b; simpl; try (now auto 10).
  destruct (m_nextDev m) as [| | | | |rb h| |]; simpl;
    try (rewrite list_lookup_insert_eq by exact Hlt; now auto 10).
  destruct (Nat.eqb h g); simpl;
    rewrite list_lookup_insert_eq by exact Hlt; now auto 10.
Qed.

Lemma handshake_run (g : handle) (options : StartServerOptions)
    (msgs : list Message) :
  forall (b : bool) (m : Machine),
  m_exited m = None -> child (m_session m) = Some g ->
  m_gens m !! g = Some {| gen_options := options; gen_resolved := b |} ->
  let r := run (map (WorkerMessage g) msgs) m in
  List.filter is_send (snd r) =
    map (fun _ => ESend g options) (List.filter is_ready msgs) /\
  List.filter is_resolve (snd r) =
    (if negb b && existsb is_serverReady msgs then [EResolve g] else []) /\
  occurrences is_rejected (snd r) = 0%nat /\
  m_exited (fst r) = None /\ child (m_session (fst r)) = Some g /\
  m_gens (fst r) !! g =
    Some {| gen_options := options;
            gen_resolved := b || existsb is_serverReady msgs |}.
Proof.
  induction msgs as [|msg msgs IH]; intros b m Ha Hc Hg.
  - simpl. rewrite andb_false_r, orb_false_r. auto 10.
  - cbn [map]. rewrite run_cons. cbn [fst snd].
    destruct (handshake_step g options b msg m Ha Hc Hg)
      as (Hs & Hr & _ & Hj & Ha' & Hc' & Hg').
    destruct (IH _ _ Ha' Hc' Hg') as (Hs2 & Hr2 & Hj2 & Ha2 & Hc2 & Hg2).
    rewrite !List.filter_app, occurrences_app, Hs, Hr, Hs2, Hr2, Hj, Hj2.
    cbn [existsb List.filter].
    split; [destruct (is_ready msg); reflexivity |].
    split; [destruct b, (is_serverReady msg); simpl; try reflexivity;
            now rewrite ?andb_false_r |].
    split; [reflexivity |]. split; [exact Ha2 |]. split; [exact Hc2 |].
    rewrite Hg2. now rewrite orb_assoc.
Qed.

(** C3: the messages [msgs] arrive on the channel of the worker that
    [startServer(options)] has just forked. The handler answers each
    ready message, and nothing else, with one send of [options] to that
    worker; the promise is resolved once, by the first server-ready
    message, and never when there is none; a message of neither shape
    leaves state and trace as they are; nothing rejects and the process
    stays alive. A sequence with a ready message and, later, a
    server-ready message therefore resolves the promise exactly once. *)
Theorem startServer_handshake (options : StartServerOptions) (m0 : Machine)
    (msgs : list Message) :
  m_exited m0 = None ->
  let m := fst (fst (startServer options m0)) in
  let g := snd (fst (startServer options m0)) in
  let deliver := map (WorkerMessage g) in
  let t := snd (run (deliver msgs) m) in
  List.filter is_send t =
    map (fun _ => ESend g options) (List.filter is_ready msgs) /\
  List.filter is_resolve t =
    (if existsb is_serverReady msgs then [EResolve g] else []) /\
  (forall pre msg post, msgs = pre ++ msg :: post ->
     is_serverReady msg = true -> existsb is_serverReady pre = false ->
     occurrences is_resolve (snd (run (deliver pre) m)) = 0%nat /\
     head (snd (step (WorkerMessage g msg) (fst (run (deliver pre) m)))) =
       Some (EResolve g)) /\
  (forall msg m', is_ready msg = false -> is_serverReady msg = false ->
     step (WorkerMessage g msg) m' = (m', [])) /\
  occurrences is_rejected t = 0%nat /\
  m_exited (fst (run (deliver msgs) m)) = None /\
  (forall a r b s c, msgs = a ++ r :: b ++ s :: c ->
     is_ready r = true -> is_serverReady s = true ->
     occurrences is_resolve t = 1%nat /\ (1 <= occurrences is_send t)%nat).
Proof.
  intros Ha m g deliver t.
  assert (Ha' : m_exited m = None) by exact Ha.
  assert (Hc : child (m_session m) = Some g) by reflexivity.
  assert (Hg : m_gens m !! g =
               Some {| gen_options := options; gen_resolved := false |}).
  { subst m g. simpl. rewrite lookup_app_r by lia.
    now rewrite Nat.sub_diag. }
  destruct (handshake_run g options msgs false m Ha' Hc Hg)
    as (Hs & Hr & Hj & He & _ & _).
  fold deliver in Hs, Hr, Hj, He. fold t in Hs, Hr, Hj.
  split; [exact Hs |]. split; [exact Hr |].
  split; [| split; [| split; [exact Hj | split; [exact He |]]]].
  - intros pre msg post -> Hm Hpre.
    destruct (handshake_run g options pre false m Ha' Hc Hg)
      as (_ & Hr1 & _ & He1 & Hc1 & Hg1).
    fold deliver in Hr1, He1, Hc1, Hg1.
    rewrite Hpre in Hr1, Hg1. simpl in Hr1, Hg1.
    split; [unfold occurrences; now rewrite Hr1 |].
    destruct (handshake_step g options false msg _ He1 Hc1 Hg1)
      as (_ & _ & Hh & _).
    rewrite Hh, Hm.
    destruct msg as [|[|] [|]]; try discriminate. reflexivity.
  - intros msg m'. apply message_ignored.
  - intros a r b s c -> Hready Hsr.
    unfold occurrences. rewrite Hs, Hr.
    rewrite existsb_app. cbn [existsb]. rewrite existsb_app. cbn [existsb].
    rewrite Hsr, !orb_true_r. split; [reflexivity |].
    rewrite length_map, List.filter_app. cbn [List.filter]. rewrite Hready.
    rewrite length_app. simpl. lia.
Qed.

(** *** Runs of the coordinator inside the event loop *)

Lemma settle_stop_cases (signal : option string) (o : StopOracle) (m : Machine) :
  let r := settle (handleSessionStop signal o (m_session m)) m in
  exists s' t,
    same_worker (m_session m) s' /\ config s' = config (m_session m) /\
    snd r = killChild signal (m_session m) ++ t /\
    ((sessionStopHandled (m_session m) = true /\ fst r = m /\ t = []) \/
     (sessionStopHandled (m_session m) = false /\ sessionStopHandled s' = true /\
      ((fst r = set_exited 0 (set_session s' m) /\ shutdown_sequence t) \/
       (fst r = set_stopPending true (set_session s' m) /\
        t = [ELoadConfig (dir (m_session m))] /\ config (m_session m) = None) \/
       (fst r = set_session s' m /\ t = [ERejected] /\
        config (m_session m) = None /\
        truthy (traceUploadUrl (m_session m)) = true)))).
Proof.
  destruct (sessionStopHandled (m_session m)) eqn:Hf.
  - rewrite handleSessionStop_handled by exact Hf. simpl.
    exists (m_session m), []. rewrite app_nil_r, set_session_id.
    split; [repeat split |]. auto 10.
  - destruct (handleSessionStop_first signal o _ Hf)
      as (s' & t & out & -> & Hf' & Hsame & Hcfg & Hout).
    destruct Hout as [[-> Hs] | [(-> & -> & Hc) | (-> & -> & Hc & Hu)]]; simpl.
    + exists s', t. repeat (split; [assumption || reflexivity |]).
      right. repeat (split; [assumption || reflexivity |]). left. now split.
    + exists s', [ELoadConfig (dir (m_session m))].
      repeat (split; [assumption || reflexivity |]).
      right. repeat (split; [assumption || reflexivity |]). right. left.
      repeat split; assumption.
    + exists s', [ERejected]. rewrite app_nil_r.
      repeat (split; [assumption || reflexivity |]).
      right. repeat (split; [assumption || reflexivity |]). right. right.
      repeat split; assumption.
Qed.

Lemma settle_resume_cases (r : option NextConfigComplete) (o : StopOracle)
    (m : Machine) :
  let m0 := set_stopPending false m in
  let res := settle (handleSessionStop_resume r o (m_session m)) m0 in
  exists s',
    same_worker (m_session m) s' /\
    sessionStopHandled s' = sessionStopHandled (m_session m) /\
    (config s' = config (m_session m) \/ exists cfg, config s' = Some cfg) /\
    ((fst res = set_exited 0 (set_session s' m0) /\ shutdown_sequence (snd res)) \/
     (fst res = set_session s' m0 /\ snd res = [ERejected] /\
      config (m_session m) = None /\
      truthy (traceUploadUrl (m_session m)) = true)).
Proof.
  destruct (handleSessionStop_resume_spec r o (m_session m))
    as (s' & t & out & -> & Hf & Hsame & Hcfg & Hout).
  destruct Hout as [[-> Hs] | (-> & -> & Hc & Hu)]; simpl; exists s';
    repeat (split; [assumption || reflexivity |]).
  - left. now split.
  - right. repeat split; assumption.
Qed.

(** *** Late messages of the previous worker *)

(** C5, as the code has it: a worker generation [g] asks for a restart
    and a message of [g] arrives afterwards. The message never resolves
    the promise of the new generation and leaves its [resolved] flag
    alone; unless it is a ready message it sends nothing. A late ready
    message is answered: the handler checks no handle identity and sends
    the unchanged options to the handle now in [child], the new worker. *)
Theorem late_message_after_restart (g : handle) (c : Generation)
    (signal : option string) (o : StopOracle) (msg : Message) (m : Machine) :
  m_exited m = None -> m_gens m !! g = Some c ->
  sessionStopHandled (m_session m) = false -> truthy signal = false ->
  let m1 := fst (step (WorkerExit g (Some RESTART_EXIT_CODE) signal o) m) in
  let g' := length (m_gens m) in
  let r := step (WorkerMessage g msg) m1 in
  child (m_session m1) = Some g' /\ g <> g' /\
  (is_ready msg = true -> snd r = [ESend g' (gen_options c)]) /\
  (is_ready msg = false -> occurrences is_send (snd r) = 0%nat) /\
  ~ In (EResolve g') (snd r) /\
  m_gens (fst r) !! g' =
    Some {| gen_options := gen_options c; gen_resolved := false |}.
Proof.
  intros Ha Hg Hf Hs m1 g' r.
  pose proof (exit_restart g c signal o m Ha Hg Hf Hs) as Hrestart.
  assert (Hc1 : child (m_session m1) = Some g')
    by (subst m1; rewrite Hrestart; reflexivity).
  assert (Hg1 : m_gens m1 = m_gens m ++ [{| gen_options := gen_options c;
                                            gen_resolved := false |}])
    by (subst m1; rewrite Hrestart; reflexivity).
  assert (Ha1 : m_exited m1 = None)
    by (subst m1; rewrite Hrestart; exact Ha).
  assert (Hlt : (g < g')%nat) by (eapply lookup_lt_Some; eauto).
  assert (Hold : m_gens m1 !! g = Some c)
    by (rewrite Hg1, lookup_app_l by exact Hlt; exact Hg).
  assert (Hnew : m_gens m1 !! g' =
                 Some {| gen_options := gen_options c; gen_resolved := false |}).
  { rewrite Hg1. subst g'. rewrite lookup_app_r by lia.
    now rewrite Nat.sub_diag. }
  split; [exact Hc1 |]. split; [lia |].
  subst r. rewrite step_message by exact Ha1.
  unfold onMessage. rewrite Hold, Hc1.
  destruct msg as [|[|] [|]]; simpl;
    try (split; [intros; congruence|]; split; [reflexivity|]; split; [tauto | exact Hnew]);
    try (split; [reflexivity|]; split; [intros; congruence|]; split; [| exact Hnew];
         intros [H | []]; discriminate).
  destruct (gen_resolved c); simpl.
  { split; [intros; congruence|]. split; [reflexivity|]. split; [tauto | exact Hnew]. }
  assert (Hins : forall x, <[g := x]> (m_gens m1) !! g' =
             Some {| gen_options := gen_options c; gen_resolved := false |}).
  { intros x. rewrite list_lookup_insert_ne by lia. exact Hnew. }
  assert (Hne : EResolve g <> EResolve g') by (intros [=]; lia).
  destruct (m_nextDev m1) as [| | | | |rb h| |]; simpl;
    try (split; [intros; congruence|]; split; [reflexivity|]; split; [| apply Hins];
         intros [H | []]; congruence).
  destruct (Nat.eqb h g); simpl;
    (split; [intros; congruence|]; split; [reflexivity|]; split; [| apply Hins]).
  - intros [H | [H | []]]; congruence.
  - intros [H | []]; congruence.
Qed.

Lemma same_worker_refl (s : Session) : same_worker s s.
Proof. repeat split. Qed.

Lemma machine_frame_refl (m : Machine) : machine_frame m m.
Proof. repeat split. Qed.

Lemma killChild_outside (p : Effect -> bool) (signal : option string) (s : Session) :
  (forall h a, p (EKill h a) = false) -> occurrences p (killChild signal s) = 0%nat.
Proof.
  intros Hk. unfold killChild. destruct (child s); [| reflexivity].
  rewrite occurrences_cons, Hk. reflexivity.
Qed.

Lemma settle_stop_frame (signal : option string) (o : StopOracle) (m : Machine) :
  let r := settle (handleSessionStop signal o (m_session m)) m in
  machine_frame m (fst r) /\
  (forall p, outside_coordinator p -> occurrences p (snd r) = 0%nat).
Proof.
  destruct (settle_stop_cases signal o m) as (s' & t & Hsame & _ & Ht & Hcases).
  cbv zeta. rewrite Ht. split.
  - destruct Hcases as [(_ & -> & _) | (_ & _ & [[-> _] | [(-> & _) | (-> & _)]])];
      try apply machine_frame_refl; repeat split; apply Hsame.
  - intros p (Hsh & Hk & Hl & Hj). rewrite occurrences_app, killChild_outside by exact Hk.
    destruct Hcases as [(_ & _ & ->) | (_ & _ & [[_ Hs] | [(_ & -> & _) | (_ & -> & _)]])].
    + reflexivity.
    + now apply shutdown_sequence_outside.
    + rewrite occurrences_cons, Hl. reflexivity.
    + rewrite occurrences_cons, Hj. reflexivity.
Qed.

Lemma settle_resume_frame (r : option NextConfigComplete) (o : StopOracle)
    (m : Machine) :
  let res := settle (handleSessionStop_resume r o (m_session m))
               (set_stopPending false m) in
  machine_frame m (fst res) /\
  (forall p, outside_coordinator p -> occurrences p (snd res) = 0%nat).
Proof.
  destruct (settle_resume_cases r o m) as (s' & Hsame & _ & _ & Hcases).
  cbv zeta. split.
  - destruct Hcases as [[-> _] | (-> & _)]; repeat split; apply Hsame.
  - intros p (Hsh & Hk & Hl & Hj).
    destruct Hcases as [[_ Hs] | (_ & -> & _)].
    + now apply shutdown_sequence_outside.
    + rewrite occurrences_cons, Hj. reflexivity.
Qed.

Lemma coordinator_no_fork : outside_coordinator is_fork.
Proof. repeat split. Qed.
Lemma coordinator_no_send : outside_coordinator is_send.
Proof. repeat split. Qed.
Lemma coordinator_no_resolve : outside_coordinator is_resolve.
Proof. repeat split. Qed.
Lemma coordinator_no_certificate : outside_coordinator is_create_certificate.
Proof. repeat split. Qed.
Lemma coordinator_no_print : outside_coordinator is_printed.
Proof. repeat split. Qed.

(** *** The reserved ports *)

Lemma reserved_port_step (args : Args) (env : gmap string string)
    (ev : Event) (m : Machine) :
  isPortIsReserved (getPort args env) = true ->
  before_port_check args env m ->
  before_port_check args env (fst (step ev m)) /\
  occurrences is_fork (snd (step ev m)) = 0%nat.
Proof.
  intros Hres (Hargs & Henv & Hgens & Hphase).
  destruct (m_exited m) eqn:Ha.
  { rewrite (step_exited ev m _ Ha). simpl. repeat split; assumption. }
  assert (Hsame : before_port_check args env m) by (repeat split; assumption).
  assert (Hframe : forall m', machine_frame m m' -> before_port_check args env m').
  { intros m' (H1 & H2 & _ & H4 & H5 & _). unfold before_port_check.
    rewrite H1, H2, H4, H5. exact Hsame. }
  destruct ev.
  - (* nextDev(args) *)
    unfold step. rewrite Ha.
    destruct Hphase as [Hp | [d Hp]]; rewrite Hp; [| split; [exact Hsame | reflexivity]].
    unfold nextDev. destruct (truthy_flag (arg_help (m_args m)));
      (split; [| reflexivity]); unfold before_port_check; simpl;
      repeat split; eauto.
  - (* fileExists answers *)
    unfold step. rewrite Ha.
    destruct Hphase as [Hp | [d Hp]]; rewrite Hp; [split; [exact Hsame | reflexivity] |].
    unfold nextDev_fileExists, printAndExit.
    destruct b; simpl.
    + rewrite Hargs, Henv, Hres. simpl. split; [| reflexivity].
      unfold before_port_check; simpl; repeat split; eauto.
    + split; [| reflexivity].
      unfold before_port_check; simpl; repeat split; eauto.
  - unfold step. rewrite Ha.
    destruct Hphase as [-> | [d ->]]; split; solve [exact Hsame | reflexivity].
  - unfold step. rewrite Ha.
    destruct Hphase as [-> | [d ->]]; split; solve [exact Hsame | reflexivity].
  - unfold step. rewrite Ha.
    destruct Hphase as [-> | [d ->]]; split; solve [exact Hsame | reflexivity].
  - unfold step. rewrite Ha.
    destruct Hphase as [-> | [d ->]]; split; solve [exact Hsame | reflexivity].
  - (* a termination signal *)
    rewrite step_signal by exact Ha.
    destruct (settle_stop_frame (Some (signal_name sg)) o m) as [Hf Hp].
    split; [apply Hframe, Hf | apply Hp, coordinator_no_fork].
  - (* a message *)
    rewrite step_message by exact Ha. unfold onMessage. rewrite Hgens. simpl.
    split; [exact Hsame | reflexivity].
  - (* a worker exit *)
    rewrite step_exit by exact Ha. unfold onExit. rewrite Hgens. simpl.
    split; [exact Hsame | reflexivity].
  - (* the coordinator resumes *)
    rewrite step_resume by exact Ha.
    destruct (m_stopPending m); [| split; [exact Hsame | reflexivity]].
    destruct (settle_resume_frame r o m) as [Hf Hp].
    split; [apply Hframe, Hf | apply Hp, coordinator_no_fork].
Qed.

(** C7: the port resolved from the command line and the environment is
    reserved.
    (1) No worker is ever forked, whatever the other flags and whatever
    events arrive.
    (2) Whenever [nextDev] resolves the port, that is, whenever the live
    process is told that the project directory exists (with [--help], or
    with a missing directory, [nextDev] ends before line 173), it prints
    the explanation for that port and exits with status 1 at once, with
    no worker forked before and nothing done after; this holds whatever
    the other flags are and whatever happened in between, a termination
    signal included. *)
Theorem reserved_port_exits (args : Args) (env : gmap string string)
    (started : Z) (evs0 evs : list Event) (le : LoadedEnv) (d : string) :
  isPortIsReserved (getPort args env) = true ->
  (occurrences is_fork (snd (run evs (initial args env started))) = 0%nat /\
   m_gens (fst (run evs (initial args env started))) = []) /\
  (let m0 := fst (run evs0 (initial args env started)) in
   m_exited m0 = None -> m_nextDev m0 = AwaitFileExists d ->
   let r := run (evs0 ++ FileExistsSettled true le :: evs)
              (initial args env started) in
   m_exited (fst r) = Some 1 /\
   snd r = snd (run evs0 (initial args env started))
           ++ [EPrint (getReservedPortExplanation (getPort args env));
               EProcessExit 1] /\
   occurrences is_fork (snd r) = 0%nat /\ m_gens (fst r) = []).
Proof.
  intros Hres.
  assert (Hind : forall l,
            before_port_check args env (fst (run l (initial args env started))) /\
            occurrences is_fork (snd (run l (initial args env started))) = 0%nat).
  { apply (run_ind
      (fun m t => before_port_check args env m /\ occurrences is_fork t = 0%nat)
      (initial args env started)).
    - repeat split; auto.
    - intros m t ev [Hb Ht].
      destruct (reserved_port_step args env ev m Hres Hb) as [Hb' Ht'].
      split; [exact Hb' | rewrite occurrences_app, Ht, Ht'; reflexivity]. }
  split.
  - destruct (Hind evs) as [(_ & _ & Hg & _) Hfork]. now split.
  - intros m0 Ha Hph r.
    destruct (Hind evs0) as [(Hargs & Henv & Hg & _) Hfork]. fold m0 in Hargs, Henv, Hg.
    assert (Hstep : step (FileExistsSettled true le) m0 =
              (set_exited 1 m0,
               [EPrint (getReservedPortExplanation (getPort args env));
                EProcessExit 1])).
    { unfold step. rewrite Ha, Hph. unfold nextDev_fileExists, printAndExit.
      cbn. rewrite Hargs, Henv, Hres. reflexivity. }
    unfold r. rewrite run_app. fold m0. rewrite run_cons, Hstep. cbn [fst snd].
    rewrite (run_exited evs _ 1) by reflexivity. cbn [fst snd].
    rewrite app_nil_r. split; [reflexivity |]. split; [reflexivity |].
    split; [| exact Hg]. now rewrite occurrences_app, Hfork.
Qed.

(** *** What every reachable state satisfies *)

Lemma session_ok_frame (m m' : Machine) :
  traceUploadUrl (m_session m') = traceUploadUrl (m_session m) ->
  config (m_session m') = config (m_session m) ->
  m_stopPending m' = m_stopPending m ->
  sessionStopHandled (m_session m') = sessionStopHandled (m_session m) ->
  session_ok m -> session_ok m'.
Proof.
  unfold session_ok, config_before_upload. intros -> -> -> ->. auto.
Qed.

Lemma session_ok_step (ev : Event) (m : Machine) :
  session_ok m -> session_ok (fst (step ev m)).
Proof.
  intros Hok. destruct (m_exited m) eqn:Ha.
  { now rewrite (step_exited ev m _ Ha). }
  destruct ev.
  - unfold step. rewrite Ha. destruct (m_nextDev m); try exact Hok.
    unfold nextDev. destruct (truthy_flag _); simpl;
      (eapply session_ok_frame; [.. | exact Hok]; reflexivity).
  - unfold step. rewrite Ha. destruct (m_nextDev m); try exact Hok.
    unfold nextDev_fileExists, printAndExit.
    destruct b; simpl; [destruct (isPortIsReserved _); simpl |];
      (eapply session_ok_frame; [.. | exact Hok]; reflexivity).
  - unfold step. rewrite Ha. destruct (m_nextDev m); try exact Hok.
    unfold nextDev_config. destruct r as [cfg|]; [| exact Hok].
    destruct Hok as [_ Hp].
    match goal with
    | |- context [if truthy (?e !! "TURBOPACK") then _ else _] =>
        destruct (truthy (e !! "TURBOPACK"))
    end.
    + simpl. split; [| destruct (truthy (arg_upload_trace (m_args m))); exact Hp].
      intros _. destruct (truthy (arg_upload_trace (m_args m))); discriminate.
    + unfold nextDev_serve. cbn [m_session set_env set_session].
      assert (Hc : forall s, config (if truthy (arg_upload_trace (m_args m))
                     then set_traceUploadUrl (arg_upload_trace (m_args m))
                            (set_config cfg s)
                     else set_config cfg s) = Some cfg)
        by (intros s0; destruct (truthy _); reflexivity).
      rewrite Hc. unfold runDevServer, startServer.
      cbn [m_args set_env set_session].
      destruct (truthy_flag (arg_https (m_args m)));
        [destruct (truthy_value (arg_https_key (m_args m))),
                  (truthy_value (arg_https_cert (m_args m))) |];
        cbn; (split; [intros _ | ]);
        destruct (truthy (arg_upload_trace (m_args m))); try discriminate; exact Hp.
  - unfold step. rewrite Ha. destruct (m_nextDev m); try exact Hok.
    destruct ok; [| exact Hok].
    unfold nextDev_serve. destruct (config (m_session m)) eqn:Hc; [| exact Hok].
    unfold runDevServer, startServer.
    destruct (truthy_flag (arg_https (m_args m)));
      [destruct (truthy_value (arg_https_key (m_args m))),
                (truthy_value (arg_https_cert (m_args m))) |];
      cbn; (eapply session_ok_frame; [.. | exact Hok]; reflexivity).
  - unfold step. rewrite Ha. destruct (m_nextDev m); try exact Hok.
    unfold runDevServer_certificate, runDevServer_catch, startServer.
    destruct r; cbn; (eapply session_ok_frame; [.. | exact Hok]; reflexivity).
  - unfold step. rewrite Ha. destruct (m_nextDev m); try exact Hok.
    unfold runDevServer_catch.
    destruct ok; cbn; (eapply session_ok_frame; [.. | exact Hok]; reflexivity).
  - rewrite step_signal by exact Ha.
    destruct (settle_stop_cases (Some (signal_name sg)) o m)
      as (s' & t & (_ & _ & Hu & _) & Hcfg & _ & Hcases).
    destruct Hok as [Hup Hp].
    destruct Hcases as [(_ & -> & _) | (_ & Hf & [[-> _] | [(-> & _) | (-> & _)]])];
      [now split | ..]; (split; [| simpl; auto]);
      unfold config_before_upload; simpl; rewrite Hu, Hcfg; exact Hup.
  - rewrite step_message by exact Ha. unfold onMessage.
    destruct (m_gens m !! g); [| exact Hok].
    destruct msg as [|[|] [|]]; try exact Hok.
    destruct (gen_resolved g0); [exact Hok |].
    destruct (m_nextDev m); try destruct (Nat.eqb h g);
      (eapply session_ok_frame; [.. | exact Hok]; reflexivity).
  - rewrite step_exit by exact Ha. unfold onExit.
    destruct (m_gens m !! g); [| exact Hok].
    destruct (sessionStopHandled (m_session m) || truthy signal); [exact Hok |].
    destruct (bool_decide _).
    + unfold startServer. cbn.
      eapply session_ok_frame; [.. | exact Hok]; reflexivity.
    + destruct (settle_stop_cases signal o m)
        as (s' & t & (_ & _ & Hu & _) & Hcfg & _ & Hcases).
      destruct Hok as [Hup Hp].
      destruct Hcases as [(_ & -> & _) | (_ & Hf & [[-> _] | [(-> & _) | (-> & _)]])];
        [now split | ..]; (split; [| simpl; auto]);
        unfold config_before_upload; simpl; rewrite Hu, Hcfg; exact Hup.
  - rewrite step_resume by exact Ha.
    destruct (m_stopPending m) eqn:Hpend; [| exact Hok].
    destruct (settle_resume_cases r o m) as (s' & (_ & _ & Hu & _) & Hf & Hcfg & Hcases).
    destruct Hok as [Hup Hp].
    assert (Hup' : config_before_upload s').
    { unfold config_before_upload. rewrite Hu.
      destruct Hcfg as [-> | [cfg ->]]; [exact Hup | discriminate]. }
    destruct Hcases as [[-> _] | (-> & _)]; (split; [exact Hup' | simpl; discriminate]).
Qed.

Lemma session_ok_initial (args : Args) (env : gmap string string) (started : Z) :
  session_ok (initial args env started).
Proof. split; simpl; discriminate. Qed.

Lemma session_ok_run (evs : list Event) (m : Machine) :
  session_ok m -> session_ok (fst (run evs m)).
Proof.
  intros H.
  apply (run_ind (fun m' _ => session_ok m') m H).
  intros m' t ev. apply session_ok_step.
Qed.

Lemma reachable_session_ok (m : Machine) : reachable m -> session_ok m.
Proof.
  intros (args & env & started & evs & ->).
  apply session_ok_run, session_ok_initial.
Qed.

(** *** Errors of the best-effort block *)

Lemma step_trigger (ev : Event) (signal : option string) (o : StopOracle)
    (m : Machine) :
  m_exited m = None -> stop_trigger ev m = Some (signal, o) ->
  step ev m = settle (handleSessionStop signal o (m_session m)) m.
Proof.
  intros Ha Ht. destruct ev; try discriminate; simpl in Ht.
  - injection Ht as <- <-. now apply step_signal.
  - rewrite step_exit by exact Ha. unfold onExit.
    destruct (m_gens m !! g); [| discriminate].
    destruct (sessionStopHandled (m_session m) || truthy signal0); [discriminate |].
    destruct (bool_decide _); [discriminate |].
    now injection Ht as <- <-.
Qed.

(** C10: while a worker handle exists, every invocation of
    [handleSessionStop] begins with exactly one kill request.
    (1) The function: its argument is the number 0 when the signal
    argument is null, and the signal name when it is a non-empty string;
    [(signal as any) || 0] would also give 0 for the empty string, which
    is not the name of a signal.
    (2) The call sites: whenever a handler of the file invokes the
    function (the two signal handlers with ['SIGINT'] and ['SIGTERM'],
    the exit handler with the signal of the exit, which is null there),
    the signal argument is null or a signal name, and the kill request
    carries the number 0 in the first case and the name in the second. *)
Theorem handleSessionStop_kill_argument :
  (forall signal o s h,
     child s = Some h ->
     exists a t,
       stop_trace (handleSessionStop signal o s) = EKill h a :: t /\
       occurrences is_kill t = 0%nat /\
       (signal = None -> a = KillNumber 0) /\
       (forall name, signal = Some name -> name <> EmptyString ->
          a = KillSignal name)) /\
  (forall ev m signal o h,
     m_exited m = None -> node_signal ev ->
     stop_trigger ev m = Some (signal, o) -> child (m_session m) = Some h ->
     (signal = None \/ exists name, signal = Some name /\ name <> EmptyString) /\
     exists t,
       snd (step ev m) =
         EKill h (match signal with
                  | Some name => KillSignal name
                  | None => KillNumber 0
                  end) :: t /\
       occurrences is_kill t = 0%nat).
Proof.
  split.
  - intros signal o s h Hc. exists (killArg signal).
    destruct (killArg_cases signal) as [Hz Hn].
    destruct (sessionStopHandled s) eqn:Hf.
    + rewrite handleSessionStop_handled by exact Hf.
      exists []. unfold stop_trace, killChild. rewrite Hc. simpl.
      split; [reflexivity |]. split; [reflexivity |].
      split; [intros E; apply Hz; now left | exact Hn].
    + destruct (handleSessionStop_first signal o s Hf)
        as (s' & t & out & -> & _ & _ & _ & Hout).
      exists t. unfold stop_trace, killChild. rewrite Hc. simpl.
      split; [reflexivity |].
      split; [| split; [intros E; apply Hz; now left | exact Hn]].
      destruct Hout as [[_ Hs] | [(_ & -> & _) | (_ & -> & _)]]; try reflexivity.
      apply shutdown_sequence_outside; [apply outside_kill | exact Hs].
  - intros ev m signal o h Ha Hnode Ht Hc.
    assert (Hsig : (signal = None \/
                    exists name, signal = Some name /\ name <> EmptyString) /\
                   killArg signal = match signal with
                                    | Some name => KillSignal name
                                    | None => KillNumber 0
                                    end).
    { destruct ev; try discriminate; simpl in Ht.
      - injection Ht as <- _. destruct sg; (split; [right; eexists; split;
          [reflexivity | discriminate] | reflexivity]).
      - destruct (m_gens m !! g); [| discriminate].
        destruct (sessionStopHandled (m_session m)); [discriminate |].
        destruct signal0 as [name|]; simpl in Ht, Hnode.
        + unfold truthy_string in Ht.
          destruct (String.eqb_spec name EmptyString); [contradiction |].
          discriminate.
        + destruct (bool_decide _); [discriminate |].
          injection Ht as <- _. split; [now left | reflexivity]. }
    destruct Hsig as [Hshape Harg]. split; [exact Hshape |].
    rewrite (step_trigger ev signal o m Ha Ht).
    destruct (settle_stop_cases signal o m) as (s' & t & _ & _ & Heq & Hcases).
    rewrite Heq. unfold killChild. rewrite Hc, Harg. exists t.
    split; [reflexivity |].
    destruct Hcases as [(_ & _ & ->) | (_ & _ & [[_ Hs] | [(_ & -> & _) | (_ & -> & _)]])];
      try reflexivity.
    apply shutdown_sequence_outside; [apply outside_kill | exact Hs].
Qed.

Lemma finishSessionStop_upload (s : Session) :
  truthy (traceUploadUrl s) = true -> config s <> None ->
  exists u, finishSessionStop s = (EUploadTrace u :: restore, Exited 0).
Proof.
  unfold finishSessionStop, restore. intros Hu Hc.
  destruct (traceUploadUrl s) as [u|]; [| discriminate]. simpl in Hu. rewrite Hu.
  destruct (config s); [eauto | contradiction].
Qed.

Lemma handleSessionStop_uploads (signal : option string) (o : StopOracle)
    (s : Session) :
  sessionStopHandled s = false ->
  truthy (traceUploadUrl s) = true -> config s <> None ->
  occurrences is_upload_trace (stop_trace (handleSessionStop signal o s)) = 1%nat.
Proof.
  intros Hf Hu Hc. unfold handleSessionStop. rewrite Hf.
  assert (Hk : occurrences is_upload_trace (killChild signal s) = 0%nat)
    by (apply killChild_outside; reflexivity).
  destruct (requireOk o).
  - simpl config. destruct (config s) as [cfg|]; [| contradiction].
    unfold stopWithConfig.
    pose proof (recordSessionStopped_trace o
                  (set_config cfg (set_sessionStopHandled s)) cfg) as Htel.
    destruct (recordSessionStopped _ _ cfg) as [tel r]. simpl in Htel.
    destruct (finishSessionStop_upload (set_config cfg (set_sessionStopHandled s)))
      as [u ->]; [exact Hu | discriminate |].
    unfold stop_trace. simpl.
    rewrite !occurrences_app, Hk, occurrences_cons. simpl.
    destruct (telemetry_part_occurrences is_upload_trace tel) as [_ H0]; auto.
    now rewrite H0.
  - destruct (finishSessionStop_upload (set_sessionStopHandled s)) as [u ->];
      [exact Hu | exact Hc |].
    unfold stop_trace. simpl. rewrite occurrences_app, Hk. reflexivity.
Qed.

Lemma first_stop_quiet (signal : option string) (o : StopOracle) (m : Machine) :
  session_ok m -> m_exited m = None ->
  sessionStopHandled (m_session m) = false ->
  let r := settle (handleSessionStop signal o (m_session m)) m in
  occurrences is_printed (snd r) = 0%nat /\
  occurrences is_rejected (snd r) = 0%nat /\
  sessionStopHandled (m_session (fst r)) = true /\
  ((m_exited (fst r) = Some 0 /\ occurrences is_show_cursor (snd r) = 1%nat /\
    occurrences is_process_exit (snd r) = 1%nat /\
    exists pre, snd r = pre ++ restore) \/
   (config (m_session m) = None /\ m_stopPending (fst r) = true /\
    m_exited (fst r) = None /\ occurrences is_show_cursor (snd r) = 0%nat /\
    occurrences is_process_exit (snd r) = 0%nat)).
Proof.
  intros [Hup _] Ha Hf.
  destruct (settle_stop_cases signal o m) as (s' & t & _ & _ & Ht & Hcases).
  cbv zeta. rewrite Ht, !occurrences_app, !killChild_outside by reflexivity.
  destruct Hcases as [(Hf' & _) | (_ & Hf' & [[-> Hs] | [(-> & -> & Hc) | (_ & _ & Hc & Hu)]])].
  - congruence.
  - rewrite (shutdown_sequence_outside is_printed _ outside_printed Hs),
            (shutdown_sequence_outside is_rejected _ outside_rejected Hs).
    destruct (shutdown_sequence_counts t Hs)
      as (_ & _ & Hcur & Hex & _ & _ & _ & pre & Hpre & _).
    rewrite Hcur, Hex.
    repeat (split; [reflexivity || exact Hf' |]).
    left. repeat (split; [reflexivity |]).
    exists (killChild signal (m_session m) ++ pre). rewrite Hpre.
    now rewrite app_assoc.
  - repeat (split; [reflexivity || exact Hf' |]).
    right. repeat split; assumption.
  - exfalso. exact (Hup Hu Hc).
Qed.

Lemma resumed_stop_quiet (r : option NextConfigComplete) (o : StopOracle)
    (m : Machine) :
  session_ok m ->
  let res := settle (handleSessionStop_resume r o (m_session m))
               (set_stopPending false m) in
  occurrences is_printed (snd res) = 0%nat /\
  occurrences is_rejected (snd res) = 0%nat /\
  m_exited (fst res) = Some 0 /\ occurrences is_show_cursor (snd res) = 1%nat /\
  occurrences is_process_exit (snd res) = 1%nat /\
  exists pre, snd res = pre ++ restore.
Proof.
  intros [Hup _].
  destruct (settle_resume_cases r o m) as (s' & _ & _ & _ & Hcases).
  cbv zeta. destruct Hcases as [[-> Hs] | (_ & _ & Hc & Hu)].
  - destruct (shutdown_sequence_counts _ Hs)
      as (_ & _ & Hcur & Hex & _ & _ & _ & pre & Hpre & _).
    rewrite (shutdown_sequence_outside is_printed _ outside_printed Hs),
            (shutdown_sequence_outside is_rejected _ outside_rejected Hs).
    repeat (split; [reflexivity || assumption |]). eauto.
  - exfalso. exact (Hup Hu Hc).
Qed.

(** *** The terminal *)

Lemma first_stop_restores (signal : option string) (o : StopOracle) (m : Machine) :
  session_ok m -> sessionStopHandled (m_session m) = false ->
  let r := settle (handleSessionStop signal o (m_session m)) m in
  (config (m_session m) <> None \/ requireOk o = false ->
   m_exited (fst r) = Some 0 /\
   exists pre, snd r = pre ++ restore /\ occurrences is_process_exit pre = 0%nat) /\
  (config (m_session m) = None -> requireOk o = true ->
   m_exited (fst r) = m_exited m /\ m_stopPending (fst r) = true /\
   occurrences is_process_exit (snd r) = 0%nat).
Proof.
  intros [Hup _] Hf. cbv zeta. unfold handleSessionStop. rewrite Hf.
  assert (Hk : occurrences is_process_exit (killChild signal (m_session m)) = 0%nat)
    by (apply killChild_outside; reflexivity).
  destruct (requireOk o).
  - cbn [config set_sessionStopHandled].
    destruct (config (m_session m)) as [cfg|] eqn:Hc.
    + destruct (stopWithConfig_spec o (set_sessionStopHandled (m_session m)) cfg)
        as (t & -> & Ht).
      destruct (shutdown_sequence_counts t Ht)
        as (_ & _ & _ & _ & _ & _ & _ & pre & -> & Hpre).
      split; [| discriminate]. intros _. unfold settle. cbn [fst snd].
      split; [reflexivity |].
      exists (killChild signal (m_session m) ++ pre).
      split; [now rewrite <- app_assoc |]. now rewrite occurrences_app, Hk, Hpre.
    + split; [intros [E | E]; [now contradiction E | discriminate] |].
      intros _ _. unfold settle. cbn [fst snd]. split; [reflexivity |].
      split; [reflexivity |]. now rewrite occurrences_app, Hk.
  - destruct (finishSessionStop_ok (set_sessionStopHandled (m_session m)))
      as (up & -> & Hu); [exact Hup |].
    split; [| discriminate]. intros _. unfold settle. cbn [fst snd].
    split; [reflexivity |].
    exists (killChild signal (m_session m) ++ up).
    split; [now rewrite <- app_assoc |]. rewrite occurrences_app, Hk.
    destruct Hu as [-> | [u ->]]; reflexivity.
Qed.

Lemma resumed_stop_restores (r : option NextConfigComplete) (o : StopOracle)
    (m : Machine) :
  session_ok m ->
  let res := settle (handleSessionStop_resume r o (m_session m))
               (set_stopPending false m) in
  m_exited (fst res) = Some 0 /\
  exists pre, snd res = pre ++ restore /\ occurrences is_process_exit pre = 0%nat.
Proof.
  intros [Hup _].
  destruct (settle_resume_cases r o m) as (s' & _ & _ & _ & Hcases).
  cbv zeta. destruct Hcases as [[-> Hs] | (_ & _ & Hc & Hu)].
  - split; [reflexivity |].
    destruct (shutdown_sequence_counts _ Hs) as (_ & _ & _ & _ & _ & _ & _ & H).
    exact H.
  - exfalso. exact (Hup Hu Hc).
Qed.

(** C9: the coordinator restores the terminal before it ends the
    process, whatever the calls of its best-effort block answer.
    (1), (2) A run of the function, from its start or resumed after
    [loadConfig], that reaches [process.exit] exits with status 0, and
    the two calls just before it write the show-cursor sequence and a
    newline to standard output; no earlier call exits.
    (3) In every state the live process can reach, the first invocation
    (the one that finds the flag unset) does reach that step when the
    configuration is loaded or the require of the event module throws;
    otherwise it waits for [loadConfig] without exiting.
    (4) In every such state where the coordinator waits, its resumption
    reaches that step, whether [loadConfig] returned or threw. *)
Theorem handleSessionStop_restores_cursor :
  (forall signal o s c,
     stop_outcome (handleSessionStop signal o s) = Exited c ->
     c = 0 /\
     exists pre, stop_trace (handleSessionStop signal o s) =
                   pre ++ [EStdoutWrite show_cursor; EStdoutWrite newline;
                           EProcessExit 0] /\
                 occurrences is_process_exit pre = 0%nat) /\
  (forall r o s c,
     stop_outcome (handleSessionStop_resume r o s) = Exited c ->
     c = 0 /\
     exists pre, stop_trace (handleSessionStop_resume r o s) =
                   pre ++ [EStdoutWrite show_cursor; EStdoutWrite newline;
                           EProcessExit 0] /\
                 occurrences is_process_exit pre = 0%nat) /\
  (forall args env started evs ev signal o,
     let m := fst (run evs (initial args env started)) in
     m_exited m = None -> sessionStopHandled (m_session m) = false ->
     stop_trigger ev m = Some (signal, o) ->
     (config (m_session m) <> None \/ requireOk o = false ->
      m_exited (fst (step ev m)) = Some 0 /\
      exists pre, snd (step ev m) =
                    pre ++ [EStdoutWrite show_cursor; EStdoutWrite newline;
                            EProcessExit 0] /\
                  occurrences is_process_exit pre = 0%nat) /\
     (config (m_session m) = None -> requireOk o = true ->
      m_exited (fst (step ev m)) = None /\
      m_stopPending (fst (step ev m)) = true /\
      occurrences is_process_exit (snd (step ev m)) = 0%nat)) /\
  (forall args env started evs r o,
     let m := fst (run evs (initial args env started)) in
     m_exited m = None -> m_stopPending m = true ->
     m_exited (fst (step (StopConfigLoaded r o) m)) = Some 0 /\
     exists pre, snd (step (StopConfigLoaded r o) m) =
                   pre ++ [EStdoutWrite show_cursor; EStdoutWrite newline;
                           EProcessExit 0] /\
                 occurrences is_process_exit pre = 0%nat).
Proof.
  split; [| split; [| split]].
  - intros signal o s c. destruct (sessionStopHandled s) eqn:Hf.
    + rewrite handleSessionStop_handled by exact Hf. discriminate.
    + destruct (handleSessionStop_first signal o s Hf)
        as (s' & t & out & -> & _ & _ & _ & Hout).
      unfold stop_outcome, stop_trace. simpl. intros ->.
      destruct Hout as [[Hc Hs] | [(Hc & _) | (Hc & _)]]; try discriminate.
      split; [congruence |].
      destruct (shutdown_sequence_counts t Hs)
        as (_ & _ & _ & _ & _ & _ & _ & pre & -> & Hpre).
      exists (killChild signal s ++ pre). split.
      * now rewrite <- app_assoc.
      * rewrite occurrences_app, Hpre. unfold killChild.
        destruct (child s); reflexivity.
  - intros r o s c.
    destruct (handleSessionStop_resume_spec r o s)
      as (s' & t & out & -> & _ & _ & _ & Hout).
    unfold stop_outcome, stop_trace. simpl. intros ->.
    destruct Hout as [[Hc Hs] | (Hc & _)]; try discriminate.
    split; [congruence |].
    destruct (shutdown_sequence_counts t Hs)
      as (_ & _ & _ & _ & _ & _ & _ & pre & -> & Hpre).
    exists pre. auto.
  - intros args env started evs ev signal o m Ha Hf Ht.
    assert (Hok : session_ok m) by (apply session_ok_run, session_ok_initial).
    rewrite (step_trigger ev signal o m Ha Ht).
    destruct (first_stop_restores signal o m Hok Hf) as [H1 H2].
    split; [exact H1 |]. intros Hc Hr. rewrite <- Ha. now apply H2.
  - intros args env started evs r o m Ha Hp.
    assert (Hok : session_ok m) by (apply session_ok_run, session_ok_initial).
    rewrite (step_resume r o m Ha), Hp.
    exact (resumed_stop_restores r o m Hok).
Qed.

(** C4: in every state the process can reach, while it is alive. The
    invocation of the coordinator that finds the flag unset prints
    nothing, lets no error escape, and either exits with status 0 after
    restoring the terminal, or - no configuration being loaded yet -
    waits for [loadConfig] with the flag set. When [loadConfig] settles,
    with a configuration or with an error, the coordinator again prints
    nothing, lets no error escape, and exits with status 0 after
    restoring the terminal. This holds whatever the require, the
    telemetry constructor, the directory detection, the record and the
    flush answer. With an upload target configured the first invocation
    itself dispatches the upload once and exits with status 0. *)
Theorem coordinator_swallows_errors (m : Machine) :
  reachable m -> m_exited m = None ->
  (forall ev signal o,
     stop_trigger ev m = Some (signal, o) ->
     sessionStopHandled (m_session m) = false ->
     occurrences is_printed (snd (step ev m)) = 0%nat /\
     occurrences is_rejected (snd (step ev m)) = 0%nat /\
     ((m_exited (fst (step ev m)) = Some 0 /\
       exists pre, snd (step ev m) =
         pre ++ [EStdoutWrite show_cursor; EStdoutWrite newline; EProcessExit 0]) \/
      (config (m_session m) = None /\ m_stopPending (fst (step ev m)) = true /\
       sessionStopHandled (m_session (fst (step ev m))) = true /\
       m_exited (fst (step ev m)) = None))) /\
  (forall r o,
     m_stopPending m = true ->
     occurrences is_printed (snd (step (StopConfigLoaded r o) m)) = 0%nat /\
     occurrences is_rejected (snd (step (StopConfigLoaded r o) m)) = 0%nat /\
     m_exited (fst (step (StopConfigLoaded r o) m)) = Some 0 /\
     exists pre, snd (step (StopConfigLoaded r o) m) =
       pre ++ [EStdoutWrite show_cursor; EStdoutWrite newline; EProcessExit 0]) /\
  (forall ev signal o,
     stop_trigger ev m = Some (signal, o) ->
     sessionStopHandled (m_session m) = false ->
     truthy (traceUploadUrl (m_session m)) = true ->
     m_exited (fst (step ev m)) = Some 0 /\
     occurrences is_upload_trace (snd (step ev m)) = 1%nat).
Proof.
  intros Hr Ha. pose proof (reachable_session_ok m Hr) as Hok.
  split; [| split].
  - intros ev signal o Ht Hf. rewrite (step_trigger ev signal o m Ha Ht).
    destruct (first_stop_quiet signal o m Hok Ha Hf)
      as (Hp & Hj & Hf' & [(He & _ & _ & Hpre) | (Hc & Hpend & Ha' & _)]).
    + split; [exact Hp |]. split; [exact Hj |]. left. auto.
    + split; [exact Hp |]. split; [exact Hj |]. right. auto.
  - intros r o Hpend. rewrite step_resume, Hpend by exact Ha.
    destruct (resumed_stop_quiet r o m Hok) as (Hp & Hj & He & _ & _ & Hpre).
    auto.
  - intros ev signal o Ht Hf Hu. rewrite (step_trigger ev signal o m Ha Ht).
    destruct Hok as [Hup Hpend].
    destruct (first_stop_quiet signal o m (conj Hup Hpend) Ha Hf)
      as (_ & _ & _ & [(He & _) | (Hc & _)]).
    + split; [exact He |].
      pose proof (handleSessionStop_uploads signal o (m_session m) Hf Hu (Hup Hu)) as H1.
      unfold stop_trace in H1.
      destruct (handleSessionStop signal o (m_session m)) as [[s' t] out].
      simpl in H1. unfold settle.
      destruct out; simpl; try exact H1.
      rewrite occurrences_app, H1. reflexivity.
    + exfalso. exact (Hup Hu Hc).
Qed.

(** *** The guarded sequence runs once *)







(** *** How often the guarded calls are made *)









(** *** The options of a launch *)

Lemma occurrences_none (p : Effect -> bool) (t : list Effect) (e : Effect) :
  occurrences p t = 0%nat -> In e t -> p e = false.
Proof.
  induction t as [|x t IH]; [contradiction |].
  rewrite occurrences_cons. intros H0 [-> | Hin].
  - destruct (p e); [discriminate | reflexivity].
  - apply IH; [| exact Hin]. destruct (p x); simpl in H0; lia.
Qed.

Lemma phase_ok_frame (args : Args) (env0 : gmap string string)
    (m m' : Machine) (t t' : list Effect) :
  m_nextDev m' = m_nextDev m -> m_env m' = m_env m -> m_gens m' = m_gens m ->
  occurrences is_create_certificate t' = 0%nat ->
  phase_ok args env0 m t -> phase_ok args env0 m' (t ++ t').
Proof.
  unfold phase_ok. intros -> -> -> H0. rewrite occurrences_app, H0, Nat.add_0_r.
  auto.
Qed.

Lemma options_ok_quiet (args : Args) (env0 : gmap string string)
    (m m' : Machine) (t t' : list Effect) :
  options_ok args env0 m t ->
  m_args m' = m_args m -> m_gens m' = m_gens m ->
  occurrences is_fork t' = 0%nat ->
  occurrences is_create_certificate t' = 0%nat ->
  occurrences is_send t' = 0%nat ->
  phase_ok args env0 m' (t ++ t') ->
  options_ok args env0 m' (t ++ t').
Proof.
  intros [] Hargs Hgens Hf Hc Hs Hphase.
  constructor; rewrite ?Hargs, ?Hgens, ?occurrences_app, ?Hf, ?Hc, ?Nat.add_0_r;
    try assumption.
  - intros h o [Hin | Hin]%in_app_iff; [eauto |].
    now apply (occurrences_none _ _ _ Hs) in Hin.
  - intros host [Hin | Hin]%in_app_iff; [eauto |].
    now apply (occurrences_none _ _ _ Hc) in Hin.
Qed.

Lemma options_ok_frame (args : Args) (env0 : gmap string string)
    (m m' : Machine) (t t' : list Effect) :
  options_ok args env0 m t ->
  m_args m' = m_args m -> m_env m' = m_env m -> m_gens m' = m_gens m ->
  m_nextDev m' = m_nextDev m ->
  occurrences is_fork t' = 0%nat ->
  occurrences is_create_certificate t' = 0%nat ->
  occurrences is_send t' = 0%nat ->
  options_ok args env0 m' (t ++ t').
Proof.
  intros Hok Hargs Henv Hgens Hphase Hf Hc Hs.
  apply (options_ok_quiet args env0 m); try assumption.
  apply (phase_ok_frame args env0 m); try assumption. apply Hok.
Qed.

Lemma options_ok_idle (args : Args) (env0 : gmap string string)
    (m : Machine) (t : list Effect) :
  options_ok args env0 m t -> options_ok args env0 m (t ++ []).
Proof. intros H. now apply (options_ok_frame args env0 m). Qed.

(** The first worker of a launch. *)
Lemma options_ok_first (args : Args) (env0 : gmap string string)
    (m m1 : Machine) (t t' : list Effect) (o : StartServerOptions)
    (rb : bool) (h : handle) :
  options_ok args env0 m t -> m_gens m = [] -> m_args m1 = m_args m ->
  m_gens m1 = [{| gen_options := o; gen_resolved := false |}] ->
  m_nextDev m1 = AwaitServerReady rb h ->
  launch_shape args env0 o -> certificate_ok args o ->
  occurrences is_fork t' = 1%nat ->
  occurrences is_create_certificate t' = 0%nat ->
  occurrences is_send t' = 0%nat ->
  (truthy_flag (arg_https args) = true -> explicit_certificate args = None ->
   occurrences is_create_certificate t = 1%nat) ->
  options_ok args env0 m1 (t ++ t').
Proof.
  intros [] Hnil Hargs Hgens Hphase Hshape Hcert Hf Hc Hs Honce.
  assert (Hone : forall g c, m_gens m1 !! g = Some c -> gen_options c = o).
  { intros g c. rewrite Hgens. destruct g as [|g]; simpl; [| discriminate].
    now intros [= <-]. }
  constructor; rewrite ?Hargs, ?occurrences_app, ?Hf, ?Hc, ?Nat.add_0_r;
    try assumption.
  - unfold phase_ok. now rewrite Hphase.
  - intros g c Hg. rewrite (Hone g c Hg). auto.
  - intros g c g' c' Hg Hg'. now rewrite (Hone g c Hg), (Hone g' c' Hg').
  - intros h' o' [Hin | Hin]%in_app_iff.
    + destruct (ok_sends0 h' o' Hin) as (g & c & Hg & _).
      rewrite Hnil in Hg. discriminate.
    + now apply (occurrences_none _ _ _ Hs) in Hin.
  - rewrite ok_forks0, Hnil, Hgens. reflexivity.
  - intros host [Hin | Hin]%in_app_iff; [eauto |].
    now apply (occurrences_none _ _ _ Hc) in Hin.
  - intros _. exact Honce.
Qed.

(** The certificate is asked for. *)
Lemma options_ok_create (args : Args) (env0 : gmap string string)
    (m m1 : Machine) (t t' : list Effect) (o : StartServerOptions) (rb : bool) :
  options_ok args env0 m t -> m_gens m = [] ->
  occurrences is_create_certificate t = 0%nat ->
  m_args m1 = m_args m -> m_gens m1 = [] ->
  m_nextDev m1 = AwaitCertificate rb o ->
  launch_shape args env0 o -> truthy_flag (arg_https args) = true ->
  explicit_certificate args = None ->
  occurrences is_fork t' = 0%nat -> occurrences is_send t' = 0%nat ->
  occurrences is_create_certificate t' = 1%nat ->
  (forall host, In (ECreateSelfSignedCertificate host) t' ->
     host = arg_hostname args) ->
  options_ok args env0 m1 (t ++ t').
Proof.
  intros [] Hnil H0 Hargs Hgens Hphase Hshape Hhttps Hexp Hf Hs Hc Hhost.
  constructor; rewrite ?Hargs, ?Hgens, ?occurrences_app, ?Hf, ?Hc, ?H0, ?Nat.add_0_r;
    try assumption; try (intros g c; discriminate).
  - unfold phase_ok. rewrite Hphase, Hgens, occurrences_app, H0, Hc. auto.
  - intros h' o' [Hin | Hin]%in_app_iff.
    + destruct (ok_sends0 h' o' Hin) as (g & c & Hg & _).
      rewrite Hnil in Hg. discriminate.
    + now apply (occurrences_none _ _ _ Hs) in Hin.
  - rewrite ok_forks0, Hnil. reflexivity.
  - simpl. lia.
  - intros host [Hin | Hin]%in_app_iff; [eauto | auto].
  - reflexivity.
  - intros [Hh | He]; congruence.
Qed.

(** Lines 243-322 keep the invariant. *)
Lemma options_ok_serve (args : Args) (env0 : gmap string string)
    (m m1 : Machine) (t : list Effect) (d : string) (o : StartServerOptions) :
  options_ok args env0 m t -> m_gens m = [] ->
  occurrences is_create_certificate t = 0%nat ->
  m_args m1 = m_args m -> m_gens m1 = m_gens m ->
  launch_shape args env0 o -> opt_selfSignedCertificate o = None ->
  options_ok args env0 (fst (nextDev_serve d o m1))
    (t ++ snd (nextDev_serve d o m1)).
Proof.
  intros Hok Hnil H0 Hargs Hgens Hshape Hcert.
  pose proof (ok_args _ _ _ _ Hok) as Ha.
  unfold nextDev_serve. destruct (config (m_session m1)).
  2:{ apply (options_ok_quiet args env0 m); try assumption; try reflexivity. }
  unfold runDevServer, startServer. rewrite Hargs, Ha.
  destruct (truthy_flag (arg_https args)) eqn:Hhttps.
  - destruct (truthy_value (arg_https_key args)) as [k|] eqn:Hk;
      [destruct (truthy_value (arg_https_cert args)) as [c|] eqn:Hc |].
    + cbn [fst snd].
      eapply (options_ok_first args env0 m) with
        (o := with_certificate
                (Some {| key := path_resolve k; cert := path_resolve c |}) o);
        try eassumption; try reflexivity.
      * cbn. rewrite Hgens, Hnil. reflexivity.
      * split; [congruence |]. intros _ ce.
        unfold explicit_certificate. rewrite Hk, Hc. now intros [= <-].
      * unfold explicit_certificate. rewrite Hk, Hc. discriminate.
    + cbn [fst snd].
      eapply (options_ok_create args env0 m); try eassumption; try reflexivity.
      * cbn. now rewrite Hgens.
      * unfold explicit_certificate. now rewrite Hk, Hc.
      * intros host [H | [H | [H | [H | []]]]]; try discriminate.
        injection H as <-. reflexivity.
    + cbn [fst snd].
      eapply (options_ok_create args env0 m); try eassumption; try reflexivity.
      * cbn. now rewrite Hgens.
      * unfold explicit_certificate. now rewrite Hk.
      * intros host [H | [H | [H | [H | []]]]]; try discriminate.
        injection H as <-. reflexivity.
  - cbn [fst snd].
    eapply (options_ok_first args env0 m) with (o := o);
      try eassumption; try reflexivity.
    + cbn. rewrite Hgens, Hnil. reflexivity.
    + split; [auto | congruence].
    + congruence.
Qed.

(** While a worker exists, [nextDev] is past its launch phases. *)
Lemma phase_ok_late (args : Args) (env0 : gmap string string)
    (m m' : Machine) (t t' : list Effect) (g : handle) (c : Generation) :
  m_gens m !! g = Some c -> phase_ok args env0 m t ->
  m_nextDev m' = m_nextDev m \/ m_nextDev m' = AwaitPreflight ->
  phase_ok args env0 m' t'.
Proof.
  unfold phase_ok. intros Hg Hp [-> | ->]; [| exact I].
  destruct (m_nextDev m); try exact I;
    destruct Hp as (? & Hp); try destruct Hp as (Hnil & _);
    try (rewrite Hnil in Hg; discriminate);
    match goal with H : m_gens m = [] |- _ => rewrite H in Hg; discriminate end.
Qed.

Lemma insert_resolved_lookup (gens : list Generation) (g g' : handle)
    (c c' : Generation) :
  gens !! g = Some c ->
  <[g := {| gen_options := gen_options c; gen_resolved := true |}]> gens !! g'
    = Some c' ->
  exists c'', gens !! g' = Some c'' /\ gen_options c' = gen_options c''.
Proof.
  intros Hg [(<- & <- & _) | (_ & H)]%list_lookup_insert_Some; eauto.
Qed.

Lemma lookup_insert_resolved (gens : list Generation) (g g' : handle)
    (c c' : Generation) :
  gens !! g = Some c -> gens !! g' = Some c' ->
  exists c'',
    <[g := {| gen_options := gen_options c; gen_resolved := true |}]> gens !! g'
      = Some c'' /\ gen_options c'' = gen_options c'.
Proof.
  intros Hg Hg'. destruct (decide (g = g')) as [<- | Hne].
  - eexists. rewrite list_lookup_insert_eq by (eapply lookup_lt_Some; eauto).
    split; [reflexivity |]. simpl. congruence.
  - exists c'. now rewrite list_lookup_insert_ne.
Qed.

(** A message of generation [g] is handled. *)
Lemma options_ok_message (args : Args) (env0 : gmap string string)
    (g : handle) (msg : Message) (m : Machine) (t : list Effect) :
  options_ok args env0 m t ->
  options_ok args env0 (fst (onMessage g msg m)) (t ++ snd (onMessage g msg m)).
Proof.
  intros Hok. unfold onMessage.
  destruct (m_gens m !! g) as [c|] eqn:Hg; [| now apply options_ok_idle].
  assert (Hsend : forall h, options_ok args env0 m (t ++ [ESend h (gen_options c)])).
  { intros h. destruct Hok. constructor; rewrite ?occurrences_app; cbn;
      rewrite ?Nat.add_0_r; try assumption.
    - eapply (phase_ok_late args env0 m); eauto.
    - intros h' o' [Hin | [[= <- <-] | []]]%in_app_iff; eauto.
    - intros host [Hin | [H | []]]%in_app_iff; [eauto | discriminate]. }
  destruct msg as [|[|] [|]]; try now apply options_ok_idle.
  - destruct (child (m_session m)); [apply Hsend | now apply options_ok_idle].
  - destruct (child (m_session m)); [apply Hsend | now apply options_ok_idle].
  - destruct (gen_resolved c); [now apply options_ok_idle |].
    assert (Hres : forall m' t',
              m_args m' = m_args m ->
              m_gens m' = <[g := {| gen_options := gen_options c;
                                    gen_resolved := true |}]> (m_gens m) ->
              m_nextDev m' = m_nextDev m \/ m_nextDev m' = AwaitPreflight ->
              occurrences is_fork t' = 0%nat ->
              occurrences is_create_certificate t' = 0%nat ->
              occurrences is_send t' = 0%nat ->
              options_ok args env0 m' (t ++ t')).
    { intros m' t' Hargs Hgens Hphase Hf Hc Hs. destruct Hok.
      assert (Hnn : m_gens m' <> [] -> m_gens m <> []).
      { rewrite Hgens. intros Hn He. apply Hn. rewrite He. reflexivity. }
      constructor; rewrite ?Hargs, ?occurrences_app, ?Hf, ?Hc, ?Nat.add_0_r;
        try assumption.
      - eapply (phase_ok_late args env0 m); eauto.
      - intros g' c'. rewrite Hgens. intros Hl.
        destruct (insert_resolved_lookup _ _ _ _ _ Hg Hl) as (c'' & Hl' & ->). eauto.
      - intros g1 c1 g2 c2. rewrite Hgens. intros H1 H2.
        destruct (insert_resolved_lookup _ _ _ _ _ Hg H1) as (c1' & H1' & ->).
        destruct (insert_resolved_lookup _ _ _ _ _ Hg H2) as (c2' & H2' & ->). eauto.
      - intros h o [Hin | Hin]%in_app_iff.
        + destruct (ok_sends0 h o Hin) as (g0 & c0 & H0 & ->).
          destruct (lookup_insert_resolved _ _ _ _ _ Hg H0) as (c1 & H1 & <-).
          rewrite Hgens. eauto.
        + now apply (occurrences_none _ _ _ Hs) in Hin.
      - rewrite Hgens, length_insert. assumption.
      - intros host [Hin | Hin]%in_app_iff; [eauto |].
        now apply (occurrences_none _ _ _ Hc) in Hin.
      - intros Hn. apply ok_create_once0, Hnn, Hn. }
    destruct (m_nextDev m) eqn:Hph; try destruct (Nat.eqb h g);
      apply Hres; cbn; rewrite ?Hph; auto.
Qed.

(** A worker is restarted with the options of generation [g]. *)
Lemma options_ok_restart (args : Args) (env0 : gmap string string)
    (g : handle) (c : Generation) (m : Machine) (t : list Effect) :
  options_ok args env0 m t -> m_gens m !! g = Some c ->
  options_ok args env0 (fst (fst (startServer (gen_options c) m)))
    (t ++ snd (startServer (gen_options c) m)).
Proof.
  intros Hok Hg. destruct Hok. unfold startServer. cbn [fst snd].
  assert (Hl : forall g' c',
            (m_gens m ++ [{| gen_options := gen_options c;
                             gen_resolved := false |}]) !! g' = Some c' ->
            exists g'' c'', m_gens m !! g'' = Some c'' /\
                            gen_options c' = gen_options c'').
  { intros g' c' [H | (_ & H)]%lookup_app_Some; [eauto |].
    destruct (g' - length (m_gens m))%nat; [| discriminate].
    injection H as <-. eauto. }
  assert (Hnn : m_gens m <> []) by (intros He; rewrite He in Hg; discriminate).
  constructor; cbn [m_args m_gens set_gens set_session];
    rewrite ?occurrences_app; cbn [occurrences List.filter is_fork is_send
      is_create_certificate length]; rewrite ?Nat.add_0_r; try assumption.
  - eapply (phase_ok_late args env0 m); eauto.
  - intros g' c' H. destruct (Hl g' c' H) as (g'' & c'' & H' & ->). eauto.
  - intros g1 c1 g2 c2 H1 H2.
    destruct (Hl g1 c1 H1) as (g1' & c1' & H1' & ->).
    destruct (Hl g2 c2 H2) as (g2' & c2' & H2' & ->). eauto.
  - intros h o [Hin | [H | []]]%in_app_iff; [| discriminate].
    destruct (ok_sends0 h o Hin) as (g0 & c0 & H0 & ->).
    exists g0, c0. split; [| reflexivity].
    apply lookup_app_Some. now left.
  - rewrite length_app, ok_forks0. reflexivity.
  - intros host [Hin | [H | []]]%in_app_iff; [eauto | discriminate].
  - intros _. now apply ok_create_once0.
Qed.

Lemma options_ok_stop (args : Args) (env0 : gmap string string)
    (signal : option string) (o : StopOracle) (m : Machine) (t : list Effect) :
  options_ok args env0 m t ->
  options_ok args env0 (fst (settle (handleSessionStop signal o (m_session m)) m))
    (t ++ snd (settle (handleSessionStop signal o (m_session m)) m)).
Proof.
  intros Hok.
  destruct (settle_stop_frame signal o m) as [(H1 & H2 & _ & H4 & H5 & _) Hp].
  apply (options_ok_frame args env0 m); try assumption; apply Hp.
  - apply coordinator_no_fork.
  - apply coordinator_no_certificate.
  - apply coordinator_no_send.
Qed.

Lemma options_ok_step (args : Args) (env0 : gmap string string)
    (ev : Event) (m : Machine) (t : list Effect) :
  options_ok args env0 m t ->
  options_ok args env0 (fst (step ev m)) (t ++ snd (step ev m)).
Proof.
  intros Hok. destruct (m_exited m) eqn:Ha.
  { rewrite (step_exited ev m _ Ha). now apply options_ok_idle. }
  pose proof (ok_args _ _ _ _ Hok) as Hargs.
  pose proof (ok_phase _ _ _ _ Hok) as Hphase. unfold phase_ok in Hphase.
  destruct ev.
  - unfold step. rewrite Ha.
    destruct (m_nextDev m) eqn:Hph; try now apply options_ok_idle.
    unfold nextDev. destruct (truthy_flag _).
    + now apply (options_ok_frame args env0 m).
    + apply (options_ok_quiet args env0 m); try assumption; try reflexivity.
      unfold phase_ok. cbn. rewrite occurrences_app. cbn.
      rewrite Nat.add_0_r. exact Hphase.
  - unfold step. rewrite Ha.
    destruct (m_nextDev m) eqn:Hph; try now apply options_ok_idle.
    unfold nextDev_fileExists, printAndExit.
    destruct Hphase as (Henv & Hnil & H0).
    destruct b; simpl; [destruct (isPortIsReserved _) |];
      try now apply (options_ok_frame args env0 m).
    apply (options_ok_quiet args env0 m); try assumption; try reflexivity.
    unfold phase_ok. cbn. rewrite occurrences_app, H0, Hargs, Henv. cbn. auto.
  - unfold step. rewrite Ha.
    destruct (m_nextDev m) eqn:Hph; try now apply options_ok_idle.
    destruct Hphase as (Hnil & H0 & -> & -> & ->).
    unfold nextDev_config. destruct r as [cfg|].
    2:{ apply (options_ok_quiet args env0 m); try assumption; reflexivity. }
    match goal with
    | |- context [if truthy (?e !! "TURBOPACK") then _ else _] =>
        destruct (truthy (e !! "TURBOPACK"))
    end.
    + apply (options_ok_quiet args env0 m); try assumption; try reflexivity.
      unfold phase_ok. cbn. rewrite occurrences_app, H0. cbn.
      split; [exact Hnil |]. split; [reflexivity |]. split; [| reflexivity].
      repeat split.
    + apply (options_ok_serve args env0 m); try assumption; try reflexivity.
      repeat split.
  - unfold step. rewrite Ha.
    destruct (m_nextDev m) eqn:Hph; try now apply options_ok_idle.
    destruct Hphase as (Hnil & H0 & Hshape & Hcert).
    destruct ok.
    + now apply (options_ok_serve args env0 m).
    + apply (options_ok_quiet args env0 m); try assumption; reflexivity.
  - unfold step. rewrite Ha.
    destruct (m_nextDev m) eqn:Hph; try now apply options_ok_idle.
    destruct Hphase as (Hnil & H1 & Hshape & Hhttps & Hexp).
    unfold runDevServer_certificate, runDevServer_catch, startServer.
    destruct r as [oc|]; cbn [fst snd].
    + eapply (options_ok_first args env0 m) with (o := with_certificate oc o);
        try eassumption; try reflexivity.
      * cbn. rewrite Hnil. reflexivity.
      * split; [congruence |]. intros _ ce. rewrite Hexp. discriminate.
      * auto.
    + now apply (options_ok_frame args env0 m).
  - unfold step. rewrite Ha.
    destruct (m_nextDev m) eqn:Hph; try now apply options_ok_idle.
    unfold runDevServer_catch. destruct ok.
    + apply (options_ok_quiet args env0 m); try assumption; reflexivity.
    + now apply (options_ok_frame args env0 m).
  - rewrite step_signal by exact Ha. now apply options_ok_stop.
  - rewrite step_message by exact Ha. now apply options_ok_message.
  - rewrite step_exit by exact Ha. unfold onExit.
    destruct (m_gens m !! g) as [c|] eqn:Hg; [| now apply options_ok_idle].
    destruct (sessionStopHandled (m_session m) || truthy signal);
      [now apply options_ok_idle |].
    destruct (bool_decide _).
    + pose proof (options_ok_restart args env0 g c m t Hok Hg) as Hr.
      destruct (startServer (gen_options c) m) as [[m1 h] t']. exact Hr.
    + now apply options_ok_stop.
  - rewrite step_resume by exact Ha.
    destruct (m_stopPending m); [| now apply options_ok_idle].
    destruct (settle_resume_frame r o m) as [(H1 & H2 & _ & H4 & H5 & _) Hp].
    apply (options_ok_frame args env0 m); try assumption; apply Hp.
    + apply coordinator_no_fork.
    + apply coordinator_no_certificate.
    + apply coordinator_no_send.
Qed.

Lemma options_ok_initial (args : Args) (env0 : gmap string string) (started : Z) :
  options_ok args env0 (initial args env0 started) [].
Proof.
  constructor; cbn; try reflexivity; try discriminate; try contradiction; try lia.
  repeat split.
Qed.

Lemma options_ok_run (args : Args) (env0 : gmap string string) (started : Z)
    (evs : list Event) :
  options_ok args env0 (fst (run evs (initial args env0 started)))
    (snd (run evs (initial args env0 started))).
Proof.
  apply (run_ind (options_ok args env0)).
  - apply options_ok_initial.
  - intros m t ev. apply options_ok_step.
Qed.

(** The closures of [startServer] are only ever added, or resolved. *)
Lemma gens_step (ev : Event) (m : Machine) :
  m_gens (fst (step ev m)) = m_gens m \/
  (exists o, m_gens (fst (step ev m)) =
               m_gens m ++ [{| gen_options := o; gen_resolved := false |}]) \/
  (exists g c, m_gens m !! g = Some c /\
     m_gens (fst (step ev m)) =
       <[g := {| gen_options := gen_options c; gen_resolved := true |}]> (m_gens m)).
Proof.
  destruct (m_exited m) eqn:Ha.
  { rewrite (step_exited ev m _ Ha). now left. }
  destruct ev.
  - unfold step. rewrite Ha. destruct (m_nextDev m); try now left.
    unfold nextDev. destruct (truthy_flag _); now left.
  - unfold step. rewrite Ha. destruct (m_nextDev m); try now left.
    unfold nextDev_fileExists, printAndExit.
    destruct b; simpl; [destruct (isPortIsReserved _) |]; now left.
  - unfold step. rewrite Ha. destruct (m_nextDev m); try now left.
    unfold nextDev_config. destruct r as [cfg|]; [| now left].
    match goal with
    | |- context [if truthy (?e !! "TURBOPACK") then _ else _] =>
        destruct (truthy (e !! "TURBOPACK"))
    end; [now left |].
    unfold nextDev_serve. cbn [m_session set_env set_session].
    assert (Hc : forall s, config (if truthy (arg_upload_trace (m_args m))
                   then set_traceUploadUrl (arg_upload_trace (m_args m))
                          (set_config cfg s)
                   else set_config cfg s) = Some cfg)
      by (intros s0; destruct (truthy _); reflexivity).
    rewrite Hc. unfold runDevServer, startServer.
    cbn [m_args set_env set_session].
    destruct (truthy_flag (arg_https (m_args m)));
      [destruct (truthy_value (arg_https_key (m_args m))),
                (truthy_value (arg_https_cert (m_args m))) |];
      cbn; eauto.
  - unfold step. rewrite Ha. destruct (m_nextDev m); try now left.
    destruct ok; [| now left].
    unfold nextDev_serve. destruct (config (m_session m)); [| now left].
    unfold runDevServer, startServer.
    destruct (truthy_flag (arg_https (m_args m)));
      [destruct (truthy_value (arg_https_key (m_args m))),
                (truthy_value (arg_https_cert (m_args m))) |];
      cbn; eauto.
  - unfold step. rewrite Ha. destruct (m_nextDev m); try now left.
    unfold runDevServer_certificate, runDevServer_catch, startServer.
    destruct r; cbn; eauto.
  - unfold step. rewrite Ha. destruct (m_nextDev m); try now left.
    unfold runDevServer_catch. destruct ok; now left.
  - rewrite step_signal by exact Ha.
    destruct (settle_stop_frame (Some (signal_name sg)) o m) as [(_ & _ & _ & H & _) _].
    now left.
  - rewrite step_message by exact Ha. unfold onMessage.
    destruct (m_gens m !! g) as [c|] eqn:Hg; [| now left].
    destruct msg as [|[|] [|]]; try now left.
    destruct (gen_resolved c); [now left |].
    right. right. exists g, c. split; [exact Hg |].
    destruct (m_nextDev m); try destruct (Nat.eqb h g); reflexivity.
  - rewrite step_exit by exact Ha. unfold onExit.
    destruct (m_gens m !! g) as [c|]; [| now left].
    destruct (sessionStopHandled (m_session m) || truthy signal); [now left |].
    destruct (bool_decide _).
    + unfold startServer. cbn. eauto.
    + destruct (settle_stop_frame signal o m) as [(_ & _ & _ & H & _) _]. now left.
  - rewrite step_resume by exact Ha.
    destruct (m_stopPending m); [| now left].
    destruct (settle_resume_frame r o m) as [(_ & _ & _ & H & _) _]. now left.
Qed.

Lemma options_persist_step (ev : Event) (m : Machine) (g : handle) (c : Generation) :
  m_gens m !! g = Some c ->
  exists c', m_gens (fst (step ev m)) !! g = Some c' /\
             gen_options c' = gen_options c.
Proof.
  intros Hg.
  destruct (gens_step ev m) as [-> | [[o ->] | (g0 & c0 & Hg0 & ->)]].
  - eauto.
  - exists c. split; [| reflexivity]. apply lookup_app_Some. now left.
  - apply (lookup_insert_resolved _ _ _ _ _ Hg0 Hg).
Qed.

Lemma options_persist_run (evs : list Event) (m : Machine) (g : handle)
    (c : Generation) :
  m_gens m !! g = Some c ->
  exists c', m_gens (fst (run evs m)) !! g = Some c' /\
             gen_options c' = gen_options c.
Proof.
  revert m c. induction evs as [|ev evs IH]; intros m c Hg; [simpl; eauto |].
  rewrite run_cons. cbn [fst].
  destruct (options_persist_step ev m g c Hg) as (c1 & H1 & <-).
  apply IH, H1.
Qed.

(** *** Retrying ports *)

(** C6: [allowRetry] is true exactly when [--port] and [PORT] are both
    absent, false when either is present; and this is the value the
    worker is given: every options object sent to a worker, and the
    options of every worker generation, carry it for the command line
    and the environment the process was started with. *)
Theorem retry_allowed_iff_no_port (args : Args) (env : gmap string string)
    (started : Z) (evs : list Event) :
  (allowRetry args env = true <-> arg_port args = None /\ env !! "PORT" = None) /\
  (allowRetry args env = false <->
     is_Some (arg_port args) \/ is_Some (env !! "PORT")) /\
  (forall h o, In (ESend h o) (snd (run evs (initial args env started))) ->
     opt_allowRetry o = allowRetry args env) /\
  (forall g c, m_gens (fst (run evs (initial args env started))) !! g = Some c ->
     opt_allowRetry (gen_options c) = allowRetry args env).
Proof.
  pose proof (options_ok_run args env started evs) as Hok.
  split; [| split; [| split]].
  - unfold allowRetry. rewrite andb_true_iff, !bool_decide_eq_true. reflexivity.
  - unfold allowRetry. rewrite andb_false_iff, !bool_decide_eq_false.
    rewrite <- !not_eq_None_Some. reflexivity.
  - intros h o Hin.
    destruct (ok_sends _ _ _ _ Hok h o Hin) as (g & c & Hg & ->).
    apply (ok_shape _ _ _ _ Hok g c Hg).
  - intros g c Hg. apply (ok_shape _ _ _ _ Hok g c Hg).
Qed.


End Properties.

(** ** The properties on the concrete session *)

Example started_generation : m_gens (Demo.started Demo.args) = [Demo.generation].
Proof. vm_compute. reflexivity. Qed.

Example interrupted_waits :
  m_stopPending Demo.interrupted = true /\ m_exited Demo.interrupted = None /\
  sessionStopHandled (m_session Demo.interrupted) = true.
Proof. repeat split; reflexivity. Qed.

Example restarted_child : child (m_session Demo.restarted) = Some 1%nat.
Proof. reflexivity. Qed.

(** The session of the specification's scenario: no port flag and no
    [PORT]; the worker says ready, is sent the options with retries
    allowed, says server-ready; SIGINT ends the session with the telemetry
    flushed, the cursor restored and status 0. The fork, whose argument is
    the whole environment, is left out of the listing. *)
Example session_scenario :
  List.filter (fun e => negb (is_fork e))
    (snd (run (X := Demo.collaborators)
            (Demo.launch ++
             [WorkerMessage 0%nat Demo.ready; WorkerMessage 0%nat Demo.serverReady;
              SignalReceived SIGINT Demo.calm])
            (initial Demo.args Demo.env 1000)))
  = [EFileExists "app"; ELoadEnvConfig "app"; ELoadConfig (Some "app");
     ESetGlobal "phase" "phase-development-server";
     ESetGlobal "distDir" "app/.next";
     ESend 0%nat Demo.options; EResolve 0%nat; EPreflight false;
     EKill 0%nat (KillSignal "SIGINT"); ENewTelemetry "app/.next";
     EFindPagesDir (Some "app");
     ETelemetryRecord {| cliCommand := "dev"; turboFlag := false;
                         durationMilliseconds := 4000;
                         ev_pagesDir := true; ev_appDir := false |};
     ETelemetryFlushDetached (Some "app");
     EStdoutWrite show_cursor; EStdoutWrite newline; EProcessExit 0].
Proof. vm_compute. reflexivity. Qed.

Example sort_by_length_stable :
  sort_by_length ["ppr"; "a"; "typedRoutes"; "c"; "bb"]
  = ["a"; "c"; "bb"; "ppr"; "typedRoutes"].
Proof. reflexivity. Qed.

Example killArg_values :
  killArg (Some "SIGINT") = KillSignal "SIGINT" /\
  killArg None = KillNumber 0 /\ killArg (Some EmptyString) = KillNumber 0.
Proof. repeat split. Qed.


(** The first worker exits with the restart status. *)
Lemma exit_handler_rules_witness :
  snd (step (X := Demo.collaborators) (WorkerExit 0%nat (Some 77) None Demo.calm)
         (Demo.started Demo.args))
    = [EFork 1%nat (forkEnv (Demo.started Demo.args))] /\
  m_gens (fst (step (X := Demo.collaborators)
                 (WorkerExit 0%nat (Some 77) None Demo.calm)
                 (Demo.started Demo.args)))
    = [Demo.generation; Demo.generation].
Proof.
  destruct (exit_handler_rules (X := Demo.collaborators) 0%nat Demo.generation
              (Some 77) None Demo.calm (Demo.started Demo.args) eq_refl eq_refl)
    as (_ & H & _).
  destruct (H eq_refl eq_refl eq_refl) as (H1 & _ & _ & H4 & _).
  split; [exact H1 | exact H4].
Defined.

(** An unknown message, ready, and server-ready twice. *)
Lemma startServer_handshake_witness :
  List.filter is_resolve
    (snd (run (X := Demo.collaborators)
            (map (WorkerMessage 0%nat)
               [MOther; Demo.ready; Demo.serverReady; Demo.serverReady])
            (fst (fst (startServer Demo.options (Demo.loading Demo.args))))))
    = [EResolve 0%nat] /\
  List.filter is_send
    (snd (run (X := Demo.collaborators)
            (map (WorkerMessage 0%nat)
               [MOther; Demo.ready; Demo.serverReady; Demo.serverReady])
            (fst (fst (startServer Demo.options (Demo.loading Demo.args))))))
    = [ESend 0%nat Demo.options].
Proof.
  destruct (startServer_handshake (X := Demo.collaborators) Demo.options
              (Demo.loading Demo.args)
              [MOther; Demo.ready; Demo.serverReady; Demo.serverReady] eq_refl)
    as (Hs & Hr & _).
  split; [exact Hr | exact Hs].
Defined.

(** The configuration fails to load while the coordinator waits for it,
    and nothing of the telemetry works. *)
Lemma coordinator_swallows_errors_witness :
  m_exited (fst (step (X := Demo.collaborators)
                   (StopConfigLoaded None Demo.broken) Demo.interrupted)) = Some 0 /\
  occurrences is_printed
    (snd (step (X := Demo.collaborators)
            (StopConfigLoaded None Demo.broken) Demo.interrupted)) = 0%nat.
Proof.
  destruct (coordinator_swallows_errors (X := Demo.collaborators) Demo.interrupted)
    as (_ & H & _).
  - exists Demo.args, Demo.env, 1000,
      [NextDevCalled; FileExistsSettled true Demo.loadedEnv;
       SignalReceived SIGINT Demo.broken].
    reflexivity.
  - reflexivity.
  - destruct (H None Demo.broken eq_refl) as (Hp & _ & He & _).
    split; [exact He | exact Hp].
Defined.

(** A late server-ready message of the first worker. *)
Lemma late_message_after_restart_witness :
  ~ In (EResolve 1%nat)
      (snd (step (X := Demo.collaborators) (WorkerMessage 0%nat Demo.serverReady)
              Demo.restarted)) /\
  occurrences is_send
    (snd (step (X := Demo.collaborators) (WorkerMessage 0%nat Demo.serverReady)
            Demo.restarted)) = 0%nat.
Proof.
  destruct (late_message_after_restart (X := Demo.collaborators) 0%nat
              Demo.generation None Demo.calm Demo.serverReady
              (Demo.started Demo.args) eq_refl eq_refl eq_refl eq_refl)
    as (_ & _ & _ & Hs & Hr & _).
  split; [exact Hr | exact (Hs eq_refl)].
Defined.

(** C5 as stated fails: after the restart, a late ready message of the
    first worker makes the supervisor send the options to the new worker. *)
Lemma late_ready_counterexample :
  child (m_session Demo.restarted) = Some 1%nat /\
  snd (step (X := Demo.collaborators) (WorkerMessage 0%nat Demo.ready)
         Demo.restarted) = [ESend 1%nat Demo.options] /\
  occurrences is_send
    (snd (step (X := Demo.collaborators) (WorkerMessage 0%nat Demo.ready)
            Demo.restarted)) <> 0%nat.
Proof.
  split; [vm_compute; reflexivity |].
  split; [vm_compute; reflexivity | vm_compute; discriminate].
Qed.

Lemma retry_allowed_iff_no_port_witness :
  allowRetry Demo.args Demo.env = true /\
  allowRetry (Demo.with_port 4000 Demo.args) Demo.env = false.
Proof.
  split.
  - apply (proj1 (retry_allowed_iff_no_port (X := Demo.collaborators)
                    Demo.args Demo.env 1000 [])).
    split; reflexivity.
  - apply (proj1 (proj2 (retry_allowed_iff_no_port (X := Demo.collaborators)
                           (Demo.with_port 4000 Demo.args) Demo.env 1000 []))).
    left. exists 4000. reflexivity.
Defined.

(** [next dev app -p 1], with SIGINT arriving while the directory is
    checked. *)
Lemma reserved_port_exits_witness :
  m_nextDev
    (fst (run (X := Demo.collaborators)
            [NextDevCalled; SignalReceived SIGINT Demo.calm]
            (initial (Demo.with_port 1 Demo.args) Demo.env 1000)))
    = AwaitFileExists "app" /\
  m_exited
    (fst (run (X := Demo.collaborators)
            ([NextDevCalled; SignalReceived SIGINT Demo.calm]
             ++ FileExistsSettled true Demo.loadedEnv
                :: [ConfigLoaded (Some Demo.nextConfig) None])
            (initial (Demo.with_port 1 Demo.args) Demo.env 1000))) = Some 1 /\
  snd (run (X := Demo.collaborators)
         ([NextDevCalled; SignalReceived SIGINT Demo.calm]
          ++ FileExistsSettled true Demo.loadedEnv
             :: [ConfigLoaded (Some Demo.nextConfig) None])
         (initial (Demo.with_port 1 Demo.args) Demo.env 1000))
    = snd (run (X := Demo.collaborators)
             [NextDevCalled; SignalReceived SIGINT Demo.calm]
             (initial (Demo.with_port 1 Demo.args) Demo.env 1000))
      ++ [EPrint "reserved for a well-known service"; EProcessExit 1].
Proof.
  split; [reflexivity |].
  destruct (reserved_port_exits (X := Demo.collaborators)
              (Demo.with_port 1 Demo.args) Demo.env 1000
              [NextDevCalled; SignalReceived SIGINT Demo.calm]
              [ConfigLoaded (Some Demo.nextConfig) None]
              Demo.loadedEnv "app" eq_refl) as (_ & H).
  destruct (H eq_refl eq_refl) as (H1 & H2 & _).
  split; [exact H1 | exact H2].
Defined.

(** [next dev app -p 1 --help] ends at line 126: the help text, status
    0, and no port resolved. *)
Example help_precedes_port_check :
  snd (run (X := Demo.collaborators)
         [NextDevCalled; FileExistsSettled true Demo.loadedEnv]
         (initial (Demo.with_help (Demo.with_port 1 Demo.args)) Demo.env 1000))
    = [EConsoleLog helpText; EProcessExit 0].
Proof. vm_compute. reflexivity. Qed.

(** [next dev app --experimental-https], the certificate, and a restart. *)
Example https_restart_keeps_certificate :
  map (fun c => opt_selfSignedCertificate (gen_options c))
    (m_gens
       (fst (run (X := Demo.collaborators) Demo.https_schedule
               (initial (Demo.with_https None None Demo.args) Demo.env 1000))))
    = [Some Demo.certificate; Some Demo.certificate].
Proof. vm_compute. reflexivity. Qed.

(** SIGINT while the configuration loads, with a telemetry client that
    fails; then [loadConfig] fails too. *)
Lemma handleSessionStop_restores_cursor_witness :
  m_stopPending
    (fst (run (X := Demo.collaborators)
            [NextDevCalled; FileExistsSettled true Demo.loadedEnv;
             SignalReceived SIGINT Demo.broken]
            (initial Demo.args Demo.env 1000))) = true /\
  m_exited
    (fst (step (X := Demo.collaborators) (StopConfigLoaded None Demo.broken)
            (fst (run (X := Demo.collaborators)
                    [NextDevCalled; FileExistsSettled true Demo.loadedEnv;
                     SignalReceived SIGINT Demo.broken]
                    (initial Demo.args Demo.env 1000))))) = Some 0 /\
  exists pre,
    snd (step (X := Demo.collaborators) (StopConfigLoaded None Demo.broken)
           (fst (run (X := Demo.collaborators)
                   [NextDevCalled; FileExistsSettled true Demo.loadedEnv;
                    SignalReceived SIGINT Demo.broken]
                   (initial Demo.args Demo.env 1000))))
      = pre ++ [EStdoutWrite show_cursor; EStdoutWrite newline; EProcessExit 0] /\
    occurrences is_process_exit pre = 0%nat.
Proof.
  split; [reflexivity |].
  destruct (handleSessionStop_restores_cursor (X := Demo.collaborators))
    as (_ & _ & _ & H).
  exact (H Demo.args Demo.env 1000
           [NextDevCalled; FileExistsSettled true Demo.loadedEnv;
            SignalReceived SIGINT Demo.broken]
           None Demo.broken eq_refl eq_refl).
Defined.

(** SIGTERM with a worker running, and the exit of that worker with
    status 1 and no signal. *)
Lemma handleSessionStop_kill_argument_witness :
  child (m_session (Demo.started Demo.args)) = Some 0%nat /\
  (exists t,
     snd (step (X := Demo.collaborators) (SignalReceived SIGTERM Demo.calm)
            (Demo.started Demo.args))
       = EKill 0%nat (KillSignal "SIGTERM") :: t /\
     occurrences is_kill t = 0%nat) /\
  (exists t,
     snd (step (X := Demo.collaborators) (WorkerExit 0%nat (Some 1) None Demo.calm)
            (Demo.started Demo.args))
       = EKill 0%nat (KillNumber 0) :: t /\
     occurrences is_kill t = 0%nat).
Proof.
  destruct (handleSessionStop_kill_argument (X := Demo.collaborators)) as [_ H].
  split; [reflexivity |]. split.
  - exact (proj2 (H (SignalReceived SIGTERM Demo.calm) (Demo.started Demo.args)
                    (Some "SIGTERM") Demo.calm 0%nat eq_refl I eq_refl eq_refl)).
  - exact (proj2 (H (WorkerExit 0%nat (Some 1) None Demo.calm)
                    (Demo.started Demo.args) None Demo.calm 0%nat
                    eq_refl I eq_refl eq_refl)).
Defined.

(** ** Further properties of the file *)

Section Further.

Context {X : Collaborators}.

(** *** Every step is one of the moves *)

Lemma nextDev_serve_move (m m1 : Machine) (d : string) (o : StartServerOptions) :
  serve_base m d o m1 -> move m (nextDev_serve d o m1).
Proof.
  intros Hbase. unfold nextDev_serve.
  destruct (config (m_session m1)) as [cfg|] eqn:Hc.
  2:{ now apply (mv_serve_reject m d o m1). }
  unfold runDevServer.
  destruct (truthy_flag (arg_https (m_args m1))) eqn:Hhttps.
  - destruct (truthy_value (arg_https_key (m_args m1))) as [k|] eqn:Hk;
      [destruct (truthy_value (arg_https_cert (m_args m1))) as [c|] eqn:Hcert |].
    + apply (mv_serve_fork m d o m1
               (with_certificate
                  (Some {| key := path_resolve k; cert := path_resolve c |}) o)
               [ELogWarn httpsWarning]); [exact Hbase |].
      right. split; [exact Hhttps |]. exists k, c. auto.
    + apply (mv_serve_certificate m d o m1); try assumption.
      unfold explicit_certificate. now rewrite Hk, Hcert.
    + apply (mv_serve_certificate m d o m1); try assumption.
      unfold explicit_certificate. now rewrite Hk.
  - apply (mv_serve_fork m d o m1 o []); [exact Hbase |].
    left. auto.
Qed.

Lemma step_move (ev : Event) (m : Machine) :
  m_exited m = None -> move m (step ev m).
Proof.
  intros Ha. destruct ev.
  - unfold step. rewrite Ha.
    destruct (m_nextDev m) eqn:Hph; try apply mv_idle.
    unfold nextDev. destruct (truthy_flag (arg_help (m_args m))) eqn:Hh.
    + now apply mv_help.
    + now apply mv_dir.
  - unfold step. rewrite Ha.
    destruct (m_nextDev m) eqn:Hph; try apply mv_idle.
    unfold nextDev_fileExists, printAndExit. destruct b; simpl.
    + destruct (isPortIsReserved (getPort (m_args m) (m_env m))) eqn:Hres.
      * now apply (mv_print m d).
      * now apply mv_loadConfig.
    + now apply (mv_print m d).
  - unfold step. rewrite Ha.
    destruct (m_nextDev m) as [| |d port ar host files| | | | |] eqn:Hph;
      try apply mv_idle.
    destruct r as [cfg|].
    2:{ apply mv_reject. left. eauto 10. }
    change (nextDev_config d port ar host files (Some cfg) features m)
      with (if truthy (m_env (configured cfg m) !! "TURBOPACK")
            then (set_phase
                    (AwaitTurbo d (launch_options d port ar host files
                                     features (m_args m)))
                    (configured cfg m),
                  [EValidateTurboNextConfig
                     (truthy (m_env (configured cfg m)
                                !! "__INTERNAL_CUSTOM_TURBOPACK_BINDINGS"))
                     (launch_options d port ar host files
                        features (m_args m))])
            else nextDev_serve d
                   (launch_options d port ar host files features (m_args m))
                   (configured cfg m)).
    destruct (truthy (m_env (configured cfg m) !! "TURBOPACK")) eqn:Ht.
    + now apply (mv_turbo m d port ar host files cfg features).
    + apply nextDev_serve_move. right. eauto 12.
  - unfold step. rewrite Ha.
    destruct (m_nextDev m) eqn:Hph; try apply mv_idle.
    destruct ok.
    + apply nextDev_serve_move. left. auto.
    + apply mv_reject. right. eauto.
  - unfold step. rewrite Ha.
    destruct (m_nextDev m) eqn:Hph; try apply mv_idle.
    unfold runDevServer_certificate, runDevServer_catch.
    destruct r as [oc|].
    + now apply (mv_certificate m reboot o oc).
    + apply mv_catch. left. eauto.
  - unfold step. rewrite Ha.
    destruct (m_nextDev m) eqn:Hph; try apply mv_idle.
    unfold runDevServer_catch. destruct ok.
    + now apply mv_finished.
    + apply mv_catch. now right.
  - rewrite step_signal by exact Ha. apply mv_stop.
  - rewrite step_message by exact Ha. unfold onMessage.
    destruct (m_gens m !! g) as [c|] eqn:Hg; [| apply mv_idle].
    destruct msg as [|[|] [|]]; try apply mv_idle.
    + destruct (child (m_session m)) eqn:Hc; [now apply (mv_send m g) | apply mv_idle].
    + destruct (child (m_session m)) eqn:Hc; [now apply (mv_send m g) | apply mv_idle].
    + destruct (gen_resolved c) eqn:Hr; [apply mv_idle |].
      destruct (m_nextDev m) eqn:Hph;
        try (apply (mv_resolve m g c); [assumption .. | intros rb; congruence]).
      destruct (Nat.eqb_spec h g) as [-> | Hne].
      * now apply (mv_resolve_preflight m g c).
      * apply (mv_resolve m g c); try assumption.
        intros rb Heq. rewrite Hph in Heq. injection Heq as _ Heq. auto.
  - rewrite step_exit by exact Ha. unfold onExit.
    destruct (m_gens m !! g) as [c|] eqn:Hg; [| apply mv_idle].
    destruct (sessionStopHandled (m_session m)) eqn:Hf; [apply mv_idle |].
    destruct (truthy signal); [apply mv_idle |]. simpl.
    destruct (bool_decide _).
    + now apply (mv_restart m g c).
    + apply mv_stop.
  - rewrite step_resume by exact Ha.
    destruct (m_stopPending m) eqn:Hp; [now apply mv_resume | apply mv_idle].
Qed.

(** Induction along a schedule, one move at a time. *)
Lemma run_moves (P : Machine -> list Effect -> Prop) (m0 : Machine) :
  P m0 [] ->
  (forall m t r, P m t -> m_exited m = None -> move m r ->
     P (fst r) (t ++ snd r)) ->
  forall evs, P (fst (run evs m0)) (snd (run evs m0)).
Proof.
  intros H0 Hmove. apply run_ind; [exact H0 |].
  intros m t ev HP. destruct (m_exited m) eqn:Ha.
  - rewrite (step_exited ev m _ Ha). cbn. now rewrite app_nil_r.
  - apply (Hmove m t (step ev m)); [exact HP | exact Ha | now apply step_move].
Qed.

Lemma serve_base_frame (m m1 : Machine) (d : string) (o : StartServerOptions) :
  serve_base m d o m1 ->
  m_exited m1 = m_exited m /\ m_args m1 = m_args m /\ m_gens m1 = m_gens m /\
  m_stopPending m1 = m_stopPending m /\ m_initialEnv m1 = m_initialEnv m /\
  dir (m_session m1) = dir (m_session m) /\
  child (m_session m1) = child (m_session m) /\
  isTurboSession (m_session m1) = isTurboSession (m_session m) /\
  sessionStarted (m_session m1) = sessionStarted (m_session m) /\
  sessionStopHandled (m_session m1) = sessionStopHandled (m_session m).
Proof.
  intros [[_ ->] | (port & ar & host & files & cfg & features & _ & _ & -> & _)].
  - repeat split.
  - unfold configured. cbn.
    destruct (truthy (arg_upload_trace (m_args m))); cbn; repeat split.
Qed.

(** *** Exit statuses *)

Lemma settle_stop_exit (signal : option string) (o : StopOracle) (m : Machine) :
  m_exited m = None ->
  let r := settle (handleSessionStop signal o (m_session m)) m in
  (m_exited (fst r) = None /\ occurrences is_process_exit (snd r) = 0%nat) \/
  (m_exited (fst r) = Some 0 /\
   exists pre, snd r = pre ++ [EProcessExit 0] /\
     occurrences is_process_exit pre = 0%nat).
Proof.
  intros Ha.
  destruct (settle_stop_cases signal o m) as (s' & t & _ & _ & Ht & Hcases).
  cbv zeta. rewrite Ht.
  assert (Hk : occurrences is_process_exit (killChild signal (m_session m)) = 0%nat)
    by (apply killChild_outside; reflexivity).
  destruct Hcases as [(_ & -> & ->) | (_ & _ & [[-> Hs] | [(-> & -> & _) | (-> & -> & _)]])].
  - left. rewrite app_nil_r. auto.
  - right. split; [reflexivity |].
    destruct (shutdown_sequence_counts t Hs)
      as (_ & _ & _ & _ & _ & _ & _ & pre & -> & Hpre).
    exists (killChild signal (m_session m) ++ pre
            ++ [EStdoutWrite show_cursor; EStdoutWrite newline]).
    split; [unfold restore; now rewrite <- !app_assoc |].
    rewrite !occurrences_app, Hk, Hpre. reflexivity.
  - left. rewrite occurrences_app, Hk. auto.
  - left. rewrite occurrences_app, Hk. auto.
Qed.

Lemma settle_resume_exit (r : option NextConfigComplete) (o : StopOracle)
    (m : Machine) :
  m_exited m = None ->
  let res := settle (handleSessionStop_resume r o (m_session m))
               (set_stopPending false m) in
  (m_exited (fst res) = None /\ occurrences is_process_exit (snd res) = 0%nat) \/
  (m_exited (fst res) = Some 0 /\
   exists pre, snd res = pre ++ [EProcessExit 0] /\
     occurrences is_process_exit pre = 0%nat).
Proof.
  intros Ha.
  destruct (settle_resume_cases r o m) as (s' & _ & _ & _ & Hcases).
  cbv zeta. destruct Hcases as [[-> Hs] | (-> & -> & _)].
  - right. split; [reflexivity |].
    destruct (shutdown_sequence_counts _ Hs)
      as (_ & _ & _ & _ & _ & _ & _ & pre & -> & Hpre).
    exists (pre ++ [EStdoutWrite show_cursor; EStdoutWrite newline]).
    split; [unfold restore; now rewrite <- !app_assoc |].
    rewrite !occurrences_app, Hpre. reflexivity.
  - left. auto.
Qed.

Lemma exit_shape_move (m : Machine) (t : list Effect) (r : Machine * list Effect) :
  exit_shape m t -> m_exited m = None -> move m r ->
  exit_shape (fst r) (t ++ snd r).
Proof.
  unfold exit_shape. intros Ht Ha Hmove. rewrite Ha in Ht.
  assert (Hquiet : forall m' t', m_exited m' = None ->
            occurrences is_process_exit t' = 0%nat ->
            match m_exited m' with
            | None => occurrences is_process_exit (t ++ t') = 0%nat
            | Some c => (c = 0 \/ c = 1) /\
                exists pre, t ++ t' = pre ++ [EProcessExit c] /\
                  occurrences is_process_exit pre = 0%nat /\
                  (c = 1 -> exists pre' e, pre = pre' ++ [e] /\
                     (e = EConsoleErrorCaught \/ exists msg, e = EPrint msg))
            end).
  { intros m' t' -> H0. rewrite occurrences_app, Ht, H0. reflexivity. }
  assert (Hzero : forall m' pre, m_exited m' = Some 0 ->
            occurrences is_process_exit pre = 0%nat ->
            match m_exited m' with
            | None => occurrences is_process_exit (t ++ pre ++ [EProcessExit 0]) = 0%nat
            | Some c => (c = 0 \/ c = 1) /\
                exists pre0, t ++ pre ++ [EProcessExit 0] = pre0 ++ [EProcessExit c] /\
                  occurrences is_process_exit pre0 = 0%nat /\
                  (c = 1 -> exists pre' e, pre0 = pre' ++ [e] /\
                     (e = EConsoleErrorCaught \/ exists msg, e = EPrint msg))
            end).
  { intros m' pre -> H0. split; [now left |]. exists (t ++ pre).
    split; [now rewrite app_assoc |]. rewrite occurrences_app, Ht, H0.
    split; [reflexivity | discriminate]. }
  assert (Hone : forall m' e, m_exited m' = Some 1 ->
            is_process_exit e = false ->
            (e = EConsoleErrorCaught \/ exists msg, e = EPrint msg) ->
            match m_exited m' with
            | None => occurrences is_process_exit (t ++ [e; EProcessExit 1]) = 0%nat
            | Some c => (c = 0 \/ c = 1) /\
                exists pre0, t ++ [e; EProcessExit 1] = pre0 ++ [EProcessExit c] /\
                  occurrences is_process_exit pre0 = 0%nat /\
                  (c = 1 -> exists pre' e0, pre0 = pre' ++ [e0] /\
                     (e0 = EConsoleErrorCaught \/ exists msg, e0 = EPrint msg))
            end).
  { intros m' e -> He Hprinted. split; [now right |]. exists (t ++ [e]).
    split; [now rewrite <- app_assoc |].
    rewrite occurrences_app, Ht, occurrences_cons, He.
    split; [reflexivity |]. intros _. eauto. }
  destruct Hmove; cbn [fst snd].
  - now apply Hquiet.
  - apply (Hzero _ [EConsoleLog helpText]); reflexivity.
  - now apply Hquiet.
  - apply Hone; [reflexivity | reflexivity | eauto].
  - now apply Hquiet.
  - now apply Hquiet.
  - now apply Hquiet.
  - destruct (serve_base_frame _ _ _ _ H) as (He & _).
    apply Hquiet; [cbn; congruence | reflexivity].
  - destruct (serve_base_frame _ _ _ _ H) as (He & _).
    apply Hquiet; [cbn; congruence |].
    rewrite !occurrences_cons, occurrences_app. cbn.
    destruct H0 as [(_ & _ & ->) | (_ & k & c & _ & _ & _ & ->)]; reflexivity.
  - destruct (serve_base_frame _ _ _ _ H) as (He & _).
    apply Hquiet; [cbn; congruence | reflexivity].
  - now apply Hquiet.
  - apply Hone; [reflexivity | reflexivity | auto].
  - now apply Hquiet.
  - destruct (settle_stop_exit signal o m Ha) as [[He H0] | (He & pre & -> & H0)].
    + now apply Hquiet.
    + now apply Hzero.
  - destruct (settle_resume_exit r o m Ha) as [[He H0] | (He & pre & -> & H0)].
    + now apply Hquiet.
    + now apply Hzero.
  - now apply Hquiet.
  - now apply Hquiet.
  - now apply Hquiet.
  - now apply Hquiet.
Qed.

(** X1: the exit status of the process. While the process lives no call
    of [process.exit] is in its trace. Once it has exited, the exit is the
    last call of the trace and the only one, its status is the recorded
    one and is 0 or 1, and a status 1 comes directly after a printed
    message ([printAndExit] or [console.error]). *)
Theorem exit_status_shape (args : Args) (env : gmap string string)
    (started : Z) (evs : list Event) :
  let m := fst (run evs (initial args env started)) in
  let t := snd (run evs (initial args env started)) in
  (m_exited m = None -> occurrences is_process_exit t = 0%nat) /\
  (forall c, m_exited m = Some c ->
     (c = 0 \/ c = 1) /\
     exists pre, t = pre ++ [EProcessExit c] /\
       occurrences is_process_exit pre = 0%nat /\
       (c = 1 -> exists pre' e, pre = pre' ++ [e] /\
          (e = EConsoleErrorCaught \/ exists msg, e = EPrint msg))).
Proof.
  intros m t.
  assert (H : exit_shape m t).
  { apply (run_moves exit_shape); [reflexivity |].
    intros m' t' r. apply exit_shape_move. }
  unfold exit_shape in H. split.
  - intros He. now rewrite He in H.
  - intros c He. now rewrite He in H.
Qed.

(** *** The experimental features, sorted *)

Lemma insert_by_length_perm (x : string) (l : list string) :
  Permutation (insert_by_length x l) (x :: l).
Proof.
  induction l as [|y l IH]; simpl; [reflexivity |].
  destruct (String.length x <=? String.length y)%nat; [reflexivity |].
  rewrite IH. apply perm_swap.
Qed.

Lemma insert_by_length_sorted (x : string) (l : list string) :
  StronglySorted shorter l -> StronglySorted shorter (insert_by_length x l).
Proof.
  induction 1 as [|y l Hs IH Hall]; simpl.
  - repeat constructor.
  - destruct (Nat.leb_spec (String.length x) (String.length y)) as [Hle | Hlt].
    + constructor; [now constructor |].
      constructor; [exact Hle |].
      eapply Forall_impl; [exact Hall |].
      unfold shorter. intros a Ha. lia.
    + constructor; [exact IH |].
      rewrite (insert_by_length_perm x l).
      constructor; [unfold shorter; lia | exact Hall].
Qed.

Lemma insert_by_length_stable (n : nat) (x : string) (l : list string) :
  List.filter (has_length n) (insert_by_length x l) =
  List.filter (has_length n) (x :: l).
Proof.
  induction l as [|y l IH]; [reflexivity |]. cbn [insert_by_length].
  destruct (Nat.leb_spec (String.length x) (String.length y)) as [Hle | Hlt];
    [reflexivity |].
  cbn [List.filter] in *. rewrite IH. unfold has_length.
  destruct (Nat.eqb_spec (String.length y) n), (Nat.eqb_spec (String.length x) n);
    try reflexivity.
  lia.
Qed.

(** X2: the list [expFeatureInfo] is the list [onLoadUserConfig] was
    given, sorted by length: a permutation of it, with no element longer
    than a later one, and stable - the features of any one length keep the
    order they came in. *)
Theorem sort_by_length_sorts (l : list string) :
  Permutation (sort_by_length l) l /\
  StronglySorted shorter (sort_by_length l) /\
  forall n, List.filter (has_length n) (sort_by_length l)
            = List.filter (has_length n) l.
Proof.
  unfold sort_by_length. induction l as [|x l (IHp & IHs & IHf)]; simpl.
  - repeat split; constructor.
  - split; [| split].
    + rewrite insert_by_length_perm. now constructor.
    + now apply insert_by_length_sorted.
    + intros n. rewrite insert_by_length_stable. cbn [List.filter].
      now rewrite IHf.
Qed.

(** *** The session-stopped event *)

Ltac event_cases :=
  repeat match goal with
    | H : False |- _ => destruct H
    | H : In _ [] |- _ => destruct H
    | H : In _ (_ :: _) |- _ => destruct H as [H | H]; [try discriminate H |]
    | H : _ \/ _ |- _ => destruct H as [H | H]; [try discriminate H |]
    end.

(** X3: the telemetry block of the coordinator, whatever its calls
    answer. An event that is recorded names the command [dev], carries the
    turbo flag of the session and the time since the session started; its
    two routing flags are those of the trace globals when both are defined,
    and then [findPagesDir] is not called; otherwise they are what the one
    call of [findPagesDir] returned. The flush is called only after a
    record that returned, the client is not constructed when the globals
    hold one, and the block completes exactly when its last call, the
    flush, was made and returned. *)
Theorem recordSessionStopped_event (o : StopOracle) (s : Session)
    (cfg : NextConfigComplete) :
  let t := fst (recordSessionStopped o s cfg) in
  (forall ev, In (ETelemetryRecord ev) t ->
     cliCommand ev = "dev" /\ turboFlag ev = isTurboSession s /\
     durationMilliseconds ev = now o - sessionStarted s /\
     ((globalPagesDir o = Some (ev_pagesDir ev) /\
       globalAppDir o = Some (ev_appDir ev) /\
       occurrences is_find_pages_dir t = 0%nat) \/
      ((globalPagesDir o = None \/ globalAppDir o = None) /\
       findPagesDirResult o = Some (ev_pagesDir ev, ev_appDir ev) /\
       occurrences is_find_pages_dir t = 1%nat))) /\
  (occurrences is_flush t <= occurrences is_telemetry_record t <= 1)%nat /\
  (occurrences is_flush t = 1%nat -> recordOk o = true) /\
  (globalTelemetry o = true -> occurrences is_new_telemetry t = 0%nat) /\
  (snd (recordSessionStopped o s cfg) = Some tt <->
   occurrences is_flush t = 1%nat /\ flushOk o = true).
Proof.
  unfold recordSessionStopped, bind, call, ret, throw.
  destruct o as [rq gt tc gp ga fr rc fl nw]. cbn [globalTelemetry telemetryCtorOk
    globalPagesDir globalAppDir findPagesDirResult recordOk flushOk now].
  destruct gt, (dir s), (distDir cfg), tc, gp as [gp|], ga as [ga|],
    fr as [[fp fa]|], rc, fl; unfold occurrences; cbn;
    (split; [intros ev Hin; event_cases; injection Hin as Hin; subst ev; cbn;
             repeat (split; [reflexivity |]);
             solve [left; auto 10 | right; auto 10] |]);
    (split; [lia |]); (split; [intros; congruence || reflexivity |]);
    (split; [intros; congruence || reflexivity |]);
    (split; [intros H; (discriminate H || (split; reflexivity))
            | intros [H1 H2]; (discriminate H1 || discriminate H2 || reflexivity)]).
Qed.

(** *** [preflight] *)

Lemma nextFontWarning_other (command : string) :
  nextFontWarning command <> duplicateSassWarning.
Proof. unfold nextFontWarning, duplicateSassWarning. cbn. discriminate. Qed.

(** X4: [preflight]. Both package versions are always asked for. The
    duplicate-sass warning is issued exactly when both versions are
    truthy. On a reboot the dependencies are not read and the [@next/font]
    warning is not issued. Otherwise, when the calls answer, that warning
    is issued exactly when [dependencies] names [@next/font], or
    [devDependencies] names it with a version other than [workspace:*];
    so a [workspace:*] entry is exempt only in [devDependencies]. The
    function returns exactly when no call rejected, and warns at most
    twice. *)
Theorem preflight_warnings (getNpxCommand : string -> string)
    (skipOnReboot : bool) (d : string) (a : PreflightAnswers) :
  let r := preflight getNpxCommand skipOnReboot d a in
  firstn 2 (fst r) = [PGetPackageVersion d "sass"; PGetPackageVersion d "node-sass"] /\
  (In (PWarn duplicateSassWarning) (fst r) <->
   exists v w, pf_sassVersion a = Some v /\ pf_nodeSassVersion a = Some w /\
               truthy v = true /\ truthy w = true) /\
  (skipOnReboot = true ->
   List.filter is_getDependencies (fst r) = [] /\
   ~ In (PWarn (nextFontWarning (getNpxCommand d))) (fst r)) /\
  (In (PWarn (nextFontWarning (getNpxCommand d))) (fst r) <->
   skipOnReboot = false /\
   exists v w dependencies devDependencies,
     pf_sassVersion a = Some v /\ pf_nodeSassVersion a = Some w /\
     pf_dependencies a = Some (dependencies, devDependencies) /\
     (truthy (dependencies !! "@next/font") = true \/
      (truthy (devDependencies !! "@next/font") = true /\
       devDependencies !! "@next/font" <> Some "workspace:*"))) /\
  (snd r = true <->
   is_Some (pf_sassVersion a) /\ is_Some (pf_nodeSassVersion a) /\
   (skipOnReboot = true \/ is_Some (pf_dependencies a))) /\
  (length (List.filter is_warn (fst r)) <= 2)%nat.
Proof.
  assert (Hfont : forall dependencies devDependencies,
            nextFontInstalled dependencies devDependencies = true <->
            truthy (dependencies !! "@next/font") = true \/
            (truthy (devDependencies !! "@next/font") = true /\
             devDependencies !! "@next/font" <> Some "workspace:*")).
  { intros deps dev. unfold nextFontInstalled.
    rewrite orb_true_iff, andb_true_iff, negb_true_iff, bool_decide_eq_false.
    reflexivity. }
  pose proof (nextFontWarning_other (getNpxCommand d)) as Hne.
  assert (Hne' : duplicateSassWarning <> nextFontWarning (getNpxCommand d))
    by congruence.
  unfold preflight.
  destruct (pf_sassVersion a) as [v|] eqn:Hv;
    [destruct (pf_nodeSassVersion a) as [w|] eqn:Hw |].
  2,3: cbn; split; [reflexivity |];
       split; [split; [intros [H | [H | []]]; discriminate
                      | intros (v' & w' & H1 & H2 & _); congruence] |];
       split; [intros _; split; [reflexivity | intros [H | [H | []]]; discriminate] |];
       split; [split; [intros [H | [H | []]]; discriminate
                      | intros (_ & v' & w' & ? & ? & H1 & H2 & _); congruence] |];
       split; [split; [discriminate | intros ([? H1] & [? H2] & _); congruence] |];
       lia.
  destruct (truthy v && truthy w) eqn:Hboth.
  - apply andb_true_iff in Hboth as [Htv Htw].
    destruct skipOnReboot.
    + cbn. split; [reflexivity |].
      split; [split; [intros _; eauto 10 | auto] |].
      split; [intros _; split; [reflexivity |];
              intros [H | [H | [H | []]]]; congruence |].
      split; [split; [intros [H | [H | [H | []]]]; congruence
                     | intros [H _]; discriminate] |].
      split; [split; [intros _; eauto 10 | reflexivity] |]. lia.
    + destruct (pf_dependencies a) as [[deps dev]|] eqn:Hd.
      * destruct (nextFontInstalled deps dev) eqn:Hf.
        -- cbn. split; [reflexivity |].
           split; [split; [intros _; eauto 10 | auto] |].
           split; [discriminate |].
           split; [split; [intros _; split; [reflexivity |];
                           exists v, w, deps, dev; repeat split; now apply Hfont
                          | auto 10] |].
           split; [split; [intros _; eauto 10 | reflexivity] |]. lia.
        -- cbn. split; [reflexivity |].
           split; [split; [intros _; eauto 10 | auto] |].
           split; [discriminate |].
           split; [split; [intros [H | [H | [H | [H | []]]]]; congruence
                          | intros (_ & v' & w' & deps' & dev' & _ & _ & [= <- <-] & H);
                            apply Hfont in H; congruence] |].
           split; [split; [intros _; eauto 10 | reflexivity] |]. lia.
      * cbn. split; [reflexivity |].
        split; [split; [intros _; eauto 10 | auto] |].
        split; [discriminate |].
        split; [split; [intros [H | [H | [H | [H | []]]]]; congruence
                       | intros (_ & v' & w' & deps' & dev' & _ & _ & H & _);
                         discriminate] |].
        split; [split; [discriminate
                       | intros (_ & _ & [H | [? H]]); discriminate] |]. lia.
  - assert (Hnot : ~ (exists v' w', Some v = Some v' /\ Some w = Some w' /\
                        truthy v' = true /\ truthy w' = true)).
    { intros (v' & w' & [= <-] & [= <-] & H1 & H2).
      rewrite H1, H2 in Hboth. discriminate. }
    destruct skipOnReboot.
    + cbn. split; [reflexivity |].
      split; [split; [intros [H | [H | []]]; discriminate | intros H; now apply Hnot in H] |].
      split; [intros _; split; [reflexivity |];
              intros [H | [H | []]]; congruence |].
      split; [split; [intros [H | [H | []]]; congruence
                     | intros [H _]; discriminate] |].
      split; [split; [intros _; eauto 10 | reflexivity] |]. lia.
    + destruct (pf_dependencies a) as [[deps dev]|] eqn:Hd.
      * destruct (nextFontInstalled deps dev) eqn:Hf.
        -- cbn. split; [reflexivity |].
           split; [split; [intros [H | [H | [H | [H | []]]]]; congruence
                          | intros H; now apply Hnot in H] |].
           split; [discriminate |].
           split; [split; [intros _; split; [reflexivity |];
                           exists v, w, deps, dev; repeat split; now apply Hfont
                          | auto 10] |].
           split; [split; [intros _; eauto 10 | reflexivity] |]. lia.
        -- cbn. split; [reflexivity |].
           split; [split; [intros [H | [H | [H | []]]]; congruence
                          | intros H; now apply Hnot in H] |].
           split; [discriminate |].
           split; [split; [intros [H | [H | [H | []]]]; congruence
                          | intros (_ & v' & w' & deps' & dev' & _ & _ & [= <- <-] & H);
                            apply Hfont in H; congruence] |].
           split; [split; [intros _; eauto 10 | reflexivity] |]. lia.
      * cbn. split; [reflexivity |].
        split; [split; [intros [H | [H | [H | []]]]; congruence
                       | intros H; now apply Hnot in H] |].
        split; [discriminate |].
        split; [split; [intros [H | [H | [H | []]]]; congruence
                       | intros (_ & v' & w' & deps' & dev' & _ & _ & H & _);
                         discriminate] |].
        split; [split; [discriminate
                       | intros (_ & _ & [H | [? H]]); discriminate] |]. lia.
Qed.

(** *** Induction with the invariants of the launch *)

Lemma run_moves_ok (args : Args) (env : gmap string string) (started : Z)
    (P : Machine -> list Effect -> Prop) :
  P (initial args env started) [] ->
  (forall m t r, options_ok args env m t -> session_ok m -> P m t ->
     m_exited m = None -> move m r -> P (fst r) (t ++ snd r)) ->
  forall evs, P (fst (run evs (initial args env started)))
                (snd (run evs (initial args env started))).
Proof.
  intros H0 Hmove evs.
  apply (run_ind (fun m t => options_ok args env m t /\ session_ok m /\ P m t)).
  - split; [apply options_ok_initial |]. split; [apply session_ok_initial | exact H0].
  - intros m t ev (Hok & Hs & HP).
    split; [now apply options_ok_step |]. split; [now apply session_ok_step |].
    destruct (m_exited m) eqn:Ha.
    + rewrite (step_exited ev m _ Ha). cbn. now rewrite app_nil_r.
    + apply (Hmove m t (step ev m)); try assumption. now apply step_move.
Qed.

(** *** What the coordinator reports *)

Lemma recordSessionStopped_calls (o : StopOracle) (s : Session)
    (cfg : NextConfigComplete) :
  Forall (stop_call_ok (isTurboSession s) (traceUploadUrl s) (dir s)
            (child s))
    (fst (recordSessionStopped o s cfg)).
Proof.
  unfold recordSessionStopped, bind, call, ret, throw.
  destruct (globalTelemetry o), (dir s), (distDir cfg), (telemetryCtorOk o),
    (globalPagesDir o), (globalAppDir o), (findPagesDirResult o),
    (recordOk o), (flushOk o); cbn;
    repeat (apply List.Forall_cons; [cbn; eauto |]); apply List.Forall_nil.
Qed.

Lemma finishSessionStop_calls (s : Session) :
  Forall (stop_call_ok (isTurboSession s) (traceUploadUrl s) (dir s)
            (child s))
    (fst (finishSessionStop s)).
Proof.
  unfold finishSessionStop.
  destruct (traceUploadUrl s) as [u|] eqn:Hu; [| repeat constructor].
  destruct (truthy_string u) eqn:Ht; [| repeat constructor].
  destruct (config s); repeat constructor; cbn; auto.
Qed.

Lemma stopWithConfig_calls (o : StopOracle) (s : Session) (cfg : NextConfigComplete) :
  Forall (stop_call_ok (isTurboSession s) (traceUploadUrl s) (dir s)
            (child s))
    (stop_trace (stopWithConfig o s cfg)).
Proof.
  unfold stopWithConfig, stop_trace.
  pose proof (recordSessionStopped_calls o (set_config cfg s) cfg) as H1.
  pose proof (finishSessionStop_calls (set_config cfg s)) as H2.
  destruct (recordSessionStopped o (set_config cfg s) cfg) as [t r].
  destruct (finishSessionStop (set_config cfg s)) as [t' out].
  cbn in *. apply Forall_app. auto.
Qed.

Lemma settle_calls (P : Effect -> Prop) (s : Session) (t : list Effect)
    (out : StopOutcome) (m : Machine) :
  P ERejected -> Forall P t -> Forall P (snd (settle (s, t, out) m)).
Proof.
  intros Hr Ht. unfold settle. destruct out; cbn; try exact Ht.
  apply Forall_app. split; [exact Ht | repeat constructor; exact Hr].
Qed.

Lemma settle_stop_calls (signal : option string) (o : StopOracle) (m : Machine) :
  Forall (stop_call_ok (isTurboSession (m_session m))
            (traceUploadUrl (m_session m)) (dir (m_session m))
            (child (m_session m)))
    (snd (settle (handleSessionStop signal o (m_session m)) m)).
Proof.
  set (s := m_session m).
  assert (Hk : Forall (stop_call_ok (isTurboSession s) (traceUploadUrl s) (dir s)
            (child s))
                 (killChild signal s))
    by (unfold killChild; destruct (child s); repeat constructor).
  unfold handleSessionStop.
  destruct (sessionStopHandled s); [exact Hk |].
  destruct (requireOk o).
  - destruct (config (set_sessionStopHandled s)) as [cfg|].
    + pose proof (stopWithConfig_calls o (set_sessionStopHandled s) cfg) as H1.
      unfold stop_trace in H1.
      destruct (stopWithConfig o (set_sessionStopHandled s) cfg) as [[s2 t] out].
      cbn in H1. apply settle_calls; [exact I |]. apply Forall_app. auto.
    + apply settle_calls; [exact I |]. apply Forall_app.
      split; [exact Hk | repeat constructor].
  - pose proof (finishSessionStop_calls (set_sessionStopHandled s)) as H1.
    destruct (finishSessionStop (set_sessionStopHandled s)) as [t out].
    cbn in H1. apply settle_calls; [exact I |]. apply Forall_app. auto.
Qed.

Lemma settle_resume_calls (r : option NextConfigComplete) (o : StopOracle)
    (m : Machine) :
  Forall (stop_call_ok (isTurboSession (m_session m))
            (traceUploadUrl (m_session m)) (dir (m_session m))
            (child (m_session m)))
    (snd (settle (handleSessionStop_resume r o (m_session m))
            (set_stopPending false m))).
Proof.
  set (s := m_session m). unfold handleSessionStop_resume.
  destruct r as [cfg|].
  - pose proof (stopWithConfig_calls o s cfg) as H1. unfold stop_trace in H1.
    destruct (stopWithConfig o s cfg) as [[s2 t] out]. cbn in H1.
    apply settle_calls; [exact I | exact H1].
  - pose proof (finishSessionStop_calls s) as H1.
    destruct (finishSessionStop s) as [t out]. cbn in H1.
    apply settle_calls; [exact I | exact H1].
Qed.

Lemma stop_call_run_call (args : Args) (started : Z) (m : Machine) (e : Effect) :
  session_constants args started m ->
  stop_call_ok (isTurboSession (m_session m)) (traceUploadUrl (m_session m))
    (dir (m_session m)) (child (m_session m)) e ->
  run_call_ok args e.
Proof.
  intros (Ht & _ & Hu). destruct e; cbn; try exact (fun _ => I).
  - rewrite Ht. auto.
  - rewrite Ht. intros (H1 & H2 & H3 & H4 & _).
    destruct Hu as [Hu | [Hu Ha]].
    + rewrite Hu in H1. discriminate.
    + rewrite <- Hu. auto.
Qed.

Lemma session_constants_frame (args : Args) (started : Z) (m m' : Machine) :
  isTurboSession (m_session m') = isTurboSession (m_session m) ->
  sessionStarted (m_session m') = sessionStarted (m_session m) ->
  traceUploadUrl (m_session m') = traceUploadUrl (m_session m) ->
  session_constants args started m -> session_constants args started m'.
Proof. unfold session_constants. intros -> -> ->. auto. Qed.

Lemma configured_constants (args : Args) (started : Z) (cfg : NextConfigComplete)
    (m : Machine) :
  m_args m = args -> session_constants args started m ->
  session_constants args started (configured cfg m).
Proof.
  intros Hargs (H1 & H2 & H3). unfold session_constants, configured. cbn.
  rewrite Hargs. destruct (truthy (arg_upload_trace args)) eqn:Hu; cbn; auto.
Qed.

Lemma reports_move (args : Args) (started : Z) (m : Machine) (t : list Effect)
    (r : Machine * list Effect) :
  m_args m = args ->
  session_constants args started m /\ Forall (run_call_ok args) t ->
  m_exited m = None -> move m r ->
  session_constants args started (fst r) /\ Forall (run_call_ok args) (t ++ snd r).
Proof.
  intros Hargs [Hc Ht] Ha Hmove.
  assert (Hquiet : forall m' t',
            isTurboSession (m_session m') = isTurboSession (m_session m) ->
            sessionStarted (m_session m') = sessionStarted (m_session m) ->
            traceUploadUrl (m_session m') = traceUploadUrl (m_session m) ->
            Forall (run_call_ok args) t' ->
            session_constants args started m' /\
            Forall (run_call_ok args) (t ++ t')).
  { intros m' t' H1 H2 H3 H4. split.
    - now apply (session_constants_frame args started m).
    - apply Forall_app. auto. }
  assert (Hbase : forall d o m1, serve_base m d o m1 ->
            session_constants args started m1).
  { intros d o m1 [[_ ->] | (port & ar & host & files & cfg & features & _ & _ & -> & _)];
      [exact Hc |]. now apply configured_constants. }
  destruct Hmove; cbn [fst snd];
    try (apply Hquiet; [reflexivity .. | repeat constructor]).
  - split.
    + apply (session_constants_frame args started (configured cfg m));
        try reflexivity. now apply configured_constants.
    + apply Forall_app. split; [exact Ht | repeat constructor].
  - split.
    + apply (session_constants_frame args started m1); try reflexivity.
      now apply (Hbase d o).
    + apply Forall_app; split; [exact Ht | repeat constructor].
  - split.
    + apply (session_constants_frame args started m1); try reflexivity.
      now apply (Hbase d o).
    + apply Forall_app. split; [exact Ht |].
      destruct H0 as [(_ & _ & ->) | (_ & k & c & _ & _ & _ & ->)]; repeat constructor.
  - split.
    + apply (session_constants_frame args started m1); try reflexivity.
      now apply (Hbase d o).
    + apply Forall_app; split; [exact Ht | repeat constructor].
  - pose proof (settle_stop_calls signal o m) as Hcalls.
    destruct (settle_stop_frame signal o m) as [(_ & _ & _ & _ & _ & Hsame) _].
    destruct Hsame as (_ & _ & Hu & Htb & Hst).
    split; [now apply (session_constants_frame args started m) |].
    apply Forall_app. split; [exact Ht |].
    eapply Forall_impl; [exact Hcalls |]. intros e. now apply (stop_call_run_call args started m).
  - pose proof (settle_resume_calls r o m) as Hcalls.
    destruct (settle_resume_frame r o m) as [(_ & _ & _ & _ & _ & Hsame) _].
    destruct Hsame as (_ & _ & Hu & Htb & Hst).
    split; [now apply (session_constants_frame args started m) |].
    apply Forall_app. split; [exact Ht |].
    eapply Forall_impl; [exact Hcalls |]. intros e. now apply (stop_call_run_call args started m).
Qed.

Lemma reports_run (args : Args) (env : gmap string string) (started : Z)
    (evs : list Event) :
  session_constants args started (fst (run evs (initial args env started))) /\
  Forall (run_call_ok args) (snd (run evs (initial args env started))).
Proof.
  apply (run_moves_ok args env started
           (fun m t => session_constants args started m /\
                       Forall (run_call_ok args) t)).
  - split; [| constructor]. unfold session_constants. cbn. auto.
  - intros m t r Hok _ HP Ha Hmove.
    apply (reports_move args started m t r); try assumption.
    apply (ok_args _ _ _ _ Hok).
Qed.

(** X5: [isTurboSession] is never assigned, whatever the command line and
    the environment: in every schedule of events it stays [false], every
    session-stopped event handed to [telemetry.record] is a ['dev'] event
    with [turboFlag] false, [sessionStarted] keeps the time the process
    started with, and every [uploadTrace] call is made in mode ['dev']
    with [isTurboSession] false; this holds also with [--turbo]. *)
Theorem telemetry_never_reports_turbo (args : Args) (env : gmap string string)
    (started : Z) (evs : list Event) :
  let m := fst (run evs (initial args env started)) in
  let t := snd (run evs (initial args env started)) in
  isTurboSession (m_session m) = false /\
  sessionStarted (m_session m) = started /\
  (forall ev, In (ETelemetryRecord ev) t ->
     cliCommand ev = "dev" /\ turboFlag ev = false) /\
  (forall u, In (EUploadTrace u) t ->
     ut_mode u = "dev" /\ ut_isTurboSession u = false).
Proof.
  cbv zeta. destruct (reports_run args env started evs) as [(H1 & H2 & _) Hall].
  rewrite List.Forall_forall in Hall.
  split; [exact H1 |]. split; [exact H2 |]. split.
  - intros ev Hin. exact (Hall (ETelemetryRecord ev) Hin).
  - intros u Hin. destruct (Hall (EUploadTrace u) Hin) as (_ & _ & Hm & Ht).
    now split.
Qed.

(** X6: the debugging trace is uploaded only on request, and only to the
    requested target: in every schedule of events each [uploadTrace] call
    carries the value of [--experimental-upload-trace], which is then a
    non-empty string, and with the option absent or empty no [uploadTrace]
    call is ever made. *)
Theorem upload_trace_only_on_request (args : Args) (env : gmap string string)
    (started : Z) (evs : list Event) :
  let t := snd (run evs (initial args env started)) in
  (forall u, In (EUploadTrace u) t ->
     arg_upload_trace args = Some (ut_traceUploadUrl u) /\
     ut_traceUploadUrl u <> EmptyString) /\
  (truthy (arg_upload_trace args) = false -> occurrences is_upload_trace t = 0%nat).
Proof.
  cbv zeta. destruct (reports_run args env started evs) as [_ Hall].
  split.
  - rewrite List.Forall_forall in Hall. intros u Hin.
    destruct (Hall (EUploadTrace u) Hin) as (Ht & Hu & _).
    split; [now rewrite Hu |]. rewrite <- Hu in Ht. cbn in Ht.
    intros E. rewrite E in Ht. discriminate.
  - intros Hno. induction Hall as [|e t He Hrest IH]; [reflexivity |].
    rewrite occurrences_cons, IH. destruct e; cbn; try reflexivity.
    cbn in He. destruct He as [He _]. rewrite Hno in He. discriminate.
Qed.

(** *** The project directory *)

Lemma stop_call_names_dir (d : string) (m : Machine) (e : Effect) :
  dir_ok d m ->
  stop_call_ok (isTurboSession (m_session m)) (traceUploadUrl (m_session m))
    (dir (m_session m)) (child (m_session m)) e ->
  names_dir d e.
Proof.
  intros (H0 & H1 & _ & _).
  assert (Hd : dir (m_session m) = None \/ dir (m_session m) = Some d).
  { destruct (m_nextDev m) eqn:Hp; try (right; apply H1; discriminate).
    left. now apply H0. }
  assert (Hu : traceUploadUrl (m_session m) <> None -> dir (m_session m) = Some d).
  { intros Hu. destruct (m_nextDev m) eqn:Hp; try (apply H1; discriminate).
    destruct (H0 eq_refl) as [_ E]. contradiction. }
  destruct e; cbn; try exact (fun _ => I); try (intros ->; exact Hd);
    try contradiction.
  - intros (d' & dd & E & ->). exists dd.
    destruct Hd as [Hd | Hd]; rewrite Hd in E; [discriminate |].
    now injection E as <-.
  - intros (Ht & Hs & _ & _ & ->). apply Hu. rewrite <- Hs. discriminate.
Qed.

Lemma dir_ok_frame (d : string) (m m' : Machine) :
  m_nextDev m' = m_nextDev m -> m_gens m' = m_gens m ->
  dir (m_session m') = dir (m_session m) ->
  traceUploadUrl (m_session m') = traceUploadUrl (m_session m) ->
  dir_ok d m -> dir_ok d m'.
Proof. unfold dir_ok. intros -> -> -> ->. auto. Qed.

Ltac dir_split :=
  unfold dir_ok; cbn;
  split; [try (let E := fresh in intros E; discriminate E)
         | split; [intros _ | split]].

Lemma dir_move (args : Args) (env : gmap string string) (m : Machine)
    (t : list Effect) (r : Machine * list Effect) :
  options_ok args env m t ->
  dir_ok (projectDir args env) m /\ Forall (names_dir (projectDir args env)) t ->
  m_exited m = None -> move m r ->
  dir_ok (projectDir args env) (fst r) /\
  Forall (names_dir (projectDir args env)) (t ++ snd r).
Proof.
  set (d0 := projectDir args env).
  intros Hok [Hd Ht] Ha Hmove.
  pose proof (ok_args _ _ _ _ Hok) as Hargs.
  pose proof (ok_phase _ _ _ _ Hok) as Hph. unfold phase_ok in Hph.
  destruct Hd as (Hns & Hst & Hgens & Hloc).
  assert (Hgen' : forall o, opt_dir o = d0 ->
            forall g c, (m_gens m ++ [{| gen_options := o; gen_resolved := false |}])
                          !! g = Some c -> opt_dir (gen_options c) = d0).
  { intros o Ho g c Hl. apply lookup_app_Some in Hl as [Hl | [_ Hl]].
    - now apply (Hgens g c).
    - apply list_lookup_singleton_Some in Hl as [_ <-]. exact Ho. }
  assert (Hres : forall g c g' c',
            (<[g := {| gen_options := gen_options c; gen_resolved := true |}]>
               (m_gens m)) !! g' = Some c' ->
            m_gens m !! g = Some c -> opt_dir (gen_options c') = d0).
  { intros g c g' c' Hl Hc. apply list_lookup_insert_Some in Hl
      as [(-> & <- & _) | [_ Hl]]; [now apply (Hgens g' c) | now apply (Hgens g' c')]. }
  assert (Hbase : forall d o m1, serve_base m d o m1 ->
            m_nextDev m <> NotStarted /\ opt_dir o = d0 /\
            dir (m_session m1) = Some d0 /\ m_gens m1 = m_gens m).
  { intros d o m1 [[Hp ->] | (port & ar & host & files & cfg & features & Hp & -> & -> & _)];
      (split; [rewrite Hp; discriminate |]); rewrite Hp in Hloc, Hst.
    - destruct Hloc as [_ Ho]. repeat split; auto.
    - split; [exact Hloc |]. split; [| reflexivity].
      unfold configured. cbn.
      destruct (truthy (arg_upload_trace (m_args m))); cbn; apply Hst; discriminate. }
  assert (Hd : dir_ok d0 m) by exact (conj Hns (conj Hst (conj Hgens Hloc))).
  assert (Hquiet : forall m' t',
            m_nextDev m' = m_nextDev m -> m_gens m' = m_gens m ->
            dir (m_session m') = dir (m_session m) ->
            traceUploadUrl (m_session m') = traceUploadUrl (m_session m) ->
            Forall (names_dir d0) t' ->
            dir_ok d0 m' /\ Forall (names_dir d0) (t ++ t')).
  { intros m' t' H1 H2 H3 H4 H5. split; [now apply (dir_ok_frame d0 m) |].
    apply Forall_app. auto. }
  destruct Hmove; cbn [fst snd].
  - (* nothing *) apply Hquiet; auto.
  - (* help *) apply Hquiet; auto. repeat constructor.
  - (* the directory *)
    rewrite H in Hph. destruct Hph as (Henv & _ & _).
    assert (Hd' : d = d0) by (subst d d0; unfold projectDir; now rewrite Henv, Hargs).
    split.
    + dir_split; [now rewrite Hd' | exact Hgens | exact Hd'].
    + apply Forall_app. split; [exact Ht | repeat constructor; exact Hd'].
  - (* printAndExit *) apply Hquiet; auto. repeat constructor.
  - (* loadEnvConfig, loadConfig *)
    rewrite H in Hloc, Hst. split.
    + dir_split; [apply Hst; discriminate | exact Hgens | exact Hloc].
    + apply Forall_app. split; [exact Ht |].
      apply List.Forall_cons; [exact Hloc |].
      apply List.Forall_cons; [right; now rewrite Hloc | apply List.Forall_nil].
  - (* loadConfig or the bundler check rejects *)
    split.
    + dir_split; [| exact Hgens | exact I].
      apply Hst. destruct H as [(d & port & ar & host & files & ->) | (d & o & ->)];
        discriminate.
    + apply Forall_app. split; [exact Ht | repeat constructor].
  - (* the bundler check *)
    rewrite H in Hloc, Hst. split.
    + dir_split; [| exact Hgens | split; [exact Hloc | exact Hloc]].
      destruct (truthy (arg_upload_trace (m_args m))); cbn; apply Hst; discriminate.
    + apply Forall_app. split; [exact Ht | repeat constructor; exact Hloc].
  - (* no configuration *)
    destruct (Hbase d o m1 H) as (Hp & Ho & Hdir & Hg). split.
    + dir_split; [exact Hdir | rewrite Hg; exact Hgens | exact I].
    + apply Forall_app. split; [exact Ht | repeat constructor].
  - (* the first fork *)
    destruct (Hbase d o m1 H) as (Hp & Ho & Hdir & Hg).
    assert (Ho' : opt_dir o' = d0)
      by (destruct H0 as [(_ & -> & _) | (_ & k & c & _ & _ & -> & _)]; exact Ho).
    split.
    + dir_split; [exact Hdir | rewrite Hg; now apply Hgen' | exact I].
    + apply Forall_app. split; [exact Ht |].
      destruct H0 as [(_ & _ & ->) | (_ & k & c & _ & _ & _ & ->)]; repeat constructor.
  - (* the certificate is asked for *)
    destruct (Hbase d o m1 H) as (Hp & Ho & Hdir & Hg). split.
    + dir_split; [exact Hdir | rewrite Hg; exact Hgens | exact Ho].
    + apply Forall_app. split; [exact Ht | repeat constructor].
  - (* the certificate arrives *)
    rewrite H in Hloc, Hst. split.
    + dir_split; [apply Hst; discriminate | now apply Hgen' | exact I].
    + apply Forall_app. split; [exact Ht | repeat constructor].
  - (* the catch of runDevServer *) apply Hquiet; auto. repeat constructor.
  - (* preflight returns *)
    rewrite H in Hst. split.
    + dir_split; [apply Hst; discriminate | exact Hgens | exact I].
    + now rewrite app_nil_r.
  - (* the coordinator *)
    pose proof (settle_stop_calls signal o m) as Hcalls.
    destruct (settle_stop_frame signal o m) as [(_ & _ & _ & Hg & Hp & Hsame) _].
    destruct Hsame as (Hdir & _ & Hu & _ & _).
    apply Hquiet; try assumption.
    eapply Forall_impl; [exact Hcalls |]. intros e.
    now apply (stop_call_names_dir d0 m).
  - (* the coordinator resumed *)
    pose proof (settle_resume_calls r o m) as Hcalls.
    destruct (settle_resume_frame r o m) as [(_ & _ & _ & Hg & Hp & Hsame) _].
    destruct Hsame as (Hdir & _ & Hu & _ & _).
    apply Hquiet; try assumption.
    eapply Forall_impl; [exact Hcalls |]. intros e.
    now apply (stop_call_names_dir d0 m).
  - (* deliverOptions *)
    apply Hquiet; auto. repeat constructor. now apply (Hgens g c).
  - (* the promise resolves *)
    split.
    + unfold dir_ok. cbn. split; [exact Hns |]. split; [exact Hst |].
      split; [| exact Hloc]. intros g' c' Hl. now apply (Hres g c g' c').
    + apply Forall_app. split; [exact Ht | repeat constructor].
  - (* the promise resolves, nextDev goes on *)
    rewrite H1 in Hst. split.
    + dir_split; [apply Hst; discriminate | | exact I].
      intros g' c' Hl. now apply (Hres g c g' c').
    + apply Forall_app. split; [exact Ht | repeat constructor].
  - (* restart *)
    split.
    + unfold dir_ok. cbn. split; [exact Hns |]. split; [exact Hst |].
      split; [| exact Hloc]. apply Hgen'. now apply (Hgens g c).
    + apply Forall_app. split; [exact Ht | repeat constructor].
Qed.

Lemma dir_run (args : Args) (env : gmap string string) (started : Z)
    (evs : list Event) :
  dir_ok (projectDir args env) (fst (run evs (initial args env started))) /\
  Forall (names_dir (projectDir args env))
    (snd (run evs (initial args env started))).
Proof.
  apply (run_moves_ok args env started
           (fun m t => dir_ok (projectDir args env) m /\
                       Forall (names_dir (projectDir args env)) t)).
  - split; [| constructor]. unfold dir_ok. cbn.
    split; [auto |]. split; [intros E; now contradiction E |].
    split; [| exact I]. intros g c Hl. rewrite lookup_nil in Hl. discriminate.
  - intros m t r Hok _ HP Ha Hmove. now apply (dir_move args env m t r).
Qed.

(** X7: the project directory is resolved once, by line 128, from the
    environment and the command line the process starts with:
    [getProjectDir(process.env.NEXT_PRIVATE_DEV_DIR || args._[0])]. In
    every schedule of events [dir] is unassigned or that directory,
    [fileExists] and [loadEnvConfig] are called on it, the options of
    every worker generation and of every [deliverOptions] message carry
    it, the trace upload names it, and [loadConfig], [findPagesDir] and
    [flushDetached] are called on it, or on [undefined] when the shutdown
    coordinator runs before [nextDev] has assigned [dir]. *)
Theorem project_directory_fixed (args : Args) (env : gmap string string)
    (started : Z) (evs : list Event) :
  let d := getProjectDir (js_or (env !! "NEXT_PRIVATE_DEV_DIR")
                                (head (arg_positional args))) in
  let m := fst (run evs (initial args env started)) in
  let t := snd (run evs (initial args env started)) in
  (dir (m_session m) = None \/ dir (m_session m) = Some d) /\
  (forall g c, m_gens m !! g = Some c -> opt_dir (gen_options c) = d) /\
  (forall d', In (EFileExists d') t \/ In (ELoadEnvConfig d') t -> d' = d) /\
  (forall h o, In (ESend h o) t -> opt_dir o = d) /\
  (forall u, In (EUploadTrace u) t -> ut_projectDir u = Some d) /\
  (forall od, In (ELoadConfig od) t \/ In (EFindPagesDir od) t \/
              In (ETelemetryFlushDetached od) t -> od = None \/ od = Some d).
Proof.
  cbv zeta. destruct (dir_run args env started evs) as [(H0 & H1 & Hg & _) Hall].
  fold (projectDir args env). rewrite List.Forall_forall in Hall.
  split.
  { destruct (m_nextDev (fst (run evs (initial args env started)))) eqn:Hp;
      try (right; apply H1; discriminate). left. now apply H0. }
  split; [exact Hg |]. split.
  { intros d' [Hin | Hin]; exact (Hall _ Hin). }
  split; [intros h o Hin; exact (Hall _ Hin) |].
  split; [intros u Hin; exact (Hall _ Hin) |].
  intros od [Hin | [Hin | Hin]]; exact (Hall _ Hin).
Qed.

(** *** Which worker a call reaches *)

Lemma addressed_app (n : nat) (t t' : list Effect) :
  addressed n (t ++ t') <->
  addressed n t /\ addressed (n + occurrences is_fork t) t'.
Proof.
  revert n. induction t as [|e t IH]; intros n.
  - cbn. rewrite Nat.add_0_r. tauto.
  - cbn [app addressed]. rewrite IH, occurrences_cons.
    destruct (is_fork e); cbn [Nat.add];
      rewrite ?Nat.add_succ_r, ?Nat.add_0_l; cbn [Nat.add]; tauto.
Qed.

Lemma addressed_at (n : nat) (pre post : list Effect) (e : Effect) :
  addressed n (pre ++ e :: post) ->
  names_worker (n + occurrences is_fork pre) e.
Proof. rewrite addressed_app. cbn. tauto. Qed.

Lemma coordinator_addressed (turbo : bool) (url d : option string) (n : nat)
    (t : list Effect) :
  Forall (stop_call_ok turbo url d (latest n)) t -> addressed n t.
Proof.
  induction 1 as [|e t He _ IH]; [exact I |].
  cbn. destruct e; cbn in *; try contradiction; auto.
Qed.

Lemma addressed_move (args : Args) (env : gmap string string) (m : Machine)
    (t : list Effect) (r : Machine * list Effect) :
  options_ok args env m t ->
  child (m_session m) = latest (length (m_gens m)) /\ addressed 0 t ->
  m_exited m = None -> move m r ->
  child (m_session (fst r)) = latest (length (m_gens (fst r))) /\
  addressed 0 (t ++ snd r).
Proof.
  intros Hok [Hc Ht] Ha Hmove.
  pose proof (ok_forks _ _ _ _ Hok) as Hforks.
  rewrite addressed_app, Hforks. cbn [Nat.add].
  assert (Hnew : forall o, latest (length (m_gens m ++ [o])) = Some (length (m_gens m)))
    by (intros o; rewrite length_app, Nat.add_1_r; reflexivity).
  destruct Hmove; cbn [fst snd];
    try (split; [exact Hc | split; [exact Ht | cbn; tauto]]).
  - (* the bundler check *)
    unfold configured. cbn.
    destruct (truthy (arg_upload_trace (m_args m))); cbn; tauto.
  - (* no configuration *)
    destruct (serve_base_frame _ _ _ _ H) as (_ & _ & Hg & _ & _ & _ & Hch & _).
    cbn. rewrite Hg, Hch. tauto.
  - (* the first fork *)
    destruct (serve_base_frame _ _ _ _ H) as (_ & _ & Hg & _ & _ & _ & Hch & _).
    cbn. rewrite Hg. split; [now rewrite Hnew |]. split; [exact Ht |].
    destruct H0 as [(_ & _ & ->) | (_ & k & c & _ & _ & _ & ->)]; cbn; tauto.
  - (* the certificate is asked for *)
    destruct (serve_base_frame _ _ _ _ H) as (_ & _ & Hg & _ & _ & _ & Hch & _).
    cbn. rewrite Hg, Hch. tauto.
  - (* the certificate arrives *)
    cbn. split; [now rewrite Hnew |]. tauto.
  - (* the coordinator *)
    pose proof (settle_stop_calls signal o m) as Hcalls.
    destruct (settle_stop_frame signal o m) as [(_ & _ & _ & Hg & _ & Hsame) _].
    destruct Hsame as (_ & Hch & _).
    rewrite Hg, Hch. split; [exact Hc |]. split; [exact Ht |].
    rewrite Hc in Hcalls. now apply coordinator_addressed in Hcalls.
  - (* the coordinator resumed *)
    pose proof (settle_resume_calls r o m) as Hcalls.
    destruct (settle_resume_frame r o m) as [(_ & _ & _ & Hg & _ & Hsame) _].
    destruct Hsame as (_ & Hch & _).
    rewrite Hg, Hch. split; [exact Hc |]. split; [exact Ht |].
    rewrite Hc in Hcalls. now apply coordinator_addressed in Hcalls.
  - (* deliverOptions *)
    split; [exact Hc |]. split; [exact Ht |]. cbn. rewrite <- Hc. tauto.
  - (* the promise resolves *)
    cbn. rewrite length_insert. tauto.
  - (* the promise resolves, nextDev goes on *)
    cbn. rewrite length_insert. tauto.
  - (* restart *)
    cbn. split; [now rewrite Hnew |]. tauto.
Qed.

Lemma addressed_run (args : Args) (env : gmap string string) (started : Z)
    (evs : list Event) :
  child (m_session (fst (run evs (initial args env started)))) =
    latest (length (m_gens (fst (run evs (initial args env started))))) /\
  addressed 0 (snd (run evs (initial args env started))).
Proof.
  apply (run_moves_ok args env started
           (fun m t => child (m_session m) = latest (length (m_gens m)) /\
                       addressed 0 t)).
  - split; [reflexivity | exact I].
  - intros m t r Hok _ HP Ha Hmove. now apply (addressed_move args env m t r).
Qed.

(** X8: the supervisor talks to the newest worker only. In every schedule
    of events [child] is the most recently forked worker (none before the
    first fork), the forks are numbered in the order they are made, and
    every [child.kill] and every [deliverOptions] send goes to the worker
    forked last before that call, never to an earlier generation and
    never before a first fork. *)
Theorem calls_reach_newest_worker (args : Args) (env : gmap string string)
    (started : Z) (evs : list Event) :
  let m := fst (run evs (initial args env started)) in
  let t := snd (run evs (initial args env started)) in
  child (m_session m) = latest (occurrences is_fork t) /\
  (forall pre h e post, t = pre ++ EFork h e :: post ->
     h = occurrences is_fork pre) /\
  (forall pre h a post, t = pre ++ EKill h a :: post ->
     occurrences is_fork pre = S h) /\
  (forall pre h o post, t = pre ++ ESend h o :: post ->
     occurrences is_fork pre = S h).
Proof.
  cbv zeta. destruct (addressed_run args env started evs) as [Hc Hall].
  rewrite (ok_forks _ _ _ _ (options_ok_run args env started evs)).
  split; [exact Hc |].
  assert (Hl : forall n h, latest n = Some h -> n = S h)
    by (intros [|n] h E; [discriminate | now injection E as ->]).
  split; [| split]; intros pre h x post E; rewrite E in Hall;
    apply addressed_at in Hall; cbn in Hall; auto.
Qed.

(** *** The promise of a generation *)

Lemma resolved_count_new (gens : list Generation) (o : StartServerOptions)
    (g : nat) :
  resolved_count (gens ++ [{| gen_options := o; gen_resolved := false |}]) g =
  resolved_count gens g.
Proof.
  unfold resolved_count.
  destruct (decide (g < length gens)%nat) as [Hlt | Hge].
  - now rewrite lookup_app_l.
  - rewrite lookup_app_r by lia. rewrite (lookup_ge_None_2 gens g) by lia.
    destruct (g - length gens)%nat; reflexivity.
Qed.

Lemma resolved_count_set (gens : list Generation) (g g' : nat) (c : Generation) :
  gens !! g = Some c -> gen_resolved c = false ->
  resolved_count (<[g := {| gen_options := gen_options c; gen_resolved := true |}]> gens) g' =
  (occurrences (is_resolve_of g') [EResolve g] + resolved_count gens g')%nat.
Proof.
  intros Hl Hr. unfold resolved_count, occurrences. cbn.
  destruct (Nat.eqb_spec g g') as [<- | Hne].
  - rewrite list_lookup_insert_eq by (now apply lookup_lt_Some in Hl).
    rewrite Hl, Hr. reflexivity.
  - rewrite list_lookup_insert_ne by exact Hne. reflexivity.
Qed.

Lemma resolve_move (m : Machine) (t : list Effect) (r : Machine * list Effect)
    (g' : handle) :
  occurrences (is_resolve_of g') t = resolved_count (m_gens m) g' ->
  m_exited m = None -> move m r ->
  occurrences (is_resolve_of g') (t ++ snd r) = resolved_count (m_gens (fst r)) g'.
Proof.
  intros Ht Ha Hmove. rewrite occurrences_app, Ht.
  assert (Hout : outside_coordinator (is_resolve_of g')) by (repeat split).
  destruct Hmove; cbn [fst snd]; try (cbn; lia).
  - destruct (serve_base_frame _ _ _ _ H) as (_ & _ & Hg & _).
    cbn [m_gens set_phase]. rewrite Hg. cbn. lia.
  - destruct (serve_base_frame _ _ _ _ H) as (_ & _ & Hg & _).
    cbn [forked startServer fst set_phase m_gens set_gens]. rewrite Hg.
    rewrite resolved_count_new.
    destruct H0 as [(_ & _ & ->) | (_ & k & c & _ & _ & _ & ->)]; cbn; lia.
  - destruct (serve_base_frame _ _ _ _ H) as (_ & _ & Hg & _).
    cbn [m_gens set_phase]. rewrite Hg. cbn. lia.
  - cbn [forked startServer fst set_phase m_gens set_gens].
    rewrite resolved_count_new. cbn. lia.
  - destruct (settle_stop_frame signal o m) as [(_ & _ & _ & Hg & _) Hnone].
    rewrite Hg, (Hnone _ Hout). lia.
  - destruct (settle_resume_frame r o m) as [(_ & _ & _ & Hg & _) Hnone].
    rewrite Hg, (Hnone _ Hout). lia.
  - cbn [resolved_at m_gens set_gens]. rewrite (resolved_count_set _ g g' c) by assumption.
    lia.
  - cbn [resolved_at m_gens set_gens set_phase].
    rewrite (resolved_count_set _ g g' c) by assumption.
    rewrite !occurrences_cons. cbn. lia.
  - cbn [startServer fst m_gens set_gens]. rewrite resolved_count_new. cbn. lia.
Qed.

(** X9: the promise of a worker generation is resolved at most once, in
    every schedule of events: however many [nextServerReady] messages
    arrive, from whichever worker and interleaved with restarts and
    signals, the number of [resolve()] calls of generation [g] is 1 when
    its [resolved] flag is set and 0 otherwise, and it is 0 for a
    generation that was never started. *)
Theorem promise_resolves_once (args : Args) (env : gmap string string)
    (started : Z) (evs : list Event) (g : handle) :
  let m := fst (run evs (initial args env started)) in
  let t := snd (run evs (initial args env started)) in
  occurrences (is_resolve_of g) t = resolved_count (m_gens m) g /\
  (occurrences (is_resolve_of g) t <= 1)%nat /\
  ((length (m_gens m) <= g)%nat -> occurrences (is_resolve_of g) t = 0%nat).
Proof.
  cbv zeta.
  assert (H : occurrences (is_resolve_of g) (snd (run evs (initial args env started))) =
              resolved_count (m_gens (fst (run evs (initial args env started)))) g).
  { apply (run_moves (fun m t =>
             occurrences (is_resolve_of g) t = resolved_count (m_gens m) g)).
    - reflexivity.
    - intros m t r Ht Ha Hmove. exact (resolve_move m t r g Ht Ha Hmove). }
  rewrite H. unfold resolved_count. split; [reflexivity |]. split.
  - destruct (m_gens _ !! (g : nat)) as [c|]; [destruct (gen_resolved c) |]; lia.
  - intros Hge. now rewrite (lookup_ge_None_2 _ (g : nat)).
Qed.

(** *** [preflight] *)

Lemma split_app (t t' pre post : list Effect) (e : Effect) :
  t ++ t' = pre ++ e :: post ->
  (exists l, t = pre ++ e :: l) \/ (exists l, pre = t ++ l /\ t' = l ++ e :: post).
Proof.
  intros E. apply app_eq_app in E as (l & [[-> E] | [-> E]]).
  - destruct l as [|x l].
    + right. exists []. rewrite !app_nil_r. cbn in E. now split.
    + cbn in E. injection E as -> ->. left. now exists l.
  - right. exists l. now split.
Qed.

Lemma preflight_after_resolve_app (t t' : list Effect) :
  preflight_after_resolve t ->
  occurrences is_preflight t' = 0%nat \/ t' = [EResolve 0%nat; EPreflight false] ->
  preflight_after_resolve (t ++ t').
Proof.
  intros Ht Ht' pre b post E.
  apply split_app in E as [[l E] | (l & -> & E)].
  - now apply (Ht pre b l).
  - destruct Ht' as [H0 | ->].
    + assert (Hin : In (EPreflight b) t') by (rewrite E; apply in_elt).
      apply (occurrences_none _ _ _ H0) in Hin. discriminate.
    + destruct l as [|x [|y l]]; try discriminate.
      * injection E as <- <- <-. split; [reflexivity |]. now exists t.
      * injection E as _ _ E. now destruct l.
Qed.

Lemma preflight_phase_quiet (m m' : Machine) (t t' : list Effect) :
  m_nextDev m' = m_nextDev m -> occurrences is_preflight t' = 0%nat ->
  preflight_phase m t /\ preflight_after_resolve t ->
  preflight_phase m' (t ++ t') /\ preflight_after_resolve (t ++ t').
Proof.
  unfold preflight_phase. intros -> H0 [Hp Ht]. split.
  - now rewrite occurrences_app, H0, Nat.add_0_r.
  - apply preflight_after_resolve_app; auto.
Qed.

Lemma preflight_move (args : Args) (env : gmap string string) (m : Machine)
    (t : list Effect) (r : Machine * list Effect) :
  options_ok args env m t ->
  preflight_phase m t /\ preflight_after_resolve t ->
  m_exited m = None -> move m r ->
  preflight_phase (fst r) (t ++ snd r) /\ preflight_after_resolve (t ++ snd r).
Proof.
  intros Hok HP Ha Hmove.
  pose proof (ok_phase _ _ _ _ Hok) as Hph. unfold phase_ok in Hph.
  assert (Hout : outside_coordinator is_preflight) by (repeat split).
  assert (Hbase : forall d o m1, serve_base m d o m1 ->
            m_gens m1 = [] /\ occurrences is_preflight t = 0%nat).
  { intros d o m1 Hb. destruct HP as [Hp _]. unfold preflight_phase in Hp.
    destruct (serve_base_frame _ _ _ _ Hb) as (_ & _ & Hg & _). rewrite Hg.
    destruct Hb as [[E _] | (port & ar & host & files & cfg & features & E & _)];
      rewrite E in Hp, Hph; split; try exact Hp; apply Hph. }
  destruct Hmove; cbn [fst snd];
    try (apply (preflight_phase_quiet m); [reflexivity | reflexivity | exact HP]).
  all: destruct HP as [Hp Ht]; unfold preflight_phase in Hp.
  all: try (split; [| apply preflight_after_resolve_app;
                      [exact Ht | try (left; reflexivity)]]).
  all: unfold preflight_phase; rewrite ?occurrences_app;
    cbn [m_nextDev set_phase set_exited set_session set_env set_initialEnv
         forked startServer fst set_gens resolved_at].
  - (* the directory *) rewrite H in Hp. rewrite Hp. reflexivity.
  - (* loadEnvConfig, loadConfig *) rewrite H in Hp. rewrite Hp. reflexivity.
  - (* loadConfig or the bundler check rejects *)
    destruct H as [(d & port & ar & host & files & E) | (d & o & E)];
      rewrite E in Hp; rewrite Hp; cbn; lia.
  - (* the bundler check *) rewrite H in Hp. rewrite Hp. reflexivity.
  - (* no configuration *)
    destruct (Hbase d o m1 H) as [_ E]. rewrite E. cbn. lia.
  - (* the first fork *)
    destruct (Hbase d o m1 H) as [Hg E]. rewrite Hg, E.
    split; [reflexivity |]. split; [reflexivity |].
    destruct H0 as [(_ & _ & ->) | (_ & k & c & _ & _ & _ & ->)]; reflexivity.
  - left. destruct H0 as [(_ & _ & ->) | (_ & k & c & _ & _ & _ & ->)]; reflexivity.
  - (* the certificate is asked for *)
    destruct (Hbase d o m1 H) as [_ E]. rewrite E. split; reflexivity.
  - (* the certificate arrives *)
    rewrite H in Hp, Hph. destruct Hp as [-> E]. rewrite E.
    destruct Hph as (-> & _). repeat split.
  - (* preflight returns *)
    rewrite H in Hp. cbn. lia.
  - (* the coordinator *)
    destruct (settle_stop_frame signal o m) as [(_ & _ & _ & _ & E & _) Hnone].
    rewrite E, (Hnone _ Hout), Nat.add_0_r. exact Hp.
  - left. destruct (settle_stop_frame signal o m) as [_ Hnone]. exact (Hnone _ Hout).
  - (* the coordinator resumed *)
    destruct (settle_resume_frame r o m) as [(_ & _ & _ & _ & E & _) Hnone].
    rewrite E, (Hnone _ Hout), Nat.add_0_r. exact Hp.
  - left. destruct (settle_resume_frame r o m) as [_ Hnone]. exact (Hnone _ Hout).
  - (* the promise resolves, nextDev goes on *)
    rewrite H1 in Hp. destruct Hp as (_ & _ & E). rewrite E. cbn. lia.
  - right. rewrite H1 in Hp. destruct Hp as (-> & -> & _). reflexivity.
Qed.

Lemma preflight_run (args : Args) (env : gmap string string) (started : Z)
    (evs : list Event) :
  preflight_phase (fst (run evs (initial args env started)))
    (snd (run evs (initial args env started))) /\
  preflight_after_resolve (snd (run evs (initial args env started))).
Proof.
  apply (run_moves_ok args env started
           (fun m t => preflight_phase m t /\ preflight_after_resolve t)).
  - split; [reflexivity |]. intros pre b post E. now destruct pre.
  - intros m t r Hok _ HP Ha Hmove. now apply (preflight_move args env m t r).
Qed.


(** *** The environment of a worker *)

Lemma forkEnv_frame (m m' : Machine) :
  m_env m' = m_env m -> m_initialEnv m' = m_initialEnv m ->
  forkEnv m' = forkEnv m.
Proof. unfold forkEnv. now intros -> ->. Qed.

Lemma forkEnv_worker (m : Machine) :
  forkEnv m !! "NEXT_PRIVATE_WORKER" = Some "1".
Proof. unfold forkEnv. apply lookup_insert_eq. Qed.

Lemma forkEnv_turbopack (m : Machine) :
  forkEnv m !! "TURBOPACK" = m_env m !! "TURBOPACK".
Proof.
  unfold forkEnv. rewrite lookup_insert_ne by discriminate.
  destruct (m_env m !! "TURBOPACK") as [v|].
  - apply lookup_insert_eq.
  - apply lookup_delete_eq.
Qed.

Lemma in_app_none (p : Effect -> bool) (t t' : list Effect) (e : Effect) :
  occurrences p t' = 0%nat -> p e = true -> In e (t ++ t') -> In e t.
Proof.
  intros H0 Hp Hin. apply in_app_or in Hin as [Hin | Hin]; [exact Hin |].
  apply (occurrences_none _ _ _ H0) in Hin. congruence.
Qed.

Lemma validated_forks_quiet (t t' : list Effect) :
  validated_forks t -> occurrences is_fork t' = 0%nat -> validated_forks (t ++ t').
Proof.
  intros Ht H0 pre h e post E.
  apply split_app in E as [[l E] | (l & -> & E)].
  - now apply (Ht pre h e l).
  - assert (Hin : In (EFork h e) t') by (rewrite E; apply in_elt).
    apply (occurrences_none _ _ _ H0) in Hin. discriminate.
Qed.

Lemma validated_forks_fork (t a : list Effect) (h0 : handle)
    (e0 : gmap string string) :
  validated_forks t -> occurrences is_fork a = 0%nat ->
  occurrences is_validate a = 0%nat ->
  occurrences is_validate t = (if truthy (e0 !! "TURBOPACK") then 1 else 0)%nat ->
  validated_forks (t ++ a ++ [EFork h0 e0]).
Proof.
  intros Ht Hf Hv Hc pre h e post E.
  apply split_app in E as [[l E] | (l & -> & E)].
  - now apply (Ht pre h e l).
  - apply split_app in E as [[l' E] | (l' & -> & E)].
    + assert (Hin : In (EFork h e) a) by (rewrite E; apply in_elt).
      apply (occurrences_none _ _ _ Hf) in Hin. discriminate.
    + destruct l' as [|x l'].
      * injection E as _ <- _. rewrite app_nil_r, occurrences_app, Hv, Hc. lia.
      * injection E as _ E. now destruct l'.
Qed.

Lemma validated_frame (args : Args) (m m' : Machine) (t t' : list Effect) :
  m_env m' = m_env m -> occurrences is_validate t' = 0%nat ->
  validated args m t -> validated args m' (t ++ t').
Proof.
  unfold validated. intros -> H0 [Hc Hf].
  now rewrite occurrences_app, H0, Nat.add_0_r.
Qed.

Lemma env_quiet (args : Args) (m m' : Machine) (t t' : list Effect) :
  m_nextDev m' = m_nextDev m -> m_env m' = m_env m ->
  m_initialEnv m' = m_initialEnv m -> (m_gens m = [] -> m_gens m' = []) ->
  occurrences is_fork t' = 0%nat -> occurrences is_validate t' = 0%nat ->
  fork_env_ok m t /\ turbo_ok args m t /\ validated_forks t ->
  fork_env_ok m' (t ++ t') /\ turbo_ok args m' (t ++ t') /\
  validated_forks (t ++ t').
Proof.
  intros Hp He Hi Hg Hf Hv (H1 & H2 & H3). split; [| split].
  - intros h e Hin. apply (in_app_none is_fork) in Hin; [| exact Hf | reflexivity].
    rewrite (forkEnv_frame m m') by assumption. now apply (H1 h).
  - unfold turbo_ok in *. rewrite Hp.
    destruct (m_nextDev m);
      try (now apply (validated_frame args m));
      try (now rewrite occurrences_app, Hv, Nat.add_0_r).
    + destruct H2 as [H2 Ht]. split; [now apply (validated_frame args m) |].
      now rewrite He.
    + destruct H2 as [H2 | H2]; [left; auto | right].
      now apply (validated_frame args m).
  - now apply validated_forks_quiet.
Qed.

Lemma env_move (args : Args) (env : gmap string string) (m : Machine)
    (t : list Effect) (r : Machine * list Effect) :
  options_ok args env m t ->
  fork_env_ok m t /\ turbo_ok args m t /\ validated_forks t ->
  m_exited m = None -> move m r ->
  fork_env_ok (fst r) (t ++ snd r) /\ turbo_ok args (fst r) (t ++ snd r) /\
  validated_forks (t ++ snd r).
Proof.
  intros Hok HP Ha Hmove.
  pose proof (ok_args _ _ _ _ Hok) as Hargs.
  pose proof (ok_phase _ _ _ _ Hok) as Hph. unfold phase_ok in Hph.
  pose proof (ok_forks _ _ _ _ Hok) as Hforks.
  assert (Hfo : outside_coordinator is_fork) by (repeat split).
  assert (Hvo : outside_coordinator is_validate) by (repeat split).
  assert (Hnone : forall m' t', m_gens m = [] -> occurrences is_fork t' = 0%nat ->
            fork_env_ok m' (t ++ t')).
  { intros m' t' Hg Hf h e Hin.
    apply (in_app_none is_fork) in Hin; [| exact Hf | reflexivity].
    rewrite Hg in Hforks. apply (occurrences_none _ _ _ Hforks) in Hin.
    discriminate. }
  assert (Hval : m_gens m <> [] -> validated args m t).
  { intros Hg. destruct HP as (_ & H2 & _). unfold turbo_ok in H2.
    destruct (m_nextDev m); try exact H2;
      try (destruct Hph as (_ & Hn & _); contradiction);
      try (destruct Hph as (Hn & _); contradiction).
    destruct H2 as [H2 | H2]; [contradiction | exact H2]. }
  assert (Hconf : forall cfg, truthy_flag (arg_turbo args) = true ->
            m_env (configured cfg m) !! "TURBOPACK" = Some "1").
  { intros cfg Hflag. unfold configured. cbn. rewrite Hargs, Hflag.
    apply lookup_insert_eq. }
  assert (Hbase : forall d o m1, serve_base m d o m1 ->
            m_gens m = [] /\ validated args m1 t).
  { intros d o m1 Hb. destruct HP as (_ & H2 & _). unfold turbo_ok in H2.
    destruct Hb as [[E ->] | (port & ar & host & files & cfg & features & E & _ & -> & Hno)];
      rewrite E in H2, Hph.
    - split; [apply Hph | apply H2].
    - split; [apply Hph |]. split; [now rewrite Hno |].
      intros Hflag. rewrite (Hconf cfg Hflag) in Hno. discriminate. }
  destruct Hmove; cbn [fst snd];
    try (apply (env_quiet args m);
         [reflexivity | reflexivity | reflexivity
         | first [exact (fun E => E) | intros E; cbn; now rewrite E]
         | reflexivity | reflexivity | exact HP]).
  all: destruct HP as (Hfe & Hto & Hvf); unfold turbo_ok in Hto.
  all: assert (Hsame : forall m' t', m_env m' = m_env m ->
            m_initialEnv m' = m_initialEnv m -> occurrences is_fork t' = 0%nat ->
            fork_env_ok m' (t ++ t'))
    by (intros m' t' He Hi Hf h' e' Hin;
        apply (in_app_none is_fork) in Hin; [| exact Hf | reflexivity];
        rewrite (forkEnv_frame m m') by assumption; now apply (Hfe h')).
  - (* the directory *)
    split; [now apply Hsame |]. split; [| now apply validated_forks_quiet].
    unfold turbo_ok. cbn. rewrite H in Hto. now rewrite occurrences_app, Hto.
  - (* loadEnvConfig, loadConfig *)
    rewrite H in Hto, Hph. destruct Hph as (_ & Hg & _).
    split; [now apply Hnone |]. split; [| now apply validated_forks_quiet].
    unfold turbo_ok. cbn. now rewrite occurrences_app, Hto.
  - (* loadConfig or the bundler check rejects *)
    split; [now apply Hsame |]. split; [| now apply validated_forks_quiet].
    unfold turbo_ok. cbn. left.
    destruct H as [(d & port & ar & host & files & E) | (d & o & E)];
      rewrite E in Hph; apply Hph.
  - (* the bundler check *)
    rewrite H in Hto, Hph. destruct Hph as (Hg & _).
    split; [now apply Hnone |]. split; [| now apply validated_forks_quiet].
    unfold turbo_ok, validated. cbn [m_nextDev m_env set_phase].
    rewrite H0, occurrences_app, Hto. split; [| reflexivity].
    split; [reflexivity |]. apply Hconf.
  - (* no configuration *)
    destruct (Hbase d o m1 H) as [Hg Hv].
    destruct (serve_base_frame _ _ _ _ H) as (_ & _ & Hg1 & _).
    split; [now apply Hnone |]. split; [| now apply validated_forks_quiet].
    unfold turbo_ok. cbn. left. now rewrite Hg1.
  - (* the first fork *)
    destruct (Hbase d o m1 H) as [Hg Hv].
    assert (Hpre : occurrences is_fork pre = 0%nat /\
                   occurrences is_validate pre = 0%nat)
      by (destruct H0 as [(_ & _ & ->) | (_ & k & c & _ & _ & _ & ->)]; now split).
    destruct Hpre as [Hpf Hpv].
    change (ESetGlobal "phase" PHASE_DEVELOPMENT_SERVER
              :: ESetGlobal "distDir" dist
              :: pre ++ [EFork (length (m_gens m1)) (forkEnv m1)])
      with ((ESetGlobal "phase" PHASE_DEVELOPMENT_SERVER
               :: ESetGlobal "distDir" dist :: pre)
            ++ [EFork (length (m_gens m1)) (forkEnv m1)]).
    set (a := ESetGlobal "phase" PHASE_DEVELOPMENT_SERVER
                :: ESetGlobal "distDir" dist :: pre).
    assert (Haf : occurrences is_fork a = 0%nat)
      by (unfold a; now rewrite !occurrences_cons, Hpf).
    assert (Hav : occurrences is_validate a = 0%nat)
      by (unfold a; now rewrite !occurrences_cons, Hpv).
    split; [| split].
    + intros h e Hin. rewrite app_assoc in Hin.
      apply in_app_or in Hin as [Hin | Hin].
      * apply (in_app_none is_fork) in Hin; [| exact Haf | reflexivity].
        rewrite Hg in Hforks. apply (occurrences_none _ _ _ Hforks) in Hin.
        discriminate.
      * destruct Hin as [E | []]. now injection E as _ <-.
    + unfold turbo_ok. cbn [m_nextDev forked set_phase].
      apply (validated_frame args m1); [reflexivity | | exact Hv].
      now rewrite occurrences_app, Hav.
    + apply validated_forks_fork; try assumption.
      rewrite forkEnv_turbopack. apply Hv.
  - (* the certificate is asked for *)
    destruct (Hbase d o m1 H) as [Hg Hv].
    split; [now apply Hnone |]. split; [| now apply validated_forks_quiet].
    unfold turbo_ok. cbn [m_nextDev set_phase].
    now apply (validated_frame args m1).
  - (* the certificate arrives *)
    rewrite H in Hto, Hph. destruct Hph as (Hg & _).
    split; [| split].
    + intros h e Hin. apply in_app_or in Hin as [Hin | Hin].
      * rewrite Hg in Hforks. apply (occurrences_none _ _ _ Hforks) in Hin.
        discriminate.
      * destruct Hin as [E | []]. now injection E as _ <-.
    + unfold turbo_ok. cbn [m_nextDev forked set_phase].
      now apply (validated_frame args m).
    + apply (validated_forks_fork t []); try assumption; try reflexivity.
      rewrite forkEnv_turbopack. apply Hto.
  - (* preflight returns *)
    rewrite H in Hto.
    split; [now apply Hsame |]. split; [| now apply validated_forks_quiet].
    unfold turbo_ok. cbn. right. now apply (validated_frame args m).
  - (* the coordinator *)
    destruct (settle_stop_frame signal o m) as [(_ & He & Hi & Hg & Hp & _) Hout].
    apply (env_quiet args m); try assumption.
    + intros E. now rewrite Hg.
    + exact (Hout _ Hfo).
    + exact (Hout _ Hvo).
    + exact (conj Hfe (conj Hto Hvf)).
  - (* the coordinator resumed *)
    destruct (settle_resume_frame r o m) as [(_ & He & Hi & Hg & Hp & _) Hout].
    apply (env_quiet args m); try assumption.
    + intros E. now rewrite Hg.
    + exact (Hout _ Hfo).
    + exact (Hout _ Hvo).
    + exact (conj Hfe (conj Hto Hvf)).
  - (* the promise resolves, nextDev goes on *)
    rewrite H1 in Hto.
    split; [now apply Hsame |]. split; [| now apply validated_forks_quiet].
    unfold turbo_ok. cbn [m_nextDev set_phase]. now apply (validated_frame args m).
  - (* restart *)
    assert (Hg : m_gens m <> []) by (intros E; rewrite E in H; discriminate).
    pose proof (Hval Hg) as Hv.
    split; [| split].
    + intros h e Hin. apply in_app_or in Hin as [Hin | Hin].
      * now apply (Hfe h).
      * destruct Hin as [E | []]. now injection E as _ <-.
    + assert (Hv' : validated args (fst (fst (startServer (gen_options c) m)))
                      (t ++ [EFork (length (m_gens m)) (forkEnv m)]))
        by now apply (validated_frame args m).
      unfold turbo_ok. cbn [m_nextDev startServer fst set_gens set_session].
      destruct (m_nextDev m); try exact Hv';
        try (destruct Hph as (_ & Hn & _); contradiction);
        try (destruct Hph as (Hn & _); contradiction).
      right. exact Hv'.
    + apply (validated_forks_fork t []); try assumption; try reflexivity.
      rewrite forkEnv_turbopack. apply Hv.
Qed.

Lemma turbo_ok_validated (args : Args) (env : gmap string string) (m : Machine)
    (t : list Effect) :
  phase_ok args env m t -> turbo_ok args m t -> m_gens m <> [] ->
  validated args m t.
Proof.
  unfold phase_ok, turbo_ok. intros Hph H2 Hg.
  destruct (m_nextDev m); try exact H2;
    try (destruct Hph as (_ & Hn & _); contradiction);
    try (destruct Hph as (Hn & _); contradiction).
  destruct H2 as [H2 | H2]; [contradiction | exact H2].
Qed.

Lemma env_run (args : Args) (env : gmap string string) (started : Z)
    (evs : list Event) :
  fork_env_ok (fst (run evs (initial args env started)))
    (snd (run evs (initial args env started))) /\
  turbo_ok args (fst (run evs (initial args env started)))
    (snd (run evs (initial args env started))) /\
  validated_forks (snd (run evs (initial args env started))).
Proof.
  apply (run_moves_ok args env started
           (fun m t => fork_env_ok m t /\ turbo_ok args m t /\ validated_forks t)).
  - split; [intros h e [] |]. split; [reflexivity |].
    intros pre h e post E. now destruct pre.
  - intros m t r Hok _ HP Ha Hmove. now apply (env_move args env m t r).
Qed.

(** X11: every worker of a run is forked with one and the same
    environment, the first worker and every restarted one alike. It sets
    [NEXT_PRIVATE_WORKER] to ['1'] and carries [process.env.TURBOPACK] as
    it is; with [--turbo] that is ['1']. A worker whose environment has
    [TURBOPACK] set is forked only after [validateTurboNextConfig] has
    been called, exactly once; when it is unset the check is never made
    before a fork. *)
Theorem workers_share_environment (args : Args) (env : gmap string string)
    (started : Z) (evs : list Event) :
  let m := fst (run evs (initial args env started)) in
  let t := snd (run evs (initial args env started)) in
  (forall h e, In (EFork h e) t ->
     e = forkEnv m /\ e !! "NEXT_PRIVATE_WORKER" = Some "1" /\
     e !! "TURBOPACK" = m_env m !! "TURBOPACK" /\
     (truthy_flag (arg_turbo args) = true -> e !! "TURBOPACK" = Some "1")) /\
  (forall pre h e post, t = pre ++ EFork h e :: post ->
     occurrences is_validate pre =
       (if truthy (e !! "TURBOPACK") then 1 else 0)%nat).
Proof.
  cbv zeta. destruct (env_run args env started evs) as (Hfe & Hto & Hvf).
  pose proof (options_ok_run args env started evs) as Hok.
  split; [| exact Hvf]. intros h e Hin.
  rewrite (Hfe h e Hin). split; [reflexivity |].
  split; [apply forkEnv_worker |]. split; [apply forkEnv_turbopack |].
  intros Hflag. rewrite forkEnv_turbopack.
  assert (Hg : m_gens (fst (run evs (initial args env started))) <> []).
  { intros E. pose proof (ok_forks _ _ _ _ Hok) as Hforks. rewrite E in Hforks.
    apply (occurrences_none _ _ _ Hforks) in Hin. discriminate. }
  destruct (turbo_ok_validated args env _ _ (ok_phase _ _ _ _ Hok) Hto Hg)
    as [_ Hv]. now apply Hv.
Qed.

(** *** The options of a worker *)

Lemma sort_by_length_sorted (l : list string) :
  StronglySorted shorter (sort_by_length l).
Proof.
  unfold sort_by_length. induction l as [|x l IH]; simpl.
  - constructor.
  - now apply insert_by_length_sorted.
Qed.

Lemma options_move (Q : StartServerOptions -> Prop) (args : Args)
    (env : gmap string string) (m : Machine) (t : list Effect)
    (r : Machine * list Effect) :
  (forall d port ar host files features,
     Q (launch_options d port ar host files features args)) ->
  (forall oc o, Q o -> Q (with_certificate oc o)) ->
  options_ok args env m t ->
  options_hold Q m /\ Forall (validate_holds Q) t ->
  m_exited m = None -> move m r ->
  options_hold Q (fst r) /\ Forall (validate_holds Q) (t ++ snd r).
Proof.
  intros HQ1 HQ2 Hok [[Hgens Hloc] Ht] Ha Hmove.
  pose proof (ok_args _ _ _ _ Hok) as Hargs.
  assert (Hnew : forall o, Q o ->
            forall g c, (m_gens m ++ [{| gen_options := o; gen_resolved := false |}])
                          !! g = Some c -> Q (gen_options c)).
  { intros o Ho g c Hl. apply lookup_app_Some in Hl as [Hl | [_ Hl]].
    - now apply (Hgens g c).
    - apply list_lookup_singleton_Some in Hl as [_ <-]. exact Ho. }
  assert (Hres : forall g c g' c',
            (<[g := {| gen_options := gen_options c; gen_resolved := true |}]>
               (m_gens m)) !! g' = Some c' ->
            m_gens m !! g = Some c -> Q (gen_options c')).
  { intros g c g' c' Hl Hc. apply list_lookup_insert_Some in Hl
      as [(-> & <- & _) | [_ Hl]]; [now apply (Hgens g' c) | now apply (Hgens g' c')]. }
  assert (Hbase : forall d o m1, serve_base m d o m1 ->
            Q o /\ m_gens m1 = m_gens m).
  { intros d o m1 Hb.
    destruct (serve_base_frame _ _ _ _ Hb) as (_ & _ & Hg & _).
    split; [| exact Hg].
    destruct Hb as [[E _] | (port & ar & host & files & cfg & features & _ & -> & _)].
    - now rewrite E in Hloc.
    - rewrite Hargs. apply HQ1. }
  assert (Hcoord : forall turbo url d ch t',
            Forall (stop_call_ok turbo url d ch) t' -> Forall (validate_holds Q) t').
  { intros turbo url d ch t' Hall. eapply Forall_impl; [exact Hall |].
    intros e. destruct e; cbn; auto. contradiction. }
  destruct Hmove; cbn [fst snd]; unfold options_hold;
    rewrite Forall_app;
    try (split; [split; [exact Hgens | exact Hloc]
                | split; [exact Ht | repeat constructor]]).
  all: (split; [split | split; [exact Ht |]]);
    cbn [m_gens m_nextDev set_phase set_session set_env set_initialEnv
         forked startServer fst set_gens resolved_at];
    try exact I; try exact Hgens; try (repeat constructor; fail).
  - (* the bundler check *)
    subst o. rewrite Hargs. apply HQ1.
  - repeat constructor. subst o. rewrite Hargs. apply HQ1.
  - (* no configuration *)
    destruct (Hbase d o m1 H) as [_ Hg]. rewrite Hg. exact Hgens.
  - (* the first fork *)
    destruct (Hbase d o m1 H) as [Ho Hg]. rewrite Hg. apply Hnew.
    destruct H0 as [(_ & -> & _) | (_ & k & c & _ & _ & -> & _)]; auto.
  - destruct H0 as [(_ & _ & ->) | (_ & k & c & _ & _ & _ & ->)]; repeat constructor.
  - (* the certificate is asked for *)
    destruct (Hbase d o m1 H) as [_ Hg]. rewrite Hg. exact Hgens.
  - now destruct (Hbase d o m1 H).
  - (* the certificate arrives *)
    apply Hnew, HQ2. now rewrite H in Hloc.
  - (* the coordinator *)
    destruct (settle_stop_frame signal o m) as [(_ & _ & _ & Hg & _) _].
    rewrite Hg. exact Hgens.
  - destruct (settle_stop_frame signal o m) as [(_ & _ & _ & _ & Hp & _) _].
    rewrite Hp. exact Hloc.
  - exact (Hcoord _ _ _ _ _ (settle_stop_calls signal o m)).
  - (* the coordinator resumed *)
    destruct (settle_resume_frame r o m) as [(_ & _ & _ & Hg & _) _].
    rewrite Hg. exact Hgens.
  - destruct (settle_resume_frame r o m) as [(_ & _ & _ & _ & Hp & _) _].
    rewrite Hp. exact Hloc.
  - exact (Hcoord _ _ _ _ _ (settle_resume_calls r o m)).
  - (* the promise resolves *)
    intros g' c' Hl. now apply (Hres g c g' c').
  - exact Hloc.
  - (* the promise resolves, nextDev goes on *)
    intros g' c' Hl. now apply (Hres g c g' c').
  - (* restart *)
    apply Hnew. now apply (Hgens g c).
  - exact Hloc.
Qed.

Lemma launch_flags_run (args : Args) (env : gmap string string) (started : Z)
    (evs : list Event) :
  options_hold (launch_flags args) (fst (run evs (initial args env started))) /\
  Forall (validate_holds (launch_flags args))
    (snd (run evs (initial args env started))).
Proof.
  apply (run_moves_ok args env started
           (fun m t => options_hold (launch_flags args) m /\
                       Forall (validate_holds (launch_flags args)) t)).
  - split; [| constructor]. split; [| exact I].
    intros g c Hl. cbn in Hl. rewrite lookup_nil in Hl. discriminate.
  - intros m t r Hok _ HP Ha Hmove.
    apply (options_move (launch_flags args) args env m t r); try assumption.
    + intros d port ar host files features. unfold launch_flags. cbn.
      split; [reflexivity |]. split; [reflexivity |].
      destruct features; [apply sort_by_length_sorted | constructor].
    + intros oc o Ho. exact Ho.
Qed.

(** X12: every options object the supervisor hands out - to
    [validateTurboNextConfig], to a worker generation of the first start
    or of a restart, and in every [deliverOptions] message - is a
    development-mode object ([isDev] true) that carries
    [--experimental-test-proxy] as given on the command line and the
    enabled experimental features sorted by length, shortest first. *)
Theorem options_carry_launch_flags (args : Args) (env : gmap string string)
    (started : Z) (evs : list Event) :
  let m := fst (run evs (initial args env started)) in
  let t := snd (run evs (initial args env started)) in
  (forall g c, m_gens m !! g = Some c -> launch_flags args (gen_options c)) /\
  (forall h o, In (ESend h o) t -> launch_flags args o) /\
  (forall b o, In (EValidateTurboNextConfig b o) t -> launch_flags args o).
Proof.
  cbv zeta. destruct (launch_flags_run args env started evs) as [[Hg _] Hall].
  pose proof (options_ok_run args env started evs) as Hok.
  split; [exact Hg |]. split.
  - intros h o Hin.
    destruct (ok_sends _ _ _ _ Hok h o Hin) as (g & c & Hl & ->).
    now apply (Hg g c).
  - intros b o Hin. rewrite List.Forall_forall in Hall.
    exact (Hall _ Hin).
Qed.

(** *** A launch that fails *)

Lemma launch_failed_move (m : Machine) (r : Machine * list Effect) :
  launch_failed m -> move m r ->
  launch_failed (fst r) /\ worker_calls (snd r) = 0%nat.
Proof.
  intros [Hp Hg] Hmove.
  assert (Hfo : outside_coordinator is_fork) by (repeat split).
  assert (Hso : outside_coordinator is_send) by (repeat split).
  assert (Hpo : outside_coordinator is_preflight) by (repeat split).
  assert (Hbase : forall d o m1, ~ serve_base m d o m1).
  { intros d o m1 [[E _] | (port & ar & host & files & cfg & features & E & _)];
      rewrite E in Hp; discriminate. }
  unfold worker_calls.
  destruct Hmove; cbn [fst snd];
    try (rewrite Hp in *; discriminate);
    try (rewrite Hg in *; discriminate);
    try (exfalso; eapply Hbase; eassumption);
    try (split; [split; assumption | reflexivity]).
  - destruct H as [(d & port & ar & host & files & E) | (d & o & E)];
      rewrite E in Hp; discriminate.
  - destruct (settle_stop_frame signal o m) as [(_ & _ & _ & Hg' & Hp' & _) Hnone].
    split; [split; congruence |].
    now rewrite (Hnone _ Hfo), (Hnone _ Hso), (Hnone _ Hpo).
  - destruct (settle_resume_frame r o m) as [(_ & _ & _ & Hg' & Hp' & _) Hnone].
    split; [split; congruence |].
    now rewrite (Hnone _ Hfo), (Hnone _ Hso), (Hnone _ Hpo).
Qed.

Lemma worker_calls_app (t t' : list Effect) :
  worker_calls (t ++ t') = (worker_calls t + worker_calls t')%nat.
Proof. unfold worker_calls. rewrite !occurrences_app. lia. Qed.

Lemma launch_failed_run (m : Machine) (evs : list Event) :
  launch_failed m ->
  launch_failed (fst (run evs m)) /\ worker_calls (snd (run evs m)) = 0%nat.
Proof.
  intros Hm.
  apply (run_moves (fun m' t => launch_failed m' /\ worker_calls t = 0%nat)).
  - now split.
  - intros m' t r [Hl Ht] _ Hmove.
    destruct (launch_failed_move m' r Hl Hmove) as [Hl' Ht'].
    split; [exact Hl' |]. rewrite worker_calls_app. lia.
Qed.

Lemma occurrences_zero (p : Effect -> bool) (t : list Effect) :
  (forall e, In e t -> p e = false) -> occurrences p t = 0%nat.
Proof.
  induction t as [|x t IH]; intros H; [reflexivity |].
  rewrite occurrences_cons, (H x) by now left.
  apply IH. intros e Hin. apply H. now right.
Qed.

(** X13: a launch that fails starts nothing. When [loadConfig] rejects, or
    [validateTurboNextConfig] rejects, while [nextDev] awaits it, [nextDev]
    rejects; neither before nor after, whatever events follow, is a worker
    forked, a [deliverOptions] message sent or [preflight] called, and
    [child] stays unassigned. *)
Theorem failed_launch_starts_nothing (args : Args) (env : gmap string string)
    (started : Z) (evs0 evs : list Event) (ev : Event) :
  let m0 := fst (run evs0 (initial args env started)) in
  m_exited m0 = None ->
  (exists features d port ar host files,
     ev = ConfigLoaded None features /\
     m_nextDev m0 = AwaitLoadConfig d port ar host files) \/
  (exists d o, ev = TurboValidated false /\ m_nextDev m0 = AwaitTurbo d o) ->
  let r := run (evs0 ++ ev :: evs) (initial args env started) in
  In ERejected (snd r) /\ m_nextDev (fst r) = Finished /\
  m_gens (fst r) = [] /\ child (m_session (fst r)) = None /\
  occurrences is_fork (snd r) = 0%nat /\ occurrences is_send (snd r) = 0%nat /\
  occurrences is_preflight (snd r) = 0%nat.
Proof.
  intros m0 Ha Hev r.
  pose proof (options_ok_run args env started evs0) as Hok. fold m0 in Hok.
  pose proof (preflight_run args env started evs0) as [Hpre _]. fold m0 in Hpre.
  pose proof (ok_phase _ _ _ _ Hok) as Hph.
  unfold phase_ok in Hph. unfold preflight_phase in Hpre.
  set (t0 := snd (run evs0 (initial args env started))) in *.
  assert (Hstep : step ev m0 = (set_phase Finished m0, [ERejected])).
  { unfold step. rewrite Ha.
    destruct Hev as [(features & d & port & ar & host & files & -> & E)
                    | (d & o & -> & E)]; rewrite E; reflexivity. }
  assert (H0 : m_gens m0 = [] /\ occurrences is_preflight t0 = 0%nat).
  { destruct Hev as [(features & d & port & ar & host & files & _ & E)
                    | (d & o & _ & E)]; rewrite E in Hph, Hpre;
      split; try exact Hpre; apply Hph. }
  destruct H0 as [Hg Hp0].
  assert (Hf0 : occurrences is_fork t0 = 0%nat)
    by (rewrite (ok_forks _ _ _ _ Hok), Hg; reflexivity).
  assert (Hs0 : occurrences is_send t0 = 0%nat).
  { apply occurrences_zero. intros e Hin. destruct e; try reflexivity.
    destruct (ok_sends _ _ _ _ Hok _ _ Hin) as (g & c & Hl & _).
    rewrite Hg in Hl. discriminate. }
  assert (Hfail : launch_failed (set_phase Finished m0)) by now split.
  destruct (launch_failed_run _ evs Hfail) as [[Hp' Hg'] Hw].
  pose proof (addressed_run args env started (evs0 ++ ev :: evs)) as [Hc _].
  fold r in Hc.
  assert (Hr : r = (fst (run evs (set_phase Finished m0)),
                    t0 ++ ERejected :: snd (run evs (set_phase Finished m0)))).
  { unfold r. rewrite run_app. fold m0 t0.
    destruct (run evs0 (initial args env started)) as [m0' t0'] eqn:E0.
    cbn in m0, t0. subst m0 t0. cbn [run]. rewrite Hstep.
    destruct (run evs (set_phase Finished m0')); reflexivity. }
  unfold worker_calls in Hw. rewrite Hr in *. cbn [fst snd] in *.
  split; [apply in_or_app; right; now left |].
  split; [exact Hp' |]. split; [exact Hg' |].
  split; [now rewrite Hc, Hg' |].
  rewrite !occurrences_app, !occurrences_cons, Hf0, Hs0, Hp0. cbn. lia.
Qed.

(** *** Restart after restart *)

(** X14: the restart loop has no ceiling and no delay. When the newest
    worker exits with [RESTART_EXIT_CODE] and no shutdown has begun, and
    then the worker started in its place does the same, [k] times in a
    row, the supervisor answers with exactly [k] forks, one per exit,
    numbered consecutively and all with the same environment; each new
    generation holds the options of the first and a fresh [resolved]
    flag, [child] is the last worker forked, and neither [nextDev] nor
    the shutdown flag is touched. *)
Theorem restart_loop (k : nat) (m : Machine) (n : nat) (c : Generation)
    (o : StopOracle) :
  m_exited m = None -> sessionStopHandled (m_session m) = false ->
  length (m_gens m) = S n -> m_gens m !! n = Some c ->
  let r := run (restarts n k o) m in
  snd r = forks_from (S n) k (forkEnv m) /\
  m_gens (fst r) =
    m_gens m ++ replicate k {| gen_options := gen_options c;
                               gen_resolved := false |} /\
  child (m_session (fst r)) =
    (if k is O then child (m_session m) else Some (n + k)%nat) /\
  m_exited (fst r) = None /\
  sessionStopHandled (m_session (fst r)) = false /\
  m_nextDev (fst r) = m_nextDev m.
Proof.
  revert m n c. induction k as [|k IH]; intros m n c Ha Hs Hlen Hc.
  - cbn. rewrite app_nil_r. repeat split; assumption.
  - cbn [restarts]. cbv zeta. rewrite run_cons.
    rewrite (exit_restart n c None o m Ha Hc Hs eq_refl). cbn [fst snd].
    set (m' := set_gens _ _).
    assert (Hlen' : length (m_gens m') = S (S n))
      by (unfold m'; cbn; rewrite length_app, Hlen; cbn; lia).
    assert (Hc' : m_gens m' !! S n =
                  Some {| gen_options := gen_options c; gen_resolved := false |}).
    { unfold m'. cbn. rewrite lookup_app_r by lia. rewrite Hlen.
      now rewrite Nat.sub_diag. }
    destruct (IH m' (S n) _ Ha Hs Hlen' Hc') as (Ht & Hg & Hch & He & Hst & Hp).
    rewrite Ht, Hg, Hch, He, Hst, Hp. rewrite Hlen.
    split; [reflexivity |]. split.
    { unfold m'. cbn. now rewrite <- app_assoc. }
    split; [| repeat split].
    destruct k; cbn; [now rewrite Hlen, Nat.add_1_r |].
    f_equal. lia.
Qed.

(** *** What comes before a worker *)

Lemma started_up_app (d : string) (t t' : list Effect) :
  started_up d t -> started_up d (t ++ t').
Proof.
  intros (H1 & H2 & H3). repeat split; apply in_or_app; now left.
Qed.

Lemma globals_set_app (t t' : list Effect) :
  globals_set t -> globals_set (t ++ t').
Proof.
  intros (H1 & dist & H2). split; [apply in_or_app; now left |].
  exists dist. apply in_or_app. now left.
Qed.

Lemma ready_app (t t' : list Effect) :
  (exists d, started_up d t /\ globals_set t) ->
  exists d, started_up d (t ++ t') /\ globals_set (t ++ t').
Proof.
  intros (d & H1 & H2). exists d.
  split; [now apply started_up_app | now apply globals_set_app].
Qed.

Lemma forks_after_startup_quiet (t t' : list Effect) :
  forks_after_startup t -> occurrences is_fork t' = 0%nat ->
  forks_after_startup (t ++ t').
Proof.
  intros Ht H0 pre h e post E.
  apply split_app in E as [[l E] | (l & -> & E)].
  - now apply (Ht pre h e l).
  - assert (Hin : In (EFork h e) t') by (rewrite E; apply in_elt).
    apply (occurrences_none _ _ _ H0) in Hin. discriminate.
Qed.

Lemma forks_after_startup_fork (t a : list Effect) (h0 : handle)
    (e0 : gmap string string) :
  forks_after_startup t -> occurrences is_fork a = 0%nat ->
  (exists d, started_up d (t ++ a) /\ globals_set (t ++ a)) ->
  forks_after_startup (t ++ a ++ [EFork h0 e0]).
Proof.
  intros Ht Hf Hr pre h e post E.
  apply split_app in E as [[l E] | (l & -> & E)].
  - now apply (Ht pre h e l).
  - apply split_app in E as [[l' E] | (l' & -> & E)].
    + assert (Hin : In (EFork h e) a) by (rewrite E; apply in_elt).
      apply (occurrences_none _ _ _ Hf) in Hin. discriminate.
    + destruct l' as [|x l'].
      * now rewrite app_nil_r.
      * injection E as _ E. now destruct l'.
Qed.

Lemma startup_quiet (m m' : Machine) (t t' : list Effect) :
  m_nextDev m' = m_nextDev m -> (m_gens m = [] -> m_gens m' = []) ->
  occurrences is_fork t' = 0%nat ->
  startup_ok m t /\ forks_after_startup t ->
  startup_ok m' (t ++ t') /\ forks_after_startup (t ++ t').
Proof.
  intros Hp Hg Hf [H1 H2]. split; [| now apply forks_after_startup_quiet].
  unfold startup_ok in *. rewrite Hp.
  destruct (m_nextDev m); try exact I;
    try (now apply started_up_app); try (now apply ready_app).
  - apply in_or_app. now left.
  - destruct H1 as [H1 | H1]; [left; auto | right; now apply ready_app].
Qed.

Lemma startup_move (args : Args) (env : gmap string string) (m : Machine)
    (t : list Effect) (r : Machine * list Effect) :
  options_ok args env m t ->
  startup_ok m t /\ forks_after_startup t ->
  m_exited m = None -> move m r ->
  startup_ok (fst r) (t ++ snd r) /\ forks_after_startup (t ++ snd r).
Proof.
  intros Hok HP Ha Hmove.
  pose proof (ok_phase _ _ _ _ Hok) as Hph. unfold phase_ok in Hph.
  assert (Hfo : outside_coordinator is_fork) by (repeat split).
  assert (Hval : m_gens m <> [] -> exists d, started_up d t /\ globals_set t).
  { intros Hg. destruct HP as [H1 _]. unfold startup_ok in H1.
    destruct (m_nextDev m); try exact H1;
      try (destruct Hph as (_ & Hn & _); contradiction);
      try (destruct Hph as (Hn & _); contradiction).
    destruct H1 as [H1 | H1]; [contradiction | exact H1]. }
  assert (Hbase : forall d o m1, serve_base m d o m1 ->
            m_gens m1 = [] /\ started_up d t).
  { intros d o m1 Hb. destruct HP as [H1 _]. unfold startup_ok in H1.
    destruct (serve_base_frame _ _ _ _ Hb) as (_ & _ & Hg & _). rewrite Hg.
    destruct Hb as [[E _] | (port & ar & host & files & cfg & features & E & _)];
      rewrite E in H1, Hph; split; try exact H1; apply Hph. }
  assert (Hglob : forall d dist rest, started_up d t ->
            exists d', started_up d'
              (t ++ ESetGlobal "phase" PHASE_DEVELOPMENT_SERVER
                    :: ESetGlobal "distDir" dist :: rest) /\
            globals_set
              (t ++ ESetGlobal "phase" PHASE_DEVELOPMENT_SERVER
                    :: ESetGlobal "distDir" dist :: rest)).
  { intros d dist rest Hs. exists d. split; [now apply started_up_app |].
    split; [apply in_or_app; right; now left |].
    exists dist. apply in_or_app. right. right. now left. }
  destruct Hmove; cbn [fst snd];
    try (apply (startup_quiet m);
         [reflexivity
         | first [exact (fun E => E) | intros E; cbn; now rewrite E]
         | reflexivity | exact HP]).
  all: destruct HP as [Hs Hfa]; unfold startup_ok in Hs.
  - (* the directory *)
    split; [| now apply forks_after_startup_quiet].
    unfold startup_ok. cbn. apply in_or_app. right. now left.
  - (* loadEnvConfig, loadConfig *)
    rewrite H in Hs. split; [| now apply forks_after_startup_quiet].
    unfold startup_ok, started_up. cbn.
    split; [apply in_or_app; now left |].
    split; apply in_or_app; right; [now left | right; now left].
  - (* loadConfig or the bundler check rejects *)
    split; [| now apply forks_after_startup_quiet].
    unfold startup_ok. cbn. left.
    destruct H as [(d & port & ar & host & files & E) | (d & o & E)];
      rewrite E in Hph; apply Hph.
  - (* the bundler check *)
    rewrite H in Hs. split; [| now apply forks_after_startup_quiet].
    unfold startup_ok. cbn [m_nextDev set_phase]. now apply started_up_app.
  - (* no configuration *)
    destruct (Hbase d o m1 H) as [Hg _].
    split; [| now apply forks_after_startup_quiet].
    unfold startup_ok. cbn. now left.
  - (* the first fork *)
    destruct (Hbase d o m1 H) as [Hg Hd].
    split.
    + unfold startup_ok. cbn [m_nextDev forked set_phase]. now apply (Hglob d).
    + change (ESetGlobal "phase" PHASE_DEVELOPMENT_SERVER
                :: ESetGlobal "distDir" dist
                :: pre ++ [EFork (length (m_gens m1)) (forkEnv m1)])
        with ((ESetGlobal "phase" PHASE_DEVELOPMENT_SERVER
                 :: ESetGlobal "distDir" dist :: pre)
              ++ [EFork (length (m_gens m1)) (forkEnv m1)]).
      apply forks_after_startup_fork; [exact Hfa | | now apply (Hglob d)].
      rewrite !occurrences_cons.
      destruct H0 as [(_ & _ & ->) | (_ & k & c & _ & _ & _ & ->)]; reflexivity.
  - (* the certificate is asked for *)
    destruct (Hbase d o m1 H) as [Hg Hd].
    split; [| now apply forks_after_startup_quiet].
    unfold startup_ok. cbn [m_nextDev set_phase]. now apply (Hglob d).
  - (* the certificate arrives *)
    rewrite H in Hs. split.
    + unfold startup_ok. cbn [m_nextDev forked set_phase]. now apply ready_app.
    + apply (forks_after_startup_fork t []); [exact Hfa | reflexivity |].
      now rewrite app_nil_r.
  - (* preflight returns *)
    rewrite H in Hs. split; [| now apply forks_after_startup_quiet].
    unfold startup_ok. cbn. right. now apply ready_app.
  - (* the coordinator *)
    destruct (settle_stop_frame signal o m) as [(_ & _ & _ & Hg & Hp & _) Hout].
    apply (startup_quiet m); try assumption.
    + intros E. now rewrite Hg.
    + exact (Hout _ Hfo).
    + exact (conj Hs Hfa).
  - (* the coordinator resumed *)
    destruct (settle_resume_frame r o m) as [(_ & _ & _ & Hg & Hp & _) Hout].
    apply (startup_quiet m); try assumption.
    + intros E. now rewrite Hg.
    + exact (Hout _ Hfo).
    + exact (conj Hs Hfa).
  - (* the promise resolves, nextDev goes on *)
    rewrite H1 in Hs. split; [| now apply forks_after_startup_quiet].
    unfold startup_ok. cbn [m_nextDev set_phase]. now apply ready_app.
  - (* restart *)
    assert (Hg : m_gens m <> []) by (intros E; rewrite E in H; discriminate).
    pose proof (Hval Hg) as Hr.
    split.
    + unfold startup_ok. cbn [m_nextDev startServer fst set_gens set_session].
      pose proof (ready_app t [EFork (length (m_gens m)) (forkEnv m)] Hr) as Hr'.
      destruct (m_nextDev m); try exact Hr';
        try (destruct Hph as (_ & Hn & _); contradiction);
        try (destruct Hph as (Hn & _); contradiction).
      right. exact Hr'.
    + apply (forks_after_startup_fork t []); [exact Hfa | reflexivity |].
      now rewrite app_nil_r.
Qed.

Lemma startup_run (args : Args) (env : gmap string string) (started : Z)
    (evs : list Event) :
  startup_ok (fst (run evs (initial args env started)))
    (snd (run evs (initial args env started))) /\
  forks_after_startup (snd (run evs (initial args env started))).
Proof.
  apply (run_moves_ok args env started
           (fun m t => startup_ok m t /\ forks_after_startup t)).
  - split; [exact I |]. intros pre h e post E. now destruct pre.
  - intros m t r Hok _ HP Ha Hmove. now apply (startup_move args env m t r).
Qed.

(** X15: no worker before the project is set up. In every schedule of
    events each fork, the first and every restart, comes after [nextDev]
    has checked the project directory with [fileExists], loaded the
    environment files with [loadEnvConfig] and called [loadConfig], all on
    the one project directory of line 128, and after it has set the trace
    globals [phase] and [distDir]. *)
Theorem fork_follows_startup (args : Args) (env : gmap string string)
    (started : Z) (evs : list Event) :
  let d := getProjectDir (js_or (env !! "NEXT_PRIVATE_DEV_DIR")
                                (head (arg_positional args))) in
  let t := snd (run evs (initial args env started)) in
  forall pre h e post, t = pre ++ EFork h e :: post ->
    In (EFileExists d) pre /\ In (ELoadEnvConfig d) pre /\
    In (ELoadConfig (Some d)) pre /\
    In (ESetGlobal "phase" PHASE_DEVELOPMENT_SERVER) pre /\
    exists dist, In (ESetGlobal "distDir" dist) pre.
Proof.
  cbv zeta. intros pre h e post E.
  destruct (startup_run args env started evs) as [_ Hfa].
  destruct (dir_run args env started evs) as [_ Hall].
  destruct (Hfa pre h e post E) as (d & (H1 & H2 & H3) & H4 & H5).
  rewrite List.Forall_forall in Hall.
  assert (Hd : d = projectDir args env).
  { apply (Hall (EFileExists d)). rewrite E. apply in_or_app. now left. }
  unfold projectDir in Hd. rewrite <- Hd. auto.
Qed.

(** *** The certificate of the HTTPS mode *)

Lemma nextDev_serve_https (d : string) (o : StartServerOptions) (m1 : Machine)
    (args : Args) :
  m_args m1 = args -> truthy_flag (arg_https args) = true ->
  config (m_session m1) <> None -> m_gens m1 = [] -> m_exited m1 = None ->
  let res := nextDev_serve d o m1 in
  match explicit_certificate args with
  | Some ce =>
      occurrences is_create_certificate (snd res) = 0%nat /\
      occurrences is_fork (snd res) = 1%nat /\
      exists c, m_gens (fst res) = [c] /\ gen_resolved c = false /\
                opt_selfSignedCertificate (gen_options c) = Some ce
  | None =>
      occurrences is_create_certificate (snd res) = 1%nat /\
      In (ECreateSelfSignedCertificate (arg_hostname args)) (snd res) /\
      occurrences is_fork (snd res) = 0%nat /\
      m_exited (fst res) = None /\
      exists o', m_nextDev (fst res) = AwaitCertificate false o'
  end.
Proof.
  intros Hargs Hhttps Hc Hg Ha. cbv zeta. unfold nextDev_serve.
  destruct (config (m_session m1)) as [cfg|]; [| contradiction].
  unfold runDevServer, explicit_certificate. rewrite Hargs, Hhttps.
  destruct (truthy_value (arg_https_key args)) as [k|];
    [destruct (truthy_value (arg_https_cert args)) as [c|] |].
  - unfold startServer. rewrite Hg. cbn.
    split; [reflexivity |]. split; [reflexivity |].
    eexists. split; [reflexivity |]. split; reflexivity.
  - cbn. repeat split; auto. eauto.
  - cbn. repeat split; auto. eauto.
Qed.

Lemma config_known_move (m : Machine) (r : Machine * list Effect) :
  config_known m -> move m r -> config_known (fst r).
Proof.
  intros Hk Hmove. unfold config_known in *.
  destruct Hmove; cbn [fst]; try exact Hk; try exact I.
  - (* the bundler check *)
    unfold configured. cbn.
    destruct (truthy (arg_upload_trace (m_args m))); discriminate.
  - (* the coordinator *)
    destruct (settle_stop_frame signal o m) as [(_ & _ & _ & _ & Hp & _) _].
    rewrite Hp. destruct (m_nextDev m); try exact I.
    destruct (settle_stop_cases signal o m) as (s' & t & _ & Hcfg & _ & Hcases).
    destruct Hcases as [(_ & -> & _) | (_ & _ & [[-> _] | [(-> & _) | (-> & _)]])];
      cbn; rewrite ?Hcfg; exact Hk.
  - (* the coordinator resumed *)
    destruct (settle_resume_frame r o m) as [(_ & _ & _ & _ & Hp & _) _].
    rewrite Hp. destruct (m_nextDev m); try exact I.
    destruct (settle_resume_cases r o m) as (s' & _ & _ & Hcfg & Hcases).
    assert (Hs : config s' <> None)
      by (destruct Hcfg as [-> | [cfg ->]]; [exact Hk | discriminate]).
    destruct Hcases as [[-> _] | (-> & _)]; cbn; exact Hs.
Qed.

Lemma config_known_run (args : Args) (env : gmap string string) (started : Z)
    (evs : list Event) :
  config_known (fst (run evs (initial args env started))).
Proof.
  apply (run_moves (fun m _ => config_known m)).
  - exact I.
  - intros m t r Hk _ Hmove. now apply (config_known_move m r).
Qed.


(** C8: the process is started with [--experimental-https]; [m] and [t]
    are its state and trace after any schedule of events.
    (1) With both a key path and a certificate path,
    [createSelfSignedCertificate] is never called and every worker
    generation carries the two paths, resolved by [path.resolve].
    (2) Otherwise [createSelfSignedCertificate] is called at most once,
    with the hostname of the command line, and exactly once when a worker
    exists. While [runDevServer] waits for the certificate no worker has
    been forked; the certificate it receives goes into the options of the
    first fork, and every generation of every later state carries these
    options.
    (3) All generations carry the same options, every send delivers
    them, and every generation was forked once.
    (4) Whenever [nextDev] gets to [runDevServer] - its configuration
    has arrived and the bundler need not be checked, or that check has
    returned - the step does what the mode asks for. With both paths it
    forks the first worker at once, with the certificate of the two
    resolved paths in its options and without creating one. Otherwise it
    calls [createSelfSignedCertificate] once, with the hostname of the
    command line, forks nothing, and waits for the certificate; by (2) the
    certificate then goes into the first fork and stays in the options of
    every restart, none being created again. The paths are supplied when
    they are truthy, as the code tests them. *)
Theorem https_certificate (args : Args) (env : gmap string string)
    (started : Z) (evs : list Event) :
  truthy_flag (arg_https args) = true ->
  let m := fst (run evs (initial args env started)) in
  let t := snd (run evs (initial args env started)) in
  (forall k c,
     truthy_value (arg_https_key args) = Some k ->
     truthy_value (arg_https_cert args) = Some c ->
     occurrences is_create_certificate t = 0%nat /\
     forall g gen, m_gens m !! g = Some gen ->
       opt_selfSignedCertificate (gen_options gen) =
         Some {| key := path_resolve k; cert := path_resolve c |}) /\
  (truthy_value (arg_https_key args) = None \/
   truthy_value (arg_https_cert args) = None ->
     (occurrences is_create_certificate t <= 1)%nat /\
     (forall host, In (ECreateSelfSignedCertificate host) t ->
        host = arg_hostname args) /\
     (m_gens m <> [] -> occurrences is_create_certificate t = 1%nat) /\
     (forall rb o oc evs',
        m_exited m = None -> m_nextDev m = AwaitCertificate rb o ->
        occurrences is_create_certificate t = 1%nat /\
        occurrences is_fork t = 0%nat /\
        snd (step (CertificateCreated (Some oc)) m) = [EFork 0%nat (forkEnv m)] /\
        let m' := fst (run (CertificateCreated (Some oc) :: evs') m) in
        m_gens m' <> [] /\
        forall g gen, m_gens m' !! g = Some gen ->
          gen_options gen = with_certificate oc o)) /\
  (forall g gen g' gen',
     m_gens m !! g = Some gen -> m_gens m !! g' = Some gen' ->
     gen_options gen = gen_options gen') /\
  (forall h o g gen,
     In (ESend h o) t -> m_gens m !! g = Some gen -> o = gen_options gen) /\
  occurrences is_fork t = length (m_gens m) /\
  (forall ev,
     m_exited m = None -> launches ev m ->
     match explicit_certificate args with
     | Some ce =>
         occurrences is_create_certificate (snd (step ev m)) = 0%nat /\
         occurrences is_fork (snd (step ev m)) = 1%nat /\
         exists c, m_gens (fst (step ev m)) = [c] /\
                   gen_resolved c = false /\
                   opt_selfSignedCertificate (gen_options c) = Some ce
     | None =>
         occurrences is_create_certificate (snd (step ev m)) = 1%nat /\
         In (ECreateSelfSignedCertificate (arg_hostname args)) (snd (step ev m)) /\
         occurrences is_fork (snd (step ev m)) = 0%nat /\
         m_exited (fst (step ev m)) = None /\
         exists o, m_nextDev (fst (step ev m)) = AwaitCertificate false o
     end).
Proof.
  intros Hhttps m t.
  pose proof (options_ok_run args env started evs) as Hok.
  fold m t in Hok.
  split; [| split; [| split; [| split; [| split]]]].
  - intros k c Hk Hc.
    assert (Hexp : explicit_certificate args =
                   Some {| key := path_resolve k; cert := path_resolve c |})
      by (unfold explicit_certificate; now rewrite Hk, Hc).
    split.
    + apply (ok_create_never _ _ _ _ Hok). right. congruence.
    + intros g gen Hg.
      destruct (ok_shape _ _ _ _ Hok g gen Hg) as [_ [_ Hcert]]. auto.
  - intros Hnone.
    assert (Hexp : explicit_certificate args = None).
    { unfold explicit_certificate. destruct Hnone as [-> | ->]; [reflexivity |].
      destruct (truthy_value (arg_https_key args)); reflexivity. }
    split; [apply (ok_create _ _ _ _ Hok) |].
    split; [apply (ok_create_host _ _ _ _ Hok) |].
    split; [intros Hn; now apply (ok_create_once _ _ _ _ Hok) |].
    intros rb o oc evs' Ha Hph.
    pose proof (ok_phase _ _ _ _ Hok) as Hphase.
    unfold phase_ok in Hphase. rewrite Hph in Hphase.
    destruct Hphase as (Hnil & H1 & _).
    assert (Hstep : step (CertificateCreated (Some oc)) m =
              (set_phase (AwaitServerReady rb 0%nat)
                 (set_gens [{| gen_options := with_certificate oc o;
                                gen_resolved := false |}]
                    (set_session (set_child 0%nat (m_session m)) m)),
               [EFork 0%nat (forkEnv m)])).
    { unfold step. rewrite Ha, Hph.
      unfold runDevServer_certificate, startServer. rewrite Hnil. reflexivity. }
    split; [exact H1 |].
    split; [rewrite (ok_forks _ _ _ _ Hok), Hnil; reflexivity |].
    split; [now rewrite Hstep |].
    cbv zeta. rewrite run_cons. cbn [fst]. rewrite Hstep. cbn [fst].
    match goal with |- context [run evs' ?m1] => set (m1' := m1) end.
    destruct (options_persist_run evs' m1' 0%nat
                {| gen_options := with_certificate oc o; gen_resolved := false |}
                eq_refl) as (c0 & H0 & Hopt).
    pose proof (options_ok_run args env started
                  (evs ++ CertificateCreated (Some oc) :: evs')) as Hok'.
    rewrite run_app in Hok'. cbn [fst snd] in Hok'. fold m in Hok'.
    rewrite run_cons in Hok'. cbn [fst snd] in Hok'.
    rewrite Hstep in Hok'. cbn [fst snd] in Hok'. fold m1' in Hok'.
    split.
    + intros He. rewrite He in H0. discriminate.
    + intros g gen Hg. simpl in Hopt. rewrite <- Hopt.
      apply (ok_same _ _ _ _ Hok' g gen 0%nat c0 Hg H0).
  - apply (ok_same _ _ _ _ Hok).
  - intros h o g gen Hin Hg.
    destruct (ok_sends _ _ _ _ Hok h o Hin) as (g0 & c0 & H0 & ->).
    apply (ok_same _ _ _ _ Hok g0 c0 g gen H0 Hg).
  - apply (ok_forks _ _ _ _ Hok).
  - intros ev Ha Hl.
    pose proof (ok_args _ _ _ _ Hok) as Hargs.
    pose proof (ok_phase _ _ _ _ Hok) as Hph. unfold phase_ok in Hph.
    pose proof (config_known_run args env started evs) as Hcfg.
    fold m in Hcfg. unfold config_known in Hcfg. unfold launches in Hl.
    destruct ev as [| |r features|ok| | | | | |]; try contradiction.
    + destruct r as [cfg|]; [| contradiction].
      destruct (m_nextDev m) as [| |d port ar host files| | | | |] eqn:Hp;
        try contradiction.
      destruct Hph as (Hg & _).
      unfold step. rewrite Ha, Hp.
      change (nextDev_config d port ar host files (Some cfg) features m)
        with (if truthy (m_env (configured cfg m) !! "TURBOPACK")
              then (set_phase
                      (AwaitTurbo d (launch_options d port ar host files
                                       features (m_args m)))
                      (configured cfg m),
                    [EValidateTurboNextConfig
                       (truthy (m_env (configured cfg m)
                                  !! "__INTERNAL_CUSTOM_TURBOPACK_BINDINGS"))
                       (launch_options d port ar host files
                          features (m_args m))])
              else nextDev_serve d
                     (launch_options d port ar host files features (m_args m))
                     (configured cfg m)).
      rewrite Hl.
      apply (nextDev_serve_https d _ (configured cfg m) args); try assumption.
      * unfold configured. cbn.
        destruct (truthy (arg_upload_trace (m_args m))); discriminate.
    + destruct ok; [| destruct (m_nextDev m); contradiction].
      destruct (m_nextDev m) as [| | |d o| | | |] eqn:Hp; try contradiction.
      destruct Hph as (Hg & _).
      unfold step. rewrite Ha, Hp.
      now apply (nextDev_serve_https d o m args).
Qed.

(** *** A worker started during a shutdown *)

(** X16: the resumed coordinator signals no worker. A termination signal
    that arrives before the configuration is loaded leaves the
    coordinator waiting for its own [loadConfig], its one [child.kill]
    already behind it, while [nextDev] may go on and fork a worker. When
    that [loadConfig] settles, with a configuration or an error, the
    coordinator exits with status 0 without calling [child.kill]: [child]
    is as it was, and a worker forked in between is never signalled by
    it. *)
Theorem resumed_coordinator_signals_no_worker (args : Args)
    (env : gmap string string) (started : Z) (evs : list Event)
    (r : option NextConfigComplete) (o : StopOracle) :
  let m := fst (run evs (initial args env started)) in
  m_exited m = None -> m_stopPending m = true ->
  let res := step (StopConfigLoaded r o) m in
  m_exited (fst res) = Some 0 /\ occurrences is_kill (snd res) = 0%nat /\
  child (m_session (fst res)) = child (m_session m) /\
  m_gens (fst res) = m_gens m.
Proof.
  intros m Ha Hpend res. unfold res. rewrite (step_resume r o m Ha), Hpend.
  assert (Hok : session_ok m)
    by (apply session_ok_run, session_ok_initial).
  destruct (resumed_stop_quiet r o m Hok) as (_ & _ & He & _).
  destruct (settle_resume_frame r o m) as [(_ & _ & _ & Hg & _ & Hsame) _].
  destruct Hsame as (_ & Hch & _).
  split; [exact He |]. split; [| split; [exact Hch | exact Hg]].
  destruct (settle_resume_cases r o m) as (s' & _ & _ & _ & Hcases).
  destruct Hcases as [[_ Hs] | (_ & -> & _)]; [| reflexivity].
  apply shutdown_sequence_outside; [| exact Hs]. repeat split.
Qed.

End Further.

(** ** The further properties on the concrete session *)

(** [loadConfig] rejects; a stray exit and a stray message follow. *)
Lemma failed_launch_starts_nothing_witness :
  occurrences is_fork
    (snd (run (X := Demo.collaborators)
            ([NextDevCalled; FileExistsSettled true Demo.loadedEnv]
             ++ ConfigLoaded None None
                :: [WorkerExit 0%nat (Some 77) None Demo.calm;
                    WorkerMessage 0%nat Demo.ready])
            (initial Demo.args Demo.env 1000))) = 0%nat /\
  m_nextDev
    (fst (run (X := Demo.collaborators)
            ([NextDevCalled; FileExistsSettled true Demo.loadedEnv]
             ++ ConfigLoaded None None
                :: [WorkerExit 0%nat (Some 77) None Demo.calm;
                    WorkerMessage 0%nat Demo.ready])
            (initial Demo.args Demo.env 1000))) = Finished.
Proof.
  destruct (failed_launch_starts_nothing (X := Demo.collaborators)
              Demo.args Demo.env 1000
              [NextDevCalled; FileExistsSettled true Demo.loadedEnv]
              [WorkerExit 0%nat (Some 77) None Demo.calm;
               WorkerMessage 0%nat Demo.ready]
              (ConfigLoaded None None))
    as (_ & Hp & _ & _ & Hf & _).
  - reflexivity.
  - left. exists None, "app", 3000, true, None, []. split; reflexivity.
  - split; [exact Hf | exact Hp].
Defined.

(** The first worker asks for a restart, and so do the next two. *)
Lemma restart_loop_witness :
  snd (run (X := Demo.collaborators)
         (restarts (X := Demo.collaborators) 0 3 Demo.calm)
         (Demo.started Demo.args)) =
    forks_from 1 3 (forkEnv (Demo.started Demo.args)) /\
  child (m_session
           (fst (run (X := Demo.collaborators)
                   (restarts (X := Demo.collaborators) 0 3 Demo.calm)
                   (Demo.started Demo.args)))) = Some 3%nat.
Proof.
  destruct (restart_loop (X := Demo.collaborators) 3 (Demo.started Demo.args)
              0 Demo.generation Demo.calm)
    as (Ht & _ & Hc & _).
  - reflexivity.
  - reflexivity.
  - reflexivity.
  - reflexivity.
  - split; [exact Ht | exact Hc].
Defined.

(** The first worker of [next dev app] and what came before it. *)
Lemma fork_follows_startup_witness :
  snd (run (X := Demo.collaborators) Demo.launch
         (initial Demo.args Demo.env 1000)) =
    [EFileExists "app"; ELoadEnvConfig "app"; ELoadConfig (Some "app");
     ESetGlobal "phase" "phase-development-server";
     ESetGlobal "distDir" "app/.next"]
    ++ EFork 0%nat (forkEnv (Demo.started Demo.args)) :: [] /\
  In (ELoadConfig (Some "app"))
    [EFileExists "app"; ELoadEnvConfig "app"; ELoadConfig (Some "app");
     ESetGlobal "phase" "phase-development-server";
     ESetGlobal "distDir" "app/.next"].
Proof.
  assert (E : snd (run (X := Demo.collaborators) Demo.launch
                     (initial Demo.args Demo.env 1000)) =
              [EFileExists "app"; ELoadEnvConfig "app"; ELoadConfig (Some "app");
               ESetGlobal "phase" "phase-development-server";
               ESetGlobal "distDir" "app/.next"]
              ++ EFork 0%nat (forkEnv (Demo.started Demo.args)) :: [])
    by reflexivity.
  split; [exact E |].
  destruct (fork_follows_startup (X := Demo.collaborators)
              Demo.args Demo.env 1000 Demo.launch _ _ _ _ E) as (_ & _ & H & _).
  exact H.
Defined.

(** [SIGINT] arrives while [nextDev] loads the configuration; the first
    worker is forked all the same, and is not signalled when the
    coordinator goes on. *)
Lemma resumed_coordinator_signals_no_worker_witness :
  child (m_session
           (fst (run (X := Demo.collaborators)
                   [NextDevCalled; FileExistsSettled true Demo.loadedEnv;
                    SignalReceived SIGINT Demo.calm;
                    ConfigLoaded (Some Demo.nextConfig) None]
                   (initial Demo.args Demo.env 1000)))) = Some 0%nat /\
  occurrences is_kill
    (snd (step (X := Demo.collaborators)
            (StopConfigLoaded (Some Demo.nextConfig) Demo.calm)
            (fst (run (X := Demo.collaborators)
                    [NextDevCalled; FileExistsSettled true Demo.loadedEnv;
                     SignalReceived SIGINT Demo.calm;
                     ConfigLoaded (Some Demo.nextConfig) None]
                    (initial Demo.args Demo.env 1000))))) = 0%nat /\
  m_exited
    (fst (step (X := Demo.collaborators)
            (StopConfigLoaded (Some Demo.nextConfig) Demo.calm)
            (fst (run (X := Demo.collaborators)
                    [NextDevCalled; FileExistsSettled true Demo.loadedEnv;
                     SignalReceived SIGINT Demo.calm;
                     ConfigLoaded (Some Demo.nextConfig) None]
                    (initial Demo.args Demo.env 1000))))) = Some 0.
Proof.
  destruct (resumed_coordinator_signals_no_worker (X := Demo.collaborators)
              Demo.args Demo.env 1000
              [NextDevCalled; FileExistsSettled true Demo.loadedEnv;
               SignalReceived SIGINT Demo.calm;
               ConfigLoaded (Some Demo.nextConfig) None]
              (Some Demo.nextConfig) Demo.calm)
    as (He & Hk & _).
  - reflexivity.
  - reflexivity.
  - split; [reflexivity |]. split; [exact Hk | exact He].
Defined.

(** With both paths the step that reaches [runDevServer] forks at once.
    [next dev app --experimental-https]: that step asks for a
    certificate, its arrival forks the first worker, and a restart
    follows. *)
Lemma https_certificate_witness :
  occurrences is_fork
    (snd (step (X := Demo.collaborators) (ConfigLoaded (Some Demo.nextConfig) None)
            (fst (run (X := Demo.collaborators)
                    [NextDevCalled; FileExistsSettled true Demo.loadedEnv]
                    (initial (Demo.with_https (Some "key.pem") (Some "cert.pem")
                                Demo.args) Demo.env 1000)))))
    = 1%nat /\
  occurrences is_create_certificate
    (snd (step (X := Demo.collaborators) (ConfigLoaded (Some Demo.nextConfig) None)
            (fst (run (X := Demo.collaborators)
                    [NextDevCalled; FileExistsSettled true Demo.loadedEnv]
                    (initial (Demo.with_https None None Demo.args) Demo.env 1000)))))
    = 1%nat /\
  occurrences is_fork
    (snd (step (X := Demo.collaborators) (ConfigLoaded (Some Demo.nextConfig) None)
            (fst (run (X := Demo.collaborators)
                    [NextDevCalled; FileExistsSettled true Demo.loadedEnv]
                    (initial (Demo.with_https None None Demo.args) Demo.env 1000)))))
    = 0%nat /\
  snd (step (X := Demo.collaborators)
         (CertificateCreated (Some (Some Demo.certificate)))
         (fst (run (X := Demo.collaborators) Demo.launch
                 (initial (Demo.with_https None None Demo.args) Demo.env 1000))))
    = [EFork 0%nat
         (forkEnv
            (fst (run (X := Demo.collaborators) Demo.launch
                    (initial (Demo.with_https None None Demo.args)
                       Demo.env 1000))))] /\
  (occurrences is_create_certificate
     (snd (run (X := Demo.collaborators) Demo.https_schedule
             (initial (Demo.with_https None None Demo.args) Demo.env 1000)))
   <= 1)%nat /\
  occurrences is_fork
    (snd (run (X := Demo.collaborators) Demo.https_schedule
            (initial (Demo.with_https None None Demo.args) Demo.env 1000)))
    = length
        (m_gens
           (fst (run (X := Demo.collaborators) Demo.https_schedule
                   (initial (Demo.with_https None None Demo.args) Demo.env 1000)))).
Proof.
  destruct (https_certificate (X := Demo.collaborators)
              (Demo.with_https (Some "key.pem") (Some "cert.pem") Demo.args)
              Demo.env 1000
              [NextDevCalled; FileExistsSettled true Demo.loadedEnv] eq_refl)
    as (_ & _ & _ & _ & _ & E).
  destruct (E (ConfigLoaded (Some Demo.nextConfig) None) eq_refl eq_refl)
    as (_ & E2 & _).
  split; [exact E2 |].
  destruct (https_certificate (X := Demo.collaborators)
              (Demo.with_https None None Demo.args) Demo.env 1000
              [NextDevCalled; FileExistsSettled true Demo.loadedEnv] eq_refl)
    as (_ & _ & _ & _ & _ & L).
  destruct (L (ConfigLoaded (Some Demo.nextConfig) None) eq_refl eq_refl)
    as (L1 & _ & L3 & _).
  destruct (https_certificate (X := Demo.collaborators)
              (Demo.with_https None None Demo.args) Demo.env 1000
              Demo.launch eq_refl)
    as (_ & W & _).
  destruct (W (or_introl eq_refl)) as (_ & _ & _ & W4).
  destruct (W4 false
              (launch_options "app" 3000 true None []
                 None (Demo.with_https None None Demo.args))
              (Some Demo.certificate) [] eq_refl eq_refl)
    as (_ & _ & W3 & _).
  destruct (https_certificate (X := Demo.collaborators)
              (Demo.with_https None None Demo.args) Demo.env 1000
              Demo.https_schedule eq_refl)
    as (_ & H2 & _ & _ & H5 & _).
  split; [exact L1 |]. split; [exact L3 |]. split; [exact W3 |].
  split; [exact (proj1 (H2 (or_introl eq_refl))) | exact H5].
Defined.
